(** * UnixFilesystem (talk/base/unixfilesystem.cc): a shallow embedding

    The adapter is a thin layer over POSIX calls, so the embedding has two
    parts.  The methods of [UnixFilesystem] are written as programs over the
    calls they make ([prog]); an operating system is anything that answers
    those calls ([OS]), and [run] executes a program against one, recording
    the calls made and the answers received.  Statements quantified over
    every [OS] hold whatever the system answers; statements that need the
    meaning of the calls are made against [posix], a small model of a POSIX
    name space with regular files and directories. *)

From Stdlib Require Import ZArith Lia Ascii String List DecimalString.
From stdpp Require Import gmap strings list fin_maps.
From Equations.Prop Require Import Equations Logic.

Local Open Scope string_scope.
Local Open Scope list_scope.

(** ** std::string helpers *)

Definition sep : ascii := "/"%char.

(** [s[i] == '/'], for an index inside the string. *)
Definition is_sep_at (s : string) (i : nat) : bool :=
  match String.get i s with
  | Some c => Ascii.eqb c sep
  | None => false
  end.

Definition ends_with_sep (s : string) : bool :=
  match String.length s with
  | O => false
  | S n => is_sep_at s n
  end.

(** [strncmp(s, pre, strlen(pre)) == 0] for a prefix without NUL bytes. *)
Fixpoint starts_with (pre s : string) : bool :=
  match pre, s with
  | EmptyString, _ => true
  | String _ _, EmptyString => false
  | String a pre', String b s' => (Ascii.eqb a b && starts_with pre' s')%bool
  end.

(** ** Pathname *)

(** Modelled from the spec: the [Pathname] value type of
    talk/base/pathutils.h, which this file only uses.  The spec describes
    a path decomposed into a folder segment and a leaf-name segment, where
    a folder path is separator-terminated, with operations to set the
    whole path, set the folder and append a folder segment. *)
Record Pathname := mkPathname { folder_ : string; basename_ : string }.

(** Modelled from the spec: [Pathname::pathname], the segments put
    together again. *)
Definition pathname (p : Pathname) : string := folder_ p +:+ basename_ p.

(** Modelled from the spec: a folder path is separator-terminated (the
    empty folder stays empty). *)
Definition terminate_folder (folder : string) : string :=
  if (negb (String.length folder =? 0)%nat && negb (ends_with_sep folder))%bool
  then folder +:+ "/" else folder.

(** Modelled from the spec: [Pathname::SetFolder]. *)
Definition SetFolder (p : Pathname) (folder : string) : Pathname :=
  {| folder_ := terminate_folder folder; basename_ := basename_ p |}.

(** Modelled from the spec: [Pathname::AppendFolder]. *)
Definition AppendFolder (p : Pathname) (folder : string) : Pathname :=
  {| folder_ := terminate_folder (folder_ p +:+ folder); basename_ := basename_ p |}.

(** Modelled from the spec: [Pathname::SetFilename], the leaf name. *)
Definition SetFilename (p : Pathname) (filename : string) : Pathname :=
  {| folder_ := folder_ p; basename_ := filename |}.

(** Modelled from the spec: [Pathname::SetPathname(folder, filename)]. *)
Definition SetPathname2 (p : Pathname) (folder filename : string) : Pathname :=
  SetFilename (SetFolder p folder) filename.

(** Split after the last separator: (folder part, leaf part). *)
Fixpoint split_folder (s : string) : string * string :=
  match s with
  | EmptyString => (EmptyString, EmptyString)
  | String c s' =>
      let (f, b) := split_folder s' in
      match f with
      | String _ _ => (String c f, b)
      | EmptyString =>
          if Ascii.eqb c sep then (String c EmptyString, b)
          else (EmptyString, String c b)
      end
  end.

(** Modelled from the spec: [Pathname::SetPathname(pathname)], which
    decomposes the path into its folder and leaf-name segments. *)
Definition SetPathname (p : Pathname) (s : string) : Pathname :=
  let (f, b) := split_folder s in SetFilename (SetFolder p f) b.

Definition empty_Pathname : Pathname := {| folder_ := ""; basename_ := "" |}.

(** Modelled from the spec: the converting constructor
    [Pathname(const std::string&)]. *)
Definition Pathname_of (s : string) : Pathname := SetPathname empty_Pathname s.

(** ** Results of the calls *)

(** [errno]: the codes this file or the model names, and any other. *)
Inductive errno : Set :=
| ENOENT | ENOTDIR | EXDEV | EACCES | EEXIST | EISDIR | ENOTEMPTY
| ENOSPC | EBUSY | EINVAL | EBADF
| Eother (code : Z).

Definition errno_eqb (a b : errno) : bool :=
  match a, b with
  | ENOENT, ENOENT | ENOTDIR, ENOTDIR | EXDEV, EXDEV | EACCES, EACCES
  | EEXIST, EEXIST | EISDIR, EISDIR | ENOTEMPTY, ENOTEMPTY
  | ENOSPC, ENOSPC | EBUSY, EBUSY | EINVAL, EINVAL | EBADF, EBADF => true
  | Eother x, Eother y => (x =? y)%Z
  | _, _ => false
  end.

Record stat_buf := { st_mode : Z }.

Definition S_IFMT : Z := 61440.   (* 0170000 *)
Definition S_IFDIR : Z := 16384.  (* 0040000 *)
Definition S_IFREG : Z := 32768.  (* 0100000 *)

Definition S_ISDIR (m : Z) : bool := (Z.land m S_IFMT =? S_IFDIR)%Z.

(** What [stat] leaves behind: a filled buffer, or -1 and [errno]. *)
Inductive stat_result :=
| StatOk (st : stat_buf)
| StatErr (e : errno).

(** The other calls: 0, or -1 and [errno]. *)
Inductive sysret :=
| Done
| Fail (e : errno).

Definition sys_res (r : sysret) : Z :=
  match r with Done => 0 | Fail _ => -1 end%Z.

(** [talk_base::StreamResult]. *)
Inductive StreamResult := SR_ERROR | SR_SUCCESS | SR_BLOCK | SR_EOS.

Definition handle := nat.

Inductive platform := PLAT_OSX | PLAT_ANDROID | PLAT_POSIX.

(** Compile-time configuration: the [#ifdef] forest, whether [ASSERT] is
    live, and the C library's [P_tmpdir] when it defines one. *)
Record build := {
  plat : platform;
  debug : bool;
  P_tmpdir : option string
}.

(** ** Programs over the calls *)

Inductive syscall : Type -> Type :=
| sys_stat (path : string) : syscall stat_result
| sys_mkdir (path : string) (mode : Z) : syscall sysret
| sys_unlink (path : string) : syscall sysret
| sys_rmdir (path : string) : syscall sysret
| sys_rename (old_path new_path : string) : syscall sysret
| sys_getenv (name : string) : syscall (option string)
| sys_getpid : syscall Z
| sys_time : syscall Z
(* FSFindFolder(kTemporaryFolderType) followed by FSRefMakePath *)
| osx_temporary_folder : syscall (option string)
(* new FileStream + FileStream::Open: a stream, or NULL *)
| stream_open (path mode : string) : syscall (option handle)
| stream_read (h : handle) (buffer_len : nat) : syscall (StreamResult * list Byte.byte)
| stream_write (h : handle) (data : list Byte.byte) : syscall StreamResult
| stream_delete (h : handle) : syscall unit
(* a failed ASSERT *)
| assert_failed (expr : string) : syscall unit.

Inductive prog (A : Type) : Type :=
| Ret (a : A)
| Vis {X : Type} (c : syscall X) (k : X -> prog A)
| While (body : prog bool) (k : prog A).

Arguments Ret {A} a.
Arguments Vis {A X} c k.
Arguments While {A} body k.

Fixpoint bind {A B : Type} (p : prog A) (f : A -> prog B) : prog B :=
  match p with
  | Ret a => f a
  | Vis c k => Vis c (fun x => bind (k x) f)
  | While body k => While body (bind k f)
  end.

Definition call {X : Type} (c : syscall X) : prog X := Vis c Ret.

Declare Scope prog_scope.
Delimit Scope prog_scope with prog.
Notation "'let*' x ':=' p 'in' q" := (bind p (fun x => q))
  (at level 10, x name, p at level 100, q at level 200) : prog_scope.
Local Open Scope prog_scope.

(** ** Operating systems, and running a program *)

Inductive event : Type :=
| Ev {X : Type} (c : syscall X) (r : X).

Definition trace := list event.

Record OS := {
  world : Type;
  answer : forall X : Type, syscall X -> world -> X * world
}.

Arguments answer o {X} c w : rename.

(** A loop from the outside: [body] answers whether to go round again, [k]
    is what follows the loop, [n] bounds the number of iterations. *)
Fixpoint iterate {W A : Type} (body : W -> option (bool * W * trace))
    (k : W -> option (A * W * trace)) (n : nat) (w : W)
  : option (A * W * trace) :=
  match n with
  | O => None
  | S n' =>
      match body w with
      | Some (true, w1, t1) =>
          match iterate body k n' w1 with
          | Some (a, w2, t2) => Some (a, w2, t1 ++ t2)
          | None => None
          end
      | Some (false, w1, t1) =>
          match k w1 with
          | Some (a, w2, t2) => Some (a, w2, t1 ++ t2)
          | None => None
          end
      | None => None
      end
  end.

(** [fuel] bounds the iterations of each loop; nothing else consumes it. *)
Fixpoint run (os : OS) (fuel : nat) {A : Type} (p : prog A) (w : world os)
  : option (A * world os * trace) :=
  match p with
  | Ret a => Some (a, w, [])
  | Vis c k =>
      let (r, w1) := answer os c w in
      match run os fuel (k r) w1 with
      | Some (a, w2, t) => Some (a, w2, Ev c r :: t)
      | None => None
      end
  | While body k => iterate (run os fuel body) (run os fuel k) fuel w
  end.

(** ** UnixFilesystem *)

(** [std::string::substr(0, len)] *)
Definition substr0 (s : string) (len : nat) : string := String.substring 0 len s.

(** The loop of [CreateFolder], entered with [len] already decremented once:
    [do { --len; } while ((len > 0) && (pathname[len - 1] != '/'));] *)
Fixpoint scan_back (pathname : string) (len : nat) : nat :=
  match len with
  | O => O
  | S l => if is_sep_at pathname l then len else scan_back pathname l
  end.

Definition parent_len (pathname : string) (len : nat) : nat :=
  scan_back pathname (len - 1).

(** [(len == 0) || (pathname[len - 1] != '/')] *)
Definition not_a_folder_path (pathname : string) : bool :=
  let len := String.length pathname in
  ((len =? 0)%nat || negb (is_sep_at pathname (len - 1)))%bool.

Lemma split_folder_app (s : string) :
  fst (split_folder s) +:+ snd (split_folder s) = s.
Proof.
  induction s as [|c s IH]; simpl; [reflexivity|].
  destruct (split_folder s) as [f b]; simpl in *.
  destruct f as [|c' f].
  - destruct (Ascii.eqb c sep); rewrite <- IH; reflexivity.
  - rewrite <- IH. reflexivity.
Qed.

Lemma split_folder_sep (s : string) :
  fst (split_folder s) = "" \/ ends_with_sep (fst (split_folder s)) = true.
Proof.
  induction s as [|c s IH]; simpl; [now left|].
  destruct (split_folder s) as [f b]; simpl in *.
  destruct f as [|c' f]; simpl.
  - destruct (Ascii.eqb c sep) eqn:E; simpl; [right|now left].
    unfold ends_with_sep, is_sep_at; simpl. exact E.
  - right. destruct IH as [IH|IH]; [discriminate|].
    unfold ends_with_sep, is_sep_at in *; simpl in *. exact IH.
Qed.

Lemma terminate_folder_id (f : string) :
  f = "" \/ ends_with_sep f = true -> terminate_folder f = f.
Proof.
  unfold terminate_folder. intros [->|H]; [reflexivity|].
  rewrite H. now rewrite andb_false_r.
Qed.

(** A path survives the trip through [Pathname]. *)
Lemma pathname_Pathname_of (s : string) : pathname (Pathname_of s) = s.
Proof.
  unfold Pathname_of, SetPathname, pathname.
  pose proof (split_folder_app s) as Happ.
  pose proof (split_folder_sep s) as Hsep.
  destruct (split_folder s) as [f b]; simpl in *.
  now rewrite terminate_folder_id.
Qed.

Lemma scan_back_le (s : string) (n : nat) : (scan_back s n <= n)%nat.
Proof. induction n as [|n IH]; simpl; [lia|]. destruct (is_sep_at s n); lia. Qed.

Lemma length_substr0 (s : string) (n : nat) :
  (n <= String.length s)%nat -> String.length (substr0 s n) = n.
Proof.
  unfold substr0. revert n. induction s as [|c s IH]; intros [|n] H; simpl in *;
    try reflexivity; try lia.
  f_equal. apply IH. lia.
Qed.

Lemma parent_shorter (s : string) :
  not_a_folder_path s = false ->
  (String.length
     (pathname (Pathname_of (substr0 s (parent_len s (String.length s)))))
   < String.length s)%nat.
Proof.
  intros H. rewrite pathname_Pathname_of.
  unfold not_a_folder_path in H. apply orb_false_iff in H as [H _].
  apply Nat.eqb_neq in H.
  pose proof (scan_back_le s (String.length s - 1)) as Hle.
  unfold parent_len. rewrite length_substr0; lia.
Qed.

(** [len] is an [int] in the source; the length of a path is taken to fit
    in one.  Logging is left out here as in the other methods. *)
Equations? CreateFolder (path : Pathname) : prog bool
  by wf (String.length (pathname path)) lt :=
CreateFolder path with inspect (not_a_folder_path (pathname path)) := {
  | exist _ true _ => Ret false
  | exist _ false Hpath =>
      let pathname := pathname path in
      let len := String.length pathname in
      Vis (sys_stat pathname) (fun r =>
        match r with
        | StatOk st =>
            (* Something exists at this location, check if it is a directory *)
            Ret (S_ISDIR (st_mode st))
        | StatErr e =>
            if negb (errno_eqb e ENOENT) then
              (* Unexpected error *)
              Ret false
            else
              (* Directory doesn't exist, look up one directory level *)
              let len := parent_len pathname len in
              let* parent := CreateFolder (Pathname_of (substr0 pathname len)) in
              if negb parent then Ret false
              else
                let* res := call (sys_mkdir pathname 493 (* 0755 *)) in
                Ret (0 =? sys_res res)%Z
        end)
  }.
Proof. apply parent_shorter. exact Hpath. Qed.

(** [OpenFile]: a new [FileStream] opened on the path, or NULL. *)
Definition OpenFile (filename : Pathname) (mode : string) : prog (option handle) :=
  call (stream_open (pathname filename) mode).

Definition IsFolder (path : Pathname) : prog bool :=
  let* r := call (sys_stat (pathname path)) in
  match r with
  | StatErr _ => Ret false
  | StatOk st => Ret (S_ISDIR (st_mode st))
  end.

(** Treat symlinks, named pipes, etc. all as files. *)
Definition IsFile (path : Pathname) : prog bool :=
  let* r := call (sys_stat (pathname path)) in
  match r with
  | StatOk st => Ret (negb (S_ISDIR (st_mode st)))
  | StatErr _ => Ret false
  end.

(** ENOTDIR is specifically kept as an error, because it implies that
    [CreateFolder] could not be called on the path. *)
Definition IsAbsent (path : Pathname) : prog bool :=
  let* r := call (sys_stat (pathname path)) in
  match r with
  | StatOk _ => Ret false
  | StatErr e => Ret (errno_eqb ENOENT e)
  end.

(** [sizeof(buf)] in [CopyFile]. *)
Definition copy_chunk : nat := 256.

Definition CopyFile (old_path new_path : Pathname) : prog bool :=
  let* source := OpenFile old_path "rb" in
  match source with
  | None => Ret false
  | Some source =>
      let* dest := OpenFile new_path "wb" in
      match dest with
      | None => let* _ := call (stream_delete source) in Ret false
      | Some dest =>
          While
            (let* r := call (stream_read source copy_chunk) in
             match r with
             | (SR_SUCCESS, buf) => let* _ := call (stream_write dest buf) in Ret true
             | _ => Ret false
             end)
            (let* _ := call (stream_delete source) in
             let* _ := call (stream_delete dest) in
             Ret true)
      end
  end.

(** [kTempPrefixes], per platform. *)
Definition GetAndroidTempFolder : string := "/sdcard".

Definition kTempPrefixes (p : platform) : list string :=
  match p with
  | PLAT_ANDROID => [GetAndroidTempFolder]
  | PLAT_POSIX => ["/tmp/"; "/var/tmp/"]
  | PLAT_OSX =>
      ["/tmp/"; "/var/tmp/";
       "/private/tmp/"; "/private/var/tmp/"; "/private/var/folders/"]
  end.

Fixpoint has_prefix_in (prefixes : list string) (s : string) : bool :=
  match prefixes with
  | [] => false
  | pre :: rest => if starts_with pre s then true else has_prefix_in rest s
  end.

(** [static_cast<int>] of a wider integer. *)
Definition to_int (z : Z) : Z := ((z + 2 ^ 31) mod 2 ^ 32 - 2 ^ 31)%Z.

(** ["%d"] *)
Definition format_d (z : Z) : string := NilZero.string_of_int (Z.to_int z).

(** The statics and members the methods read and write. *)
Record members := {
  app_temp_path_ : string;
  organization_name_ : string;
  application_name_ : string
}.

Definition set_app_temp_path (m : members) (s : string) : members :=
  {| app_temp_path_ := s;
     organization_name_ := organization_name_ m;
     application_name_ := application_name_ m |}.

Definition string_empty (s : string) : bool := (String.length s =? 0)%nat.

Section UnixFilesystem.

Context (cfg : build).

(** Modelled from the spec: the [ASSERT] macro of talk/base/common.h,
    which this file only uses.  A violated precondition is asserted in
    debug builds and is an ordinary failure in release builds: a debug
    build evaluates the condition and signals [assert_failed] when it is
    false, after which the method goes on to its [return]; a release build
    does not evaluate the condition. *)
Definition ASSERT (cond : prog bool) (expr : string) : prog unit :=
  if debug cfg then
    let* c := cond in
    if c then Ret tt else call (assert_failed expr)
  else Ret tt.

Definition DeleteFile (filename : Pathname) : prog bool :=
  let* is_file := IsFile filename in
  if negb is_file then
    let* _ := ASSERT (IsFile filename) "IsFile(filename)" in
    Ret false
  else
    let* res := call (sys_unlink (pathname filename)) in
    Ret (sys_res res =? 0)%Z.

Definition DeleteEmptyFolder (folder : Pathname) : prog bool :=
  let* is_folder := IsFolder folder in
  if negb is_folder then
    let* _ := ASSERT (IsFolder folder) "IsFolder(folder)" in
    Ret false
  else
    let no_slash :=
      substr0 (pathname folder) (String.length (pathname folder) - 1) in
    let* res := call (sys_rmdir no_slash) in
    Ret (sys_res res =? 0)%Z.

Definition MoveFile (old_path new_path : Pathname) : prog bool :=
  let* is_file := IsFile old_path in
  if negb is_file then
    let* _ := ASSERT (IsFile old_path) "IsFile(old_path)" in
    Ret false
  else
    let* res := call (sys_rename (pathname old_path) (pathname new_path)) in
    match res with
    | Done => Ret true
    | Fail e =>
        if negb (errno_eqb e EXDEV) then Ret false
        else
          let* copied := CopyFile old_path new_path in
          if negb copied then Ret false
          else
            let* deleted := DeleteFile old_path in
            if negb deleted then Ret false
            else Ret true
    end.

(** The platform part of [GetTemporaryFolder]: the temp root, or failure
    (only the OSX lookup can fail). *)
Definition temporary_root (pathname : Pathname) : prog (option Pathname) :=
  match plat cfg with
  | PLAT_OSX =>
      let* buffer := call osx_temporary_folder in
      match buffer with
      | None => Ret None
      | Some buffer => Ret (Some (SetPathname2 pathname buffer ""))
      end
  | PLAT_ANDROID => Ret (Some (SetPathname2 pathname GetAndroidTempFolder ""))
  | PLAT_POSIX =>
      let* tmpdir := call (sys_getenv "TMPDIR") in
      match tmpdir with
      | Some tmpdir => Ret (Some (SetPathname2 pathname tmpdir ""))
      | None =>
          let* tmp := call (sys_getenv "TMP") in
          match tmp with
          | Some tmp => Ret (Some (SetPathname2 pathname tmp ""))
          | None =>
              match P_tmpdir cfg with
              | Some dir => Ret (Some (SetPathname2 pathname dir ""))
              | None => Ret (Some (SetPathname2 pathname "/tmp/" ""))
              end
          end
      end
  end.

(** Returns the result and the final value of the [pathname] argument. *)
Definition GetTemporaryFolder (pathname : Pathname) (create : bool)
    (append : option string) : prog (bool * Pathname) :=
  let* root := temporary_root pathname in
  match root with
  | None => Ret (false, pathname)
  | Some pathname =>
      let* pathname :=
        match append with
        | Some append =>
            let* _ := ASSERT (Ret (negb (string_empty append))) "!append->empty()" in
            Ret (AppendFolder pathname append)
        | None => Ret pathname
        end in
      if negb create then Ret (true, pathname)
      else
        let* created := CreateFolder pathname in
        Ret (created, pathname)
  end.

Definition IsTemporaryPath (path : Pathname) : bool :=
  has_prefix_in (kTempPrefixes (plat cfg)) (pathname path).

(** Returns the result, the final value of [*path] and the members. *)
Definition GetAppTempFolder (m : members) (path : Pathname)
  : prog (bool * Pathname * members) :=
  let* _ := ASSERT (Ret (negb (string_empty (application_name_ m))))
       "!application_name_.empty()" in
  if negb (string_empty (app_temp_path_ m)) then
    Ret (true, SetPathname path (app_temp_path_ m), m)
  else
    (* Create a random directory as /tmp/<appname>-<pid>-<timestamp>;
       the process id is asked for before the time *)
    let* pid := call sys_getpid in
    let* now := call sys_time in
    let buffer := "-" +:+ format_d (to_int pid) +:+ "-" +:+ format_d (to_int now) in
    let folder := application_name_ m +:+ buffer in
    let* r := GetTemporaryFolder path true (Some folder) in
    let (ok, path) := r in
    if negb ok then Ret (false, path, m)
    else Ret (true, path, set_app_temp_path m (pathname path)).

End UnixFilesystem.

(** ** A model of the operating system

    A name space of regular files and directories.  Names are resolved
    component by component; the root directory always exists.  A node is
    keyed by its components, innermost first, so the parent of a key is
    its tail.  Permissions, symbolic and hard links, and special files are
    not part of the model, and an open stream refers to its file by name.
    [free_space] is the number of bytes the device still accepts, which is
    how a write comes to fail or fall short. *)

Inductive node :=
| File (data : list Byte.byte)
| Dir.

Record open_file := {
  of_key : list string;
  of_pos : nat;
  of_writable : bool
}.

Record posix_world := {
  nodes : gmap (list string) node;
  cwd : list string;
  device : list string -> nat;
  free_space : nat;
  streams : gmap nat open_file;
  next_handle : nat;
  environ : gmap string string;
  process_id : Z;
  clock : Z;
  osx_temp : option string
}.

Definition set_nodes (w : posix_world) (fs : gmap (list string) node)
    (free : nat) : posix_world :=
  {| nodes := fs; cwd := cwd w; device := device w; free_space := free;
     streams := streams w; next_handle := next_handle w;
     environ := environ w; process_id := process_id w; clock := clock w;
     osx_temp := osx_temp w |}.

Definition set_streams (w : posix_world) (ss : gmap nat open_file)
    (next : nat) : posix_world :=
  {| nodes := nodes w; cwd := cwd w; device := device w;
     free_space := free_space w;
     streams := ss; next_handle := next;
     environ := environ w; process_id := process_id w; clock := clock w;
     osx_temp := osx_temp w |}.

(** The components of a path: ["/a/b/"] gives [""; "a"; "b"; ""]. *)
Fixpoint split_path (s : string) : list string :=
  match s with
  | EmptyString => [""]
  | String c s' =>
      if Ascii.eqb c sep then "" :: split_path s'
      else match split_path s' with
           | comp :: rest => String c comp :: rest
           | [] => [String c ""]
           end
  end.

Definition node_at (fs : gmap (list string) node) (k : list string)
  : option node :=
  match k with
  | [] => Some Dir
  | _ :: _ => fs !! k
  end.

(** Walk the components from [cur]; every step is taken from a directory. *)
Fixpoint walk (fs : gmap (list string) node) (cur : list string)
    (comps : list string) : errno + list string :=
  match comps with
  | [] => inr cur
  | c :: rest =>
      match node_at fs cur with
      | None => inl ENOENT
      | Some (File _) => inl ENOTDIR
      | Some Dir =>
          if (String.eqb c "" || String.eqb c ".")%bool then walk fs cur rest
          else if String.eqb c ".." then walk fs (tail cur) rest
          else walk fs (c :: cur) rest
      end
  end.

Definition is_absolute (path : string) : bool := is_sep_at path 0.

Definition start_of (w : posix_world) (path : string) : list string :=
  if is_absolute path then [] else cwd w.

Definition resolve (w : posix_world) (path : string) : errno + list string :=
  if string_empty path then inl ENOENT
  else walk (nodes w) (start_of w path) (split_path path).

(** Trailing separators are dropped when the name is about to be created
    as a directory. *)
Fixpoint drop_trailing_empty (comps : list string) : list string :=
  match comps with
  | [] => []
  | c :: rest =>
      match drop_trailing_empty rest with
      | [] => if String.eqb c "" then [] else [c]
      | rest' => c :: rest'
      end
  end.

Definition resolve_dir (w : posix_world) (path : string)
  : errno + list string :=
  if string_empty path then inl ENOENT
  else walk (nodes w) (start_of w path) (drop_trailing_empty (split_path path)).

Definition parent_is_dir (fs : gmap (list string) node) (k : list string)
  : bool :=
  match k with
  | [] => false
  | _ :: parent =>
      match node_at fs parent with
      | Some Dir => true
      | _ => false
      end
  end.

Definition has_children (fs : gmap (list string) node) (k : list string)
  : bool :=
  existsb (fun kv => bool_decide (tail (fst kv) = k)) (map_to_list fs).

Definition mode_of (n : node) : Z :=
  match n with
  | File _ => Z.lor S_IFREG 420   (* 0644 *)
  | Dir => Z.lor S_IFDIR 493      (* 0755 *)
  end.

Definition posix_stat (w : posix_world) (path : string) : stat_result :=
  match resolve w path with
  | inl e => StatErr e
  | inr k =>
      match node_at (nodes w) k with
      | None => StatErr ENOENT
      | Some n => StatOk {| st_mode := mode_of n |}
      end
  end.

Definition posix_mkdir (w : posix_world) (path : string)
  : sysret * posix_world :=
  match resolve_dir w path with
  | inl e => (Fail e, w)
  | inr k =>
      match node_at (nodes w) k with
      | Some _ => (Fail EEXIST, w)
      | None =>
          if parent_is_dir (nodes w) k
          then (Done, set_nodes w (<[k := Dir]> (nodes w)) (free_space w))
          else (Fail ENOENT, w)
      end
  end.

Definition posix_unlink (w : posix_world) (path : string)
  : sysret * posix_world :=
  match resolve w path with
  | inl e => (Fail e, w)
  | inr k =>
      match node_at (nodes w) k with
      | None => (Fail ENOENT, w)
      | Some Dir => (Fail EISDIR, w)
      | Some (File d) =>
          (Done, set_nodes w (delete k (nodes w)) (free_space w + length d))
      end
  end.

Definition posix_rmdir (w : posix_world) (path : string)
  : sysret * posix_world :=
  match resolve w path with
  | inl e => (Fail e, w)
  | inr k =>
      match node_at (nodes w) k with
      | None => (Fail ENOENT, w)
      | Some (File _) => (Fail ENOTDIR, w)
      | Some Dir =>
          match k with
          | [] => (Fail EBUSY, w)
          | _ :: _ =>
              if has_children (nodes w) k then (Fail ENOTEMPTY, w)
              else (Done, set_nodes w (delete k (nodes w)) (free_space w))
          end
      end
  end.

(** Move the subtree at [ko] to [kn]. *)
Definition rebase (ko kn k : list string) : list string :=
  if bool_decide (ko `suffix_of` k)
  then take (length k - length ko) k ++ kn
  else k.

Definition move_tree (ko kn : list string) (fs : gmap (list string) node)
  : gmap (list string) node :=
  list_to_map (map (fun kv => (rebase ko kn (fst kv), snd kv)) (map_to_list fs)).

Definition posix_rename (w : posix_world) (old_path new_path : string)
  : sysret * posix_world :=
  match resolve w old_path with
  | inl e => (Fail e, w)
  | inr ko =>
      match node_at (nodes w) ko with
      | None => (Fail ENOENT, w)
      | Some (File d) =>
          match resolve w new_path with
          | inl e => (Fail e, w)
          | inr kn =>
              (* the same directory entry: success, nothing done *)
              if bool_decide (ko = kn) then (Done, w)
              else if negb (device w ko =? device w kn)%nat then (Fail EXDEV, w)
              else
                match node_at (nodes w) kn with
                | Some Dir => (Fail EISDIR, w)
                | Some (File d') =>
                    (Done, set_nodes w (<[kn := File d]> (delete ko (nodes w)))
                             (free_space w + length d'))
                | None =>
                    if parent_is_dir (nodes w) kn
                    then (Done, set_nodes w (<[kn := File d]> (delete ko (nodes w)))
                                  (free_space w))
                    else (Fail ENOENT, w)
                end
          end
      | Some Dir =>
          match resolve_dir w new_path with
          | inl e => (Fail e, w)
          | inr kn =>
              if bool_decide (ko = kn) then (Done, w)
              else if negb (device w ko =? device w kn)%nat then (Fail EXDEV, w)
              else if bool_decide (ko `suffix_of` kn) then (Fail EINVAL, w)
              else
                match node_at (nodes w) kn with
                | Some (File _) => (Fail ENOTDIR, w)
                | Some Dir =>
                    if has_children (nodes w) kn then (Fail ENOTEMPTY, w)
                    else (Done, set_nodes w (move_tree ko kn (nodes w)) (free_space w))
                | None =>
                    if parent_is_dir (nodes w) kn
                    then (Done, set_nodes w (move_tree ko kn (nodes w)) (free_space w))
                    else (Fail ENOENT, w)
                end
          end
      end
  end.

(** Modelled from the spec: the byte stream of talk/base/stream.h behind
    [OpenFile], which this file only uses.  The spec gives
    [Read(buffer, capacity, outBytesRead) -> status] and
    [Write(buffer, length) -> status] with sentinel completion codes: a read
    delivers up to [capacity] bytes with [SR_SUCCESS] and answers [SR_EOS]
    at the end of the file; a write reports [SR_ERROR] only when it could
    write nothing at all. *)
Definition open_stream (w : posix_world) (k : list string) (pos : nat)
    (writable : bool) : option handle * posix_world :=
  (Some (next_handle w),
   set_streams w
     (<[next_handle w := {| of_key := k; of_pos := pos; of_writable := writable |}]>
        (streams w))
     (S (next_handle w))).

(** Modelled from the spec: opening a stream, by the first letter of the
    mode: [r] needs an existing node, [w] truncates or creates a regular
    file, [a] creates one or writes at its end. *)
Definition posix_open (w : posix_world) (path mode : string)
  : option handle * posix_world :=
  match resolve w path with
  | inl _ => (None, w)
  | inr k =>
      match String.get 0 mode with
      | Some "r"%char =>
          match node_at (nodes w) k with
          | None => (None, w)
          | Some _ => open_stream w k 0 false
          end
      | Some "w"%char =>
          match node_at (nodes w) k with
          | Some Dir => (None, w)
          | Some (File d) =>
              open_stream
                (set_nodes w (<[k := File []]> (nodes w)) (free_space w + length d))
                k 0 true
          | None =>
              if parent_is_dir (nodes w) k
              then open_stream
                     (set_nodes w (<[k := File []]> (nodes w)) (free_space w))
                     k 0 true
              else (None, w)
          end
      | Some "a"%char =>
          match node_at (nodes w) k with
          | Some Dir => (None, w)
          | Some (File d) => open_stream w k (length d) true
          | None =>
              if parent_is_dir (nodes w) k
              then open_stream
                     (set_nodes w (<[k := File []]> (nodes w)) (free_space w))
                     k 0 true
              else (None, w)
          end
      | _ => (None, w)
      end
  end.

Definition advance (f : open_file) (n : nat) : open_file :=
  {| of_key := of_key f; of_pos := of_pos f + n; of_writable := of_writable f |}.

(** Modelled from the spec: [Read]. *)
Definition posix_read (w : posix_world) (h : handle) (buffer_len : nat)
  : StreamResult * list Byte.byte * posix_world :=
  match streams w !! h with
  | None => (SR_EOS, [], w)
  | Some f =>
      if of_writable f then (SR_ERROR, [], w)
      else
        match node_at (nodes w) (of_key f) with
        | Some (File d) =>
            match take buffer_len (drop (of_pos f) d) with
            | [] => (if (buffer_len =? 0)%nat then SR_SUCCESS else SR_EOS, [], w)
            | chunk =>
                (SR_SUCCESS, chunk,
                 set_streams w (<[h := advance f (length chunk)]> (streams w))
                   (next_handle w))
            end
        | Some Dir => (SR_ERROR, [], w)
        | None => (SR_EOS, [], w)
        end
  end.

(** [data] written over [d] at [pos]. *)
Definition write_at (d : list Byte.byte) (pos : nat) (data : list Byte.byte)
  : list Byte.byte :=
  take pos d ++ replicate (pos - length d) Byte.x00 ++ data
    ++ drop (pos + length data) d.

(** Modelled from the spec: [Write]. *)
Definition posix_write (w : posix_world) (h : handle) (data : list Byte.byte)
  : StreamResult * posix_world :=
  match streams w !! h with
  | None => (SR_EOS, w)
  | Some f =>
      if negb (of_writable f) then (SR_ERROR, w)
      else
        match node_at (nodes w) (of_key f) with
        | Some (File d) =>
            (* as much of [data] as there is room for *)
            let n := min (length data) (length d - of_pos f + free_space w) in
            if ((n =? 0)%nat && negb (length data =? 0)%nat)%bool
            then (SR_ERROR, w)
            else
              let d' := write_at d (of_pos f) (take n data) in
              (SR_SUCCESS,
               set_streams
                 (set_nodes w (<[of_key f := File d']> (nodes w))
                    (free_space w - (length d' - length d)))
                 (<[h := advance f n]> (streams w))
                 (next_handle w))
        | _ => (SR_ERROR, w)
        end
  end.

Definition posix_answer (X : Type) (c : syscall X) (w : posix_world)
  : X * posix_world :=
  match c in syscall X return X * posix_world with
  | sys_stat path => (posix_stat w path, w)
  | sys_mkdir path _ => posix_mkdir w path
  | sys_unlink path => posix_unlink w path
  | sys_rmdir path => posix_rmdir w path
  | sys_rename old_path new_path => posix_rename w old_path new_path
  | sys_getenv name => (environ w !! name, w)
  | sys_getpid => (process_id w, w)
  | sys_time => (clock w, w)
  | osx_temporary_folder => (osx_temp w, w)
  | stream_open path mode => posix_open w path mode
  | stream_read h buffer_len => posix_read w h buffer_len
  | stream_write h data => posix_write w h data
  | stream_delete h =>
      (tt, set_streams w (delete h (streams w)) (next_handle w))
  | assert_failed _ => (tt, w)
  end.

Definition posix : OS := {| world := posix_world; answer := posix_answer |}.

(** The classification of a path in a world, as the adapter sees it. *)
Definition classified (w : posix_world) (q : Pathname -> prog bool)
    (path : string) : bool :=
  match run posix 0 (q (Pathname_of path)) w with
  | Some (b, _, _) => b
  | None => false
  end.

(** The content of the regular file a path names. *)
Definition content (w : posix_world) (path : string)
  : option (list Byte.byte) :=
  match resolve w path with
  | inr k =>
      match node_at (nodes w) k with
      | Some (File d) => Some d
      | _ => None
      end
  | inl _ => None
  end.

(** ** Sample worlds *)

Definition ABC : list Byte.byte := [Byte.x41; Byte.x42; Byte.x43].

(** [/tmp/], [/home/user/] and [/mnt/] are directories, [/mnt/] being
    another device; [/tmp/a] holds three bytes and [/f] is an empty file. *)
Definition demo_world : posix_world := {|
  nodes := list_to_map [
    (["tmp"], Dir); (["home"], Dir); (["user"; "home"], Dir); (["mnt"], Dir);
    (["a"; "tmp"], File ABC); (["f"], File [])];
  cwd := ["user"; "home"];
  device := fun k => match last k with Some "mnt" => 1 | _ => 0 end;
  free_space := 1000;
  streams := ∅;
  next_handle := 3;
  environ := ∅;
  process_id := 4711;
  clock := 1288000000;
  osx_temp := None
|}.

(** The same world with a full device. *)
Definition full_world : posix_world :=
  set_nodes demo_world (nodes demo_world) 0.

(** The same world with [TMPDIR] set to a folder of the user. *)
Definition tmpdir_world : posix_world := {|
  nodes := nodes demo_world; cwd := cwd demo_world;
  device := device demo_world; free_space := free_space demo_world;
  streams := streams demo_world; next_handle := next_handle demo_world;
  environ := {[ "TMPDIR" := "/home/user/tmp" ]};
  process_id := process_id demo_world; clock := clock demo_world;
  osx_temp := osx_temp demo_world
|}.

(** The demo world with room for two more bytes. *)
Definition tight_world : posix_world :=
  set_nodes demo_world (nodes demo_world) 2.



Definition release_build : build :=
  {| plat := PLAT_POSIX; debug := false; P_tmpdir := Some "/tmp" |}.

Definition debug_build : build :=
  {| plat := PLAT_POSIX; debug := true; P_tmpdir := Some "/tmp" |}.

Definition talk_members : members :=
  {| app_temp_path_ := ""; organization_name_ := "google";
     application_name_ := "talk" |}.

(** ** Observations on traces *)

Definition is_unlink (e : event) : bool :=
  match e with
  | Ev c _ => match c with sys_unlink _ => true | _ => false end
  end.

Definition is_rmdir (e : event) : bool :=
  match e with
  | Ev c _ => match c with sys_rmdir _ => true | _ => false end
  end.

Definition is_assert_failed (e : event) : bool :=
  match e with
  | Ev c _ => match c with assert_failed _ => true | _ => false end
  end.

(** The [stat] calls of a trace, with their answers. *)
Fixpoint stat_calls (t : trace) : list (string * stat_result) :=
  match t with
  | [] => []
  | Ev c r :: t' =>
      match c in syscall X return X -> list (string * stat_result) with
      | sys_stat path => fun r => (path, r) :: stat_calls t'
      | _ => fun _ => stat_calls t'
      end r
  end.

(** Sequencing of runs, as [bind] sequences programs. *)
Definition then_run {W A B : Type} (r : option (A * W * trace))
    (g : A -> W -> option (B * W * trace)) : option (B * W * trace) :=
  match r with
  | Some (a, w1, t1) =>
      match g a w1 with
      | Some (b, w2, t2) => Some (b, w2, t1 ++ t2)
      | None => None
      end
  | None => None
  end.

(** ** The descent of CreateFolder *)

(** The argument of the recursive call made for [p]. *)
Definition parent_folder (p : string) : string :=
  pathname (Pathname_of (substr0 p (parent_len p (String.length p)))).

(** Why a descent stops. *)
Inductive bottom :=
| NodeExists
| UnexpectedError (e : errno)
| SeparatorCheck.

(** [descends p calls q why]: called on [p], [CreateFolder] makes the
    [stat] calls [calls], one per level, and stops at [q] because of
    [why]. *)
Inductive descends : string -> list (string * stat_result) -> string -> bottom -> Prop :=
| descends_check p :
    not_a_folder_path p = true ->
    descends p [] p SeparatorCheck
| descends_exists p st :
    not_a_folder_path p = false ->
    descends p [(p, StatOk st)] p NodeExists
| descends_error p e :
    not_a_folder_path p = false -> e <> ENOENT ->
    descends p [(p, StatErr e)] p (UnexpectedError e)
| descends_parent p calls q why :
    not_a_folder_path p = false ->
    descends (parent_folder p) calls q why ->
    descends p ((p, StatErr ENOENT) :: calls) q why.

(** The body of the loop of [CopyFile]. *)
Definition copy_body (source dest : handle) : prog bool :=
  let* r := call (stream_read source copy_chunk) in
  match r with
  | (SR_SUCCESS, buf) => let* _ := call (stream_write dest buf) in Ret true
  | _ => Ret false
  end.

Definition copy_end (source dest : handle) : prog bool :=
  let* _ := call (stream_delete source) in
  let* _ := call (stream_delete dest) in
  Ret true.

(** What holds of the model while the loop runs: the source stream reads
    the node at [ks], the destination stream writes the node at [kd], and
    at most [n] bytes are left to read. *)
Definition copying (hs hd : handle) (ks kd : list string) (n : nat)
    (w : posix_world) : Prop :=
  hs <> hd /\
  (exists fs, streams w !! hs = Some fs /\ of_key fs = ks /\
              of_writable fs = false /\
              match node_at (nodes w) ks with
              | Some (File d) => length d - of_pos fs <= n /\ (ks <> kd \/ n = 0)
              | _ => True
              end) /\
  (forall fd, streams w !! hd = Some fd -> of_key fd = kd).

(** Two name spaces with the same directories. *)
Definition same_dirs (fs fs' : gmap (list string) node) : Prop :=
  forall k, node_at fs k = Some Dir <-> node_at fs' k = Some Dir.



(** ** Further observations *)

(** The [mkdir] calls of a trace, with mode and answer. *)
Fixpoint mkdir_calls (t : trace) : list (string * Z * sysret) :=
  match t with
  | [] => []
  | Ev c r :: t' =>
      match c in syscall X return X -> list (string * Z * sysret) with
      | sys_mkdir path mode => fun r => (path, mode, r) :: mkdir_calls t'
      | _ => fun _ => mkdir_calls t'
      end r
  end.

(** [w'] is [w] with directories added and nothing else changed. *)
Definition adds_directories (w w' : posix_world) : Prop :=
  cwd w' = cwd w /\ free_space w' = free_space w /\ streams w' = streams w /\
  (forall k n, nodes w !! k = Some n -> nodes w' !! k = Some n) /\
  (forall k n, nodes w' !! k = Some n -> nodes w !! k = Some n \/ n = Dir).

(** Every directory of [fs] is a directory of [fs']. *)
Definition keeps_dirs (fs fs' : gmap (list string) node) : Prop :=
  forall k, node_at fs k = Some Dir -> node_at fs' k = Some Dir.

(** The first [n] paths of the descent of [CreateFolder] from [p], and the
    path that follows them. *)
Fixpoint ancestors (p : string) (n : nat) : list string :=
  match n with
  | O => []
  | S n' => p :: ancestors (parent_folder p) n'
  end.

Fixpoint ancestor (p : string) (n : nat) : string :=
  match n with
  | O => p
  | S n' => ancestor (parent_folder p) n'
  end.

(** ** Folder paths made of plain names *)

Fixpoint has_sep (s : string) : bool :=
  match s with
  | EmptyString => false
  | String c s' => (Ascii.eqb c sep || has_sep s')%bool
  end.

(** A name that stands for itself when a path is resolved. *)
Definition plain (name : string) : bool :=
  (negb (string_empty name) && negb (has_sep name)
   && negb (String.eqb name ".") && negb (String.eqb name ".."))%bool.

Fixpoint join (names : list string) : string :=
  match names with
  | [] => ""
  | n :: rest => n +:+ "/" +:+ join rest
  end.

(** The absolute folder path [/n1/n2/.../nk/]. *)
Definition folder_path (names : list string) : string := "/" +:+ join names.

(** Every node has a directory as its parent. *)
Definition well_formed (fs : gmap (list string) node) : Prop :=
  forall k n, fs !! k = Some n -> node_at fs (tail k) = Some Dir.

(** ** The calls of CopyFile *)

(** The calls of the loop of [CopyFile]: a [Read] that delivers a chunk and
    the [Write] of that chunk, for each chunk with the answer of its
    [Write], and a last [Read] that ends the loop. *)
Definition copy_calls (source dest : handle)
    (chunks : list (list Byte.byte * StreamResult))
    (last : StreamResult * list Byte.byte) : trace :=
  flat_map (fun c => [Ev (stream_read source copy_chunk) (SR_SUCCESS, fst c);
                      Ev (stream_write dest (fst c)) (snd c)]) chunks
  ++ [Ev (stream_read source copy_chunk) last].

(** The loop of [CopyFile] with [room] bytes to write into: the source has
    been read up to [p], and of that the destination holds what fitted. *)
Definition copied_what_fits (hs hd : handle) (ks kd : list string)
    (data : list Byte.byte) (fs0 : gmap (list string) node) (room p : nat)
    (w : posix_world) : Prop :=
  streams w !! hs = Some {| of_key := ks; of_pos := p; of_writable := false |} /\
  streams w !! hd
  = Some {| of_key := kd; of_pos := min p room; of_writable := true |} /\
  nodes w = <[kd := File (take (min p room) data)]> fs0 /\
  free_space w = room - min p room /\ p <= length data.

(** ** GetAppDataFolder *)

Definition GetAndroidAppDataFolder : string := "/sdcard".

Section AppData.

Context (cfg : build).

(** Two lookups that are not among the calls above and leave no trace
    here: [getpwuid(geteuid())->pw_dir], the home directory the password
    database has for the effective user, if it has an entry; and the path
    of [FSFindFolder(kUserDomain, kApplicationSupportFolderType, ...)]
    made by [FSRefMakePath], if both succeed. *)
Context (pw_dir : option string) (application_support : option string).

(** The folder the data of the applications goes under, set in [*path];
    [PLAT_POSIX] stands for a build with OS_LINUX. *)
Definition app_data_root (path : Pathname) (per_user : bool)
  : prog (option Pathname) :=
  match plat cfg with
  | PLAT_OSX =>
      if per_user then
        (* Use ~/Library/Application Support/<orgname>/<appname>/ *)
        match application_support with
        | None => Ret None
        | Some buffer => Ret (Some (SetPathname2 path buffer ""))
        end
      else Ret None
  | PLAT_ANDROID => Ret (Some (SetPathname2 path GetAndroidAppDataFolder ""))
  | PLAT_POSIX =>
      if per_user then
        (* Use ~/.<orgname>/<appname>/ *)
        let* dotdir := call (sys_getenv "DOTDIR") in
        match dotdir with
        | Some dotdir => Ret (Some (SetPathname2 path dotdir ""))
        | None =>
            let* home := call (sys_getenv "HOME") in
            match home with
            | Some home => Ret (Some (SetPathname2 path home ""))
            | None =>
                match pw_dir with
                | Some dir => Ret (Some (SetPathname2 path dir ""))
                | None => Ret None
                end
            end
        end
      else
        (* "/var/cache/<orgname>/<appname>/" *)
        Ret (Some (SetPathname2 path "/var/cache/" ""))
  end.

(** [prefix], which is ["."] in the per-user branch for Linux only. *)
Definition app_data_prefix (per_user : bool) : string :=
  match plat cfg with
  | PLAT_POSIX => if per_user then "." else ""
  | _ => ""
  end.

(** Returns the result and the final value of [*path]. *)
Definition GetAppDataFolder (m : members) (path : Pathname) (per_user : bool)
  : prog (bool * Pathname) :=
  let* _ := ASSERT cfg (Ret (negb (string_empty (organization_name_ m))))
       "!organization_name_.empty()" in
  let* _ := ASSERT cfg (Ret (negb (string_empty (application_name_ m))))
       "!application_name_.empty()" in
  let* root := app_data_root path per_user in
  match root with
  | None => Ret (false, path)
  | Some path =>
      let path :=
        AppendFolder path (app_data_prefix per_user +:+ organization_name_ m) in
      let path := AppendFolder path (application_name_ m) in
      let* created := CreateFolder path in
      Ret (created, path)
  end.

(** The folder [app_data_root] settles on in the model. *)
Definition app_data_base (w : posix_world) (per_user : bool) : option string :=
  match plat cfg with
  | PLAT_OSX => if per_user then application_support else None
  | PLAT_ANDROID => Some GetAndroidAppDataFolder
  | PLAT_POSIX =>
      if per_user then
        match environ w !! "DOTDIR" with
        | Some dotdir => Some dotdir
        | None =>
            match environ w !! "HOME" with
            | Some home => Some home
            | None => pw_dir
            end
        end
      else Some "/var/cache/"
  end.

End AppData.

(** The demo world with [HOME] set. *)
Definition home_world : posix_world := {|
  nodes := nodes demo_world; cwd := cwd demo_world;
  device := device demo_world; free_space := free_space demo_world;
  streams := streams demo_world; next_handle := next_handle demo_world;
  environ := {[ "HOME" := "/home/user" ]};
  process_id := process_id demo_world; clock := clock demo_world;
  osx_temp := osx_temp demo_world
|}.

(** ** GetAppPathname, as built for Linux and Android *)

(** [NAME_MAX] of limits.h. *)
Definition NAME_MAX : nat := 255.

(** A value converted to a [size_t] of [bits] bits. *)
Definition to_size_t (bits : Z) (z : Z) : Z := (z mod 2 ^ bits)%Z.

(** The C string in a buffer: the bytes before the first NUL. *)
Fixpoint c_string (buffer : list Byte.byte) : string :=
  match buffer with
  | [] => ""
  | b :: rest =>
      if Byte.eqb b Byte.x00 then ""
      else String (ascii_of_byte b) (c_string rest)
  end.

(** What a call of [GetAppPathname] comes to: it returns, with the final
    value of [*path], or it stores outside of its buffer. *)
Inductive app_pathname :=
| Returns (ok : bool) (path : Pathname)
| StoresOutside (index : Z).

(** [readlink("/proc/self/exe", buffer, ARRAY_SIZE(buffer) - 1)] is not
    among the calls above; it enters by its answer, the value [returned]
    and the [buffer] of [NAME_MAX + 1] bytes as the call leaves it. *)
Definition GetAppPathname (size_bits : Z) (path : Pathname) (returned : Z)
    (buffer : list Byte.byte) : app_pathname :=
  let len := to_size_t size_bits returned in
  if (len <=? 0)%Z then Returns false path
  else if (len <? Z.of_nat (length buffer))%Z then
    (* buffer[len] = '\0'; *)
    let buffer := <[Z.to_nat len := Byte.x00]> buffer in
    Returns true (SetPathname path (c_string buffer))
  else StoresOutside len.

(** ** MoveFolder *)

Section MoveFolder.

Context (cfg : build).

(** [CopyFolder] and [DeleteFolderAndContents] are methods of the base
    class, not of this file: whatever programs they are. *)
Context (CopyFolder : Pathname -> Pathname -> prog bool)
        (DeleteFolderAndContents : Pathname -> prog bool).

Definition MoveFolder (old_path new_path : Pathname) : prog bool :=
  let* is_folder := IsFolder old_path in
  if negb is_folder then
    let* _ := ASSERT cfg (IsFolder old_path) "IsFolder(old_path)" in
    Ret false
  else
    let* res := call (sys_rename (pathname old_path) (pathname new_path)) in
    match res with
    | Done => Ret true
    | Fail e =>
        if negb (errno_eqb e EXDEV) then Ret false
        else
          let* copied := CopyFolder old_path new_path in
          if negb copied then Ret false
          else
            let* deleted := DeleteFolderAndContents old_path in
            if negb deleted then Ret false
            else Ret true
    end.

End MoveFolder.

(** A world with a tree to move: [/home/user/] holds a file and a folder
    with a file. *)
Definition tree_world : posix_world :=
  set_nodes demo_world
    (<[ ["notes"; "user"; "home"] := File ABC ]>
       (<[ ["src"; "user"; "home"] := Dir ]>
          (<[ ["main.c"; "src"; "user"; "home"] := File ABC ]>
             (nodes demo_world))))
    (free_space demo_world).

(** ** A system with a symbolic link *)

(** What a POSIX system answers where [/a/] and [/b/] are directories,
    [/a/f] is a regular file and [/a/l] is a symbolic link with the text
    [f]: [stat] follows the link, [rename] moves the link itself, and at
    [/b/l] the link points at [/b/f], which does not exist.  The state is
    whether the link has been moved to [/b/l]; only the calls on these
    paths are answered, every other call fails. *)
Definition linked_stat (moved : bool) (path : string) : stat_result :=
  if (String.eqb path "/a/" || String.eqb path "/b/")%bool
  then StatOk {| st_mode := Z.lor S_IFDIR 493 |}
  else if String.eqb path "/a/f" then StatOk {| st_mode := Z.lor S_IFREG 420 |}
  else if (String.eqb path "/a/l" && negb moved)%bool
  then StatOk {| st_mode := Z.lor S_IFREG 420 |}
  else StatErr ENOENT.

Definition linked_answer (X : Type) (c : syscall X) (moved : bool) : X * bool :=
  match c in syscall X return X * bool with
  | sys_stat path => (linked_stat moved path, moved)
  | sys_rename old_path new_path =>
      if (String.eqb old_path "/a/l" && String.eqb new_path "/b/l"
          && negb moved)%bool
      then (Done, true)
      else (Fail ENOENT, moved)
  | sys_mkdir _ _ => (Fail EACCES, moved)
  | sys_unlink _ => (Fail EACCES, moved)
  | sys_rmdir _ => (Fail EACCES, moved)
  | sys_getenv _ => (None, moved)
  | sys_getpid => (1%Z, moved)
  | sys_time => (0%Z, moved)
  | osx_temporary_folder => (None, moved)
  | stream_open _ _ => (None, moved)
  | stream_read _ _ => ((SR_ERROR, []), moved)
  | stream_write _ _ => (SR_ERROR, moved)
  | stream_delete _ => (tt, moved)
  | assert_failed _ => (tt, moved)
  end.

Definition linked : OS := {| world := bool; answer := linked_answer |}.

(** * Properties *)

(** ** Running programs *)

Lemma iterate_ext {W A} (body : W -> option (bool * W * trace))
    (k k' : W -> option (A * W * trace)) n w :
  (forall w, k w = k' w) -> iterate body k n w = iterate body k' n w.
Proof.
  intros Hk. revert w. induction n as [|n IH]; intros w; simpl; [reflexivity|].
  destruct (body w) as [[[[] w1] t1]|]; [|rewrite Hk|]; try reflexivity.
  now rewrite IH.
Qed.

Lemma iterate_then {W A B} (body : W -> option (bool * W * trace))
    (k : W -> option (A * W * trace)) (g : A -> W -> option (B * W * trace)) n w :
  iterate body (fun w => then_run (k w) g) n w = then_run (iterate body k n w) g.
Proof.
  revert w. induction n as [|n IH]; intros w; simpl; [reflexivity|].
  destruct (body w) as [[[[] w1] t1]|]; try reflexivity.
  - rewrite IH. destruct (iterate body k n w1) as [[[a w2] t2]|]; [|reflexivity].
    simpl. destruct (g a w2) as [[[b w3] t3]|]; [|reflexivity].
    now rewrite app_assoc.
  - destruct (k w1) as [[[a w2] t2]|]; [|reflexivity].
    simpl. destruct (g a w2) as [[[b w3] t3]|]; [|reflexivity].
    now rewrite app_assoc.
Qed.

Section Run.

Context (os : OS).

Lemma run_bind fuel {A} (p : prog A) :
  forall {B} (f : A -> prog B) (w : world os),
    run os fuel (bind p f) w =
    then_run (run os fuel p w) (fun a => run os fuel (f a)).
Proof.
  induction p as [A a|A X c k IH|A body _ k IH]; intros B f w; simpl.
  - destruct (run os fuel (f a) w) as [[[b w2] t2]|]; reflexivity.
  - destruct (answer os c w) as [r w1]. rewrite IH.
    destruct (run os fuel (k r) w1) as [[[a w2] t]|]; [|reflexivity].
    simpl. destruct (run os fuel (f a) w2) as [[[b w3] t3]|]; reflexivity.
  - rewrite (iterate_ext _ _ _ _ _ (IH B f)). apply iterate_then.
Qed.

Lemma run_call fuel {X} (c : syscall X) (w : world os) r w1 :
  answer os c w = (r, w1) ->
  run os fuel (call c) w = Some (r, w1, [Ev c r]).
Proof. intros H. unfold call. simpl. now rewrite H. Qed.

End Run.

Lemma CreateFolder_eq (path : Pathname) :
  CreateFolder path =
  if not_a_folder_path (pathname path) then Ret false
  else
    Vis (sys_stat (pathname path)) (fun r =>
      match r with
      | StatOk st => Ret (S_ISDIR (st_mode st))
      | StatErr e =>
          if negb (errno_eqb e ENOENT) then Ret false
          else
            let* parent :=
              CreateFolder
                (Pathname_of
                   (substr0 (pathname path)
                      (parent_len (pathname path) (String.length (pathname path))))) in
            if negb parent then Ret false
            else
              let* res := call (sys_mkdir (pathname path) 493) in
              Ret (0 =? sys_res res)%Z
      end).
Proof.
  rewrite CreateFolder_equation_1.
  assert (H : forall s : {y : bool | not_a_folder_path (pathname path) = y},
             CreateFolder_unfold_clause_1 path s =
             if proj1_sig s then Ret false
             else
               Vis (sys_stat (pathname path)) (fun r =>
                 match r with
                 | StatOk st => Ret (S_ISDIR (st_mode st))
                 | StatErr e =>
                     if negb (errno_eqb e ENOENT) then Ret false
                     else
                       let* parent :=
                         CreateFolder
                           (Pathname_of
                              (substr0 (pathname path)
                                 (parent_len (pathname path)
                                    (String.length (pathname path))))) in
                       if negb parent then Ret false
                       else
                         let* res := call (sys_mkdir (pathname path) 493) in
                         Ret (0 =? sys_res res)%Z
                 end)).
  { intros [[] e]; reflexivity. }
  rewrite H. reflexivity.
Qed.
(** ** The classifiers *)

Section Classifiers.

Context (os : OS) (fuel : nat).

Lemma run_IsFolder (path : Pathname) (w w1 : world os) r :
  answer os (sys_stat (pathname path)) w = (r, w1) ->
  run os fuel (IsFolder path) w =
  Some (match r with StatOk st => S_ISDIR (st_mode st) | StatErr _ => false end,
        w1, [Ev (sys_stat (pathname path)) r]).
Proof. intros H. unfold IsFolder. simpl. rewrite H. now destruct r. Qed.

Lemma run_IsFile (path : Pathname) (w w1 : world os) r :
  answer os (sys_stat (pathname path)) w = (r, w1) ->
  run os fuel (IsFile path) w =
  Some (match r with StatOk st => negb (S_ISDIR (st_mode st)) | StatErr _ => false end,
        w1, [Ev (sys_stat (pathname path)) r]).
Proof. intros H. unfold IsFile. simpl. rewrite H. now destruct r. Qed.

Lemma run_IsAbsent (path : Pathname) (w w1 : world os) r :
  answer os (sys_stat (pathname path)) w = (r, w1) ->
  run os fuel (IsAbsent path) w =
  Some (match r with StatOk _ => false | StatErr e => errno_eqb ENOENT e end,
        w1, [Ev (sys_stat (pathname path)) r]).
Proof. intros H. unfold IsAbsent. simpl. rewrite H. now destruct r. Qed.

End Classifiers.

Lemma errno_eqb_eq (a b : errno) : errno_eqb a b = true <-> a = b.
Proof.
  split.
  - destruct a, b; simpl; try congruence.
    intros H. apply Z.eqb_eq in H. congruence.
  - intros ->. destruct b; simpl; try reflexivity. apply Z.eqb_refl.
Qed.

(** C10. From one and the same state, at most one of [IsFolder], [IsFile]
    and [IsAbsent] answers true, whatever [stat] reports; when [stat] fails
    with an error other than ENOENT all three answer false, as for a path
    that goes through a regular file (ENOTDIR). *)
Theorem classifiers_exclusive_not_exhaustive :
  (forall (os : OS) (fuel : nat) (w : world os) (path : Pathname),
     exists a b c wa wb wc ta tb tc,
       run os fuel (IsFolder path) w = Some (a, wa, ta) /\
       run os fuel (IsFile path) w = Some (b, wb, tb) /\
       run os fuel (IsAbsent path) w = Some (c, wc, tc) /\
       (a && b = false /\ a && c = false /\ b && c = false)%bool /\
       (forall e, fst (answer os (sys_stat (pathname path)) w) = StatErr e ->
                  e <> ENOENT -> a = false /\ b = false /\ c = false)) /\
  (posix_stat demo_world "/f/x" = StatErr ENOTDIR /\
   classified demo_world IsFolder "/f/x" = false /\
   classified demo_world IsFile "/f/x" = false /\
   classified demo_world IsAbsent "/f/x" = false).
Proof.
  split.
  - intros os fuel w path.
    destruct (answer os (sys_stat (pathname path)) w) as [r w1] eqn:Hr.
    rewrite (run_IsFolder os fuel path w w1 r Hr),
      (run_IsFile os fuel path w w1 r Hr), (run_IsAbsent os fuel path w w1 r Hr).
    do 9 eexists. repeat split; try reflexivity.
    + destruct r; [apply andb_negb_r|reflexivity].
    + destruct r; [apply andb_false_r|reflexivity].
    + destruct r; [apply andb_false_r|reflexivity].
    + simpl in H. now subst r.
    + simpl in H. now subst r.
    + simpl in H. subst r. destruct (errno_eqb ENOENT e) eqn:E; [|reflexivity].
      apply errno_eqb_eq in E. congruence.
  - vm_compute. repeat split.
Qed.

Lemma classifiers_exclusive_not_exhaustive_witness :
  exists a b c,
    (a && b = false /\ a && c = false /\ b && c = false)%bool /\
    a = false /\ b = false /\ c = false.
Proof.
  destruct (proj1 classifiers_exclusive_not_exhaustive posix 0 demo_world
              (Pathname_of "/f/x"))
    as (a & b & c & wa & wb & wc & ta & tb & tc & _ & _ & _ & Hx & Hne).
  exists a, b, c. split; [exact Hx|].
  apply (Hne ENOTDIR); [reflexivity|discriminate].
Defined.

(** ** CreateFolder *)

Lemma not_a_folder_path_spec (s : string) :
  not_a_folder_path s = true <->
  s = "" \/ String.get (String.length s - 1) s <> Some sep.
Proof.
  unfold not_a_folder_path, is_sep_at. split.
  - intros H. apply orb_true_iff in H as [H|H].
    + left. apply Nat.eqb_eq in H. now destruct s.
    + right. destruct (String.get (String.length s - 1) s) as [c|]; [|discriminate].
      intros [= ->]. now rewrite Ascii.eqb_refl in H.
  - intros [->|H]; [reflexivity|]. apply orb_true_iff. right.
    destruct (String.get (String.length s - 1) s) as [c|]; [|reflexivity].
    destruct (Ascii.eqb c sep) eqn:E; [|reflexivity].
    apply Ascii.eqb_eq in E. congruence.
Qed.

(** C4. A path that is empty or does not end in the separator is refused:
    [CreateFolder] returns false without making a single call, so nothing
    is created and the state is the one it started from. *)
Theorem CreateFolder_refuses_unterminated_path :
  forall (os : OS) (fuel : nat) (w : world os) (path : Pathname),
    pathname path = "" \/
    String.get (String.length (pathname path) - 1) (pathname path) <> Some sep ->
    run os fuel (CreateFolder path) w = Some (false, w, []).
Proof.
  intros os fuel w path H. apply not_a_folder_path_spec in H.
  rewrite CreateFolder_eq, H. reflexivity.
Qed.

Lemma CreateFolder_refuses_unterminated_path_witness :
  run posix 0 (CreateFolder (Pathname_of "/tmp/new")) demo_world
  = Some (false, demo_world, []).
Proof.
  apply (CreateFolder_refuses_unterminated_path posix 0 demo_world
           (Pathname_of "/tmp/new")).
  right. vm_compute. discriminate.
Defined.

(** C5, as stated, fails: [/tmp] is an existing directory, but without the
    trailing separator [CreateFolder] refuses it. *)
Lemma CreateFolder_existing_directory_refused :
  ~ (forall (w : posix_world) (p : string) (st : stat_buf),
       posix_stat w p = StatOk st ->
       exists w' t,
         run posix 0 (CreateFolder (Pathname_of p)) w
         = Some (S_ISDIR (st_mode st), w', t)).
Proof.
  intros H.
  destruct (H demo_world "/tmp" {| st_mode := mode_of Dir |} eq_refl)
    as (w' & t & Hrun).
  vm_compute in Hrun. discriminate Hrun.
Qed.

Lemma split_path_nonempty (s : string) : split_path s <> [].
Proof.
  destruct s as [|c s]; simpl; [discriminate|].
  destruct (Ascii.eqb c sep); [discriminate|].
  destruct (split_path s); discriminate.
Qed.

Lemma split_path_app_sep (s : string) :
  split_path (s +:+ "/") = split_path s ++ [""].
Proof.
  induction s as [|c s IH]; [reflexivity|].
  change (String c s +:+ "/") with (String c (s +:+ "/")). simpl.
  rewrite IH. destruct (Ascii.eqb c sep); [reflexivity|].
  pose proof (split_path_nonempty s) as Hne.
  destruct (split_path s); [contradiction|reflexivity].
Qed.

Lemma walk_app fs cur a b :
  walk fs cur (a ++ b) =
  match walk fs cur a with
  | inr k => walk fs k b
  | inl e => inl e
  end.
Proof.
  revert cur. induction a as [|c a IH]; intros cur; simpl; [reflexivity|].
  destruct (node_at fs cur) as [[]|]; try reflexivity.
  destruct (String.eqb c "" || String.eqb c ".")%bool; [apply IH|].
  destruct (String.eqb c ".."); apply IH.
Qed.


Lemma classified_IsFolder (w : posix_world) (path : string) :
  classified w IsFolder path = true <->
  exists k, resolve w path = inr k /\ node_at (nodes w) k = Some Dir.
Proof.
  unfold classified.
  rewrite (run_IsFolder posix 0 (Pathname_of path) w w
             (posix_stat w (pathname (Pathname_of path))) eq_refl).
  rewrite pathname_Pathname_of. unfold posix_stat.
  destruct (resolve w path) as [e|k].
  - split; [discriminate|]. intros (k & [=] & _).
  - destruct (node_at (nodes w) k) as [[d|]|] eqn:E; simpl.
    + split; [discriminate|]. intros (k' & [= <-] & Hk). congruence.
    + split; [eauto|reflexivity].
    + split; [discriminate|]. intros (k' & [= <-] & Hk). congruence.
Qed.

(** A directory is found again under its name followed by a separator. *)
Lemma resolve_dir_sep (w : posix_world) (d : string) (k : list string) :
  resolve w d = inr k -> node_at (nodes w) k = Some Dir ->
  resolve w (d +:+ "/") = inr k.
Proof.
  unfold resolve, start_of. destruct d as [|c d]; [discriminate|].
  change (String c d +:+ "/") with (String c (d +:+ "/")).
  change (string_empty (String c d)) with false.
  change (string_empty (String c (d +:+ "/"))) with false.
  change (is_absolute (String c (d +:+ "/"))) with (is_absolute (String c d)).
  cbv iota.
  change (String c (d +:+ "/")) with (String c d +:+ "/").
  rewrite split_path_app_sep, walk_app. intros -> Hk.
  simpl. now rewrite Hk.
Qed.

Lemma length_app_sep (s : string) :
  String.length (s +:+ "/") = S (String.length s).
Proof. induction s; simpl; [reflexivity|]. now f_equal. Qed.

Lemma get_app_sep (s : string) :
  String.get (String.length s) (s +:+ "/") = Some sep.
Proof. induction s; simpl; [reflexivity|assumption]. Qed.

(** C5 (amended). For a separator-terminated path at which [stat] finds a
    node, [CreateFolder] makes that one [stat] call and nothing else, and
    succeeds exactly when the node is a directory.  Hence for an existing
    directory [d], [CreateFolder (d + "/")] succeeds and leaves the name
    space as it was, however often it is repeated. *)
Theorem CreateFolder_existing_node :
  (forall (os : OS) (fuel : nat) (w w1 : world os) (path : Pathname)
          (st : stat_buf),
     String.get (String.length (pathname path) - 1) (pathname path) = Some sep ->
     answer os (sys_stat (pathname path)) w = (StatOk st, w1) ->
     run os fuel (CreateFolder path) w
     = Some (S_ISDIR (st_mode st), w1,
             [Ev (sys_stat (pathname path)) (StatOk st)])) /\
  (forall (w : posix_world) (fuel : nat) (d : string),
     classified w IsFolder d = true ->
     let folder := Pathname_of (d +:+ "/") in
     exists t,
       run posix fuel (CreateFolder folder) w = Some (true, w, t) /\
       run posix fuel (let* _ := CreateFolder folder in CreateFolder folder) w
       = Some (true, w, t ++ t)).
Proof.
  assert (Hgen : forall (os : OS) (fuel : nat) (w w1 : world os)
                        (path : Pathname) (st : stat_buf),
     String.get (String.length (pathname path) - 1) (pathname path) = Some sep ->
     answer os (sys_stat (pathname path)) w = (StatOk st, w1) ->
     run os fuel (CreateFolder path) w
     = Some (S_ISDIR (st_mode st), w1,
             [Ev (sys_stat (pathname path)) (StatOk st)])).
  { intros os fuel w w1 path st Hsep Hstat.
    assert (Hg : not_a_folder_path (pathname path) = false).
    { destruct (not_a_folder_path (pathname path)) eqn:E; [|reflexivity].
      apply not_a_folder_path_spec in E as [E|E]; [|contradiction].
      rewrite E in Hsep. discriminate. }
    rewrite CreateFolder_eq, Hg. simpl. now rewrite Hstat. }
  split; [exact Hgen|].
  intros w fuel d Hd folder.
  apply classified_IsFolder in Hd as (k & Hres & Hk).
  pose proof (resolve_dir_sep w d k Hres Hk) as Hres'.
  assert (Hrun : run posix fuel (CreateFolder folder) w
                 = Some (true, w, [Ev (sys_stat (d +:+ "/"))
                                     (StatOk {| st_mode := mode_of Dir |})])).
  { unfold folder.
    rewrite (Hgen posix fuel w w (Pathname_of (d +:+ "/"))
               {| st_mode := mode_of Dir |}).
    - now rewrite pathname_Pathname_of.
    - rewrite pathname_Pathname_of, length_app_sep. simpl.
      rewrite Nat.sub_0_r. apply get_app_sep.
    - rewrite pathname_Pathname_of. simpl. unfold posix_stat.
      now rewrite Hres', Hk. }
  eexists. split; [exact Hrun|].
  rewrite run_bind, Hrun. simpl. now rewrite Hrun.
Qed.

Lemma CreateFolder_existing_node_witness :
  run posix 0 (CreateFolder (Pathname_of "/tmp/")) demo_world
  = Some (true, demo_world,
          [Ev (sys_stat "/tmp/") (StatOk {| st_mode := mode_of Dir |})]) /\
  exists t,
    run posix 0 (CreateFolder (Pathname_of "/home/user/")) demo_world
    = Some (true, demo_world, t).
Proof.
  split.
  - apply (proj1 CreateFolder_existing_node posix 0 demo_world demo_world
             (Pathname_of "/tmp/") {| st_mode := mode_of Dir |});
      reflexivity.
  - destruct (proj2 CreateFolder_existing_node demo_world 0 "/home/user")
      as (t & Ht & _); [reflexivity|].
    exists t. exact Ht.
Defined.

(** ** DeleteFile and DeleteEmptyFolder *)

Section Delete.

Context (cfg : build) (os : OS) (fuel : nat).

Lemma run_IsFile_inv (path : Pathname) (w w1 : world os) b t :
  run os fuel (IsFile path) w = Some (b, w1, t) ->
  exists r, answer os (sys_stat (pathname path)) w = (r, w1) /\
            t = [Ev (sys_stat (pathname path)) r].
Proof.
  destruct (answer os (sys_stat (pathname path)) w) as [r w0] eqn:Hr.
  rewrite (run_IsFile os fuel path w w0 r Hr). intros [= _ <- <-]. eauto.
Qed.

Lemma run_IsFolder_inv (path : Pathname) (w w1 : world os) b t :
  run os fuel (IsFolder path) w = Some (b, w1, t) ->
  exists r, answer os (sys_stat (pathname path)) w = (r, w1) /\
            t = [Ev (sys_stat (pathname path)) r].
Proof.
  destruct (answer os (sys_stat (pathname path)) w) as [r w0] eqn:Hr.
  rewrite (run_IsFolder os fuel path w w0 r Hr). intros [= _ <- <-]. eauto.
Qed.

Lemma run_ASSERT_release (cond : prog bool) (expr : string) (w : world os) :
  debug cfg = false -> run os fuel (ASSERT cfg cond expr) w = Some (tt, w, []).
Proof. intros H. unfold ASSERT. now rewrite H. Qed.

Lemma run_ASSERT_debug (cond : prog bool) (expr : string)
    (w w1 : world os) b t :
  debug cfg = true -> run os fuel cond w = Some (b, w1, t) ->
  run os fuel (ASSERT cfg cond expr) w =
  Some (tt, if b then w1 else snd (answer os (assert_failed expr) w1),
        t ++ if b then [] else [Ev (assert_failed expr) tt]).
Proof.
  intros H Hc. unfold ASSERT. rewrite H, run_bind, Hc. simpl.
  destruct b; simpl; [reflexivity|].
  destruct (answer os (assert_failed expr) w1) as [[] w2]. reflexivity.
Qed.

End Delete.

(** C6. When the path is not classified as a file, [DeleteFile] returns
    false and never calls [unlink]; when it is not classified as a folder,
    [DeleteEmptyFolder] returns false and never calls [rmdir].  A release
    build does nothing beyond the classification; a debug build evaluates
    the assertion, which fails unless the classification has changed. *)
Theorem delete_checks_its_precondition :
  forall (cfg : build) (os : OS) (fuel : nat) (w w1 : world os)
         (path : Pathname) (t1 : trace),
    (run os fuel (IsFile path) w = Some (false, w1, t1) ->
     exists w' t,
       run os fuel (DeleteFile cfg path) w = Some (false, w', t) /\
       forallb (fun e => negb (is_unlink e)) t = true /\
       (debug cfg = false -> w' = w1 /\ t = t1) /\
       (debug cfg = true ->
        exists b w2 t2,
          run os fuel (IsFile path) w1 = Some (b, w2, t2) /\
          t = t1 ++ t2 ++
              if b then [] else [Ev (assert_failed "IsFile(filename)") tt])) /\
    (run os fuel (IsFolder path) w = Some (false, w1, t1) ->
     exists w' t,
       run os fuel (DeleteEmptyFolder cfg path) w = Some (false, w', t) /\
       forallb (fun e => negb (is_rmdir e)) t = true /\
       (debug cfg = false -> w' = w1 /\ t = t1) /\
       (debug cfg = true ->
        exists b w2 t2,
          run os fuel (IsFolder path) w1 = Some (b, w2, t2) /\
          t = t1 ++ t2 ++
              if b then [] else [Ev (assert_failed "IsFolder(folder)") tt])).
Proof.
  Opaque IsFile IsFolder.
  intros cfg os fuel w w1 path t1. split; intros H.
  - destruct (run_IsFile_inv os fuel path w w1 false t1 H) as (r & Hr & ->).
    unfold DeleteFile. rewrite run_bind, H. simpl.
    destruct (debug cfg) eqn:Hd.
    + destruct (answer os (sys_stat (pathname path)) w1) as [r2 w2] eqn:Hr2.
      pose proof (run_IsFile os fuel path w1 w2 r2 Hr2) as H2.
      rewrite run_bind, (run_ASSERT_debug cfg os fuel _ _ _ _ _ _ Hd H2). simpl.
      do 2 eexists. split; [reflexivity|]. split; [|split; [discriminate|]].
      * now destruct (match r2 with StatOk st => _ | StatErr _ => _ end).
      * intros _. do 3 eexists. split; [exact H2|].
        rewrite app_nil_r. reflexivity.
    + rewrite run_bind, (run_ASSERT_release cfg os fuel _ _ _ Hd). simpl.
      do 2 eexists. split; [reflexivity|]. split; [reflexivity|].
      split; [auto|discriminate].
  - destruct (run_IsFolder_inv os fuel path w w1 false t1 H) as (r & Hr & ->).
    unfold DeleteEmptyFolder. rewrite run_bind, H. simpl.
    destruct (debug cfg) eqn:Hd.
    + destruct (answer os (sys_stat (pathname path)) w1) as [r2 w2] eqn:Hr2.
      pose proof (run_IsFolder os fuel path w1 w2 r2 Hr2) as H2.
      rewrite run_bind, (run_ASSERT_debug cfg os fuel _ _ _ _ _ _ Hd H2). simpl.
      do 2 eexists. split; [reflexivity|]. split; [|split; [discriminate|]].
      * now destruct (match r2 with StatOk st => _ | StatErr _ => _ end).
      * intros _. do 3 eexists. split; [exact H2|].
        rewrite app_nil_r. reflexivity.
    + rewrite run_bind, (run_ASSERT_release cfg os fuel _ _ _ Hd). simpl.
      do 2 eexists. split; [reflexivity|]. split; [reflexivity|].
      split; [auto|discriminate].
  Transparent IsFile IsFolder.
Qed.

Lemma delete_checks_its_precondition_witness :
  (exists w' t,
     run posix 0 (DeleteFile debug_build (Pathname_of "/tmp/")) demo_world
     = Some (false, w', t) /\
     forallb (fun e => negb (is_unlink e)) t = true) /\
  (exists w' t,
     run posix 0 (DeleteEmptyFolder release_build (Pathname_of "/tmp/a")) demo_world
     = Some (false, w', t) /\
     forallb (fun e => negb (is_rmdir e)) t = true).
Proof.
  split.
  - destruct (proj1 (delete_checks_its_precondition debug_build posix 0
                       demo_world demo_world (Pathname_of "/tmp/")
                       [Ev (sys_stat "/tmp/")
                          (StatOk {| st_mode := mode_of Dir |})]))
      as (w' & t & Hrun & Ht & _); [reflexivity|].
    exists w', t. split; assumption.
  - destruct (proj2 (delete_checks_its_precondition release_build posix 0
                       demo_world demo_world (Pathname_of "/tmp/a")
                       [Ev (sys_stat "/tmp/a")
                          (StatOk {| st_mode := mode_of (File ABC) |})]))
      as (w' & t & Hrun & Ht & _); [reflexivity|].
    exists w', t. split; assumption.
Defined.

(** ** The descent of CreateFolder: properties *)

Lemma starts_with_refl (s : string) : starts_with s s = true.
Proof.
  induction s as [|c s IH]; simpl; [reflexivity|].
  now rewrite Ascii.eqb_refl.
Qed.

Lemma starts_with_trans (a b c : string) :
  starts_with a b = true -> starts_with b c = true -> starts_with a c = true.
Proof.
  revert b c. induction a as [|x a IH]; intros b c; simpl; [reflexivity|].
  destruct b as [|y b]; [discriminate|]. destruct c as [|z c]; simpl; [discriminate|].
  intros [Hxy Hab]%andb_true_iff [Hyz Hbc]%andb_true_iff.
  apply Ascii.eqb_eq in Hxy, Hyz. subst. rewrite Ascii.eqb_refl. simpl.
  now apply (IH b).
Qed.

Lemma starts_with_substr0 (s : string) (n : nat) :
  starts_with (substr0 s n) s = true.
Proof.
  unfold substr0. revert n.
  induction s as [|c s IH]; intros [|n]; simpl; try reflexivity.
  rewrite Ascii.eqb_refl. apply IH.
Qed.

Lemma scan_back_sep (s : string) (n : nat) :
  scan_back s n = 0 \/ is_sep_at s (scan_back s n - 1) = true.
Proof.
  induction n as [|n IH]; simpl; [now left|].
  destruct (is_sep_at s n) eqn:E; [right|exact IH].
  simpl. now rewrite Nat.sub_0_r.
Qed.

Lemma scan_back_skips (s : string) (n i : nat) :
  scan_back s n <= i < n -> is_sep_at s i = false.
Proof.
  induction n as [|n IH]; simpl; [lia|].
  destruct (is_sep_at s n) eqn:E; [lia|].
  intros H. destruct (decide (i = n)) as [->|]; [exact E|]. apply IH. lia.
Qed.

Lemma parent_folder_eq (p : string) :
  parent_folder p = substr0 p (parent_len p (String.length p)).
Proof. apply pathname_Pathname_of. Qed.

Lemma get_substr0 (s : string) (k i : nat) :
  i < k -> String.get i (substr0 s k) = String.get i s.
Proof.
  unfold substr0. revert k i.
  induction s as [|c s IH]; intros [|k] [|i] H; simpl; try reflexivity; try lia.
  apply IH. lia.
Qed.

Lemma parent_folder_terminated (p : string) :
  parent_folder p = "" \/ not_a_folder_path (parent_folder p) = false.
Proof.
  rewrite parent_folder_eq. unfold parent_len.
  pose proof (scan_back_le p (String.length p - 1)) as Hle.
  set (k := scan_back p (String.length p - 1)) in *.
  destruct (decide (k = 0)) as [->|Hk].
  - left. unfold substr0. now destruct p.
  - right. destruct (scan_back_sep p (String.length p - 1)) as [H0|Hsep];
      [contradiction|]. fold k in Hsep.
    unfold not_a_folder_path. rewrite length_substr0 by lia.
    apply orb_false_iff. split; [now apply Nat.eqb_neq|].
    apply negb_false_iff. unfold is_sep_at in *.
    rewrite get_substr0 by lia. exact Hsep.
Qed.

Lemma stat_calls_app (t1 t2 : trace) :
  stat_calls (t1 ++ t2) = stat_calls t1 ++ stat_calls t2.
Proof.
  induction t1 as [|[X c r] t1 IH]; simpl; [reflexivity|].
  destruct c; simpl; rewrite IH; reflexivity.
Qed.

Lemma descends_check_inv (p : string) calls q :
  descends p calls q SeparatorCheck -> not_a_folder_path q = true.
Proof.
  intros H. remember SeparatorCheck as why eqn:E.
  induction H; try discriminate; auto.
Qed.

Lemma parent_folder_prefix (p : string) :
  starts_with (parent_folder p) p = true.
Proof. rewrite parent_folder_eq. apply starts_with_substr0. Qed.

Lemma CreateFolder_descends (os : OS) (fuel : nat) :
  forall (path : Pathname) (w : world os),
  exists r w' t q why,
    run os fuel (CreateFolder path) w = Some (r, w', t) /\
    descends (pathname path) (stat_calls t) q why /\
    starts_with q (pathname path) = true /\
    (why = SeparatorCheck -> q = pathname path \/ q = "").
Proof.
  intros path. remember (String.length (pathname path)) as n eqn:Hn.
  revert path Hn. induction n as [n IH] using lt_wf_ind. intros path Hn w.
  rewrite CreateFolder_eq.
  destruct (not_a_folder_path (pathname path)) eqn:Hg.
  - exists false, w, [], (pathname path), SeparatorCheck. simpl.
    repeat split; [now constructor|apply starts_with_refl|auto].
  - simpl. destruct (answer os (sys_stat (pathname path)) w) as [[st|e] w1].
    + exists (S_ISDIR (st_mode st)), w1,
        [Ev (sys_stat (pathname path)) (StatOk st)], (pathname path), NodeExists.
      simpl. repeat split; [now constructor|apply starts_with_refl|discriminate].
    + destruct (errno_eqb e ENOENT) eqn:He; simpl.
      * apply errno_eqb_eq in He. subst e.
        pose proof (parent_shorter _ Hg) as Hlt.
        set (parent := Pathname_of _) in *.
        destruct (IH (String.length (pathname parent)) ltac:(lia) parent eq_refl w1)
          as (r & w' & t & q & why & Hrun & Hdesc & Hpre & Hwhy).
        rewrite run_bind, Hrun. simpl.
        assert (Hq : starts_with q (pathname path) = true).
        { apply (starts_with_trans _ _ _ Hpre). apply parent_folder_prefix. }
        assert (Hwhy' : why = SeparatorCheck -> q = pathname path \/ q = "").
        { intros ->. right. destruct (Hwhy eq_refl) as [Hq'|]; [|assumption].
          apply descends_check_inv in Hdesc.
          destruct (parent_folder_terminated (pathname path)) as [E|E];
            unfold parent_folder in E; fold parent in E; congruence. }
        destruct r; simpl.
        -- destruct (answer os (sys_mkdir (pathname path) 493) w') as [res w2].
           exists (0 =? sys_res res)%Z, w2,
             (Ev (sys_stat (pathname path)) (StatErr ENOENT)
                :: t ++ [Ev (sys_mkdir (pathname path) 493) res]), q, why.
           repeat split; try assumption.
           simpl. rewrite stat_calls_app. simpl. rewrite app_nil_r.
           now constructor.
        -- exists false, w',
             (Ev (sys_stat (pathname path)) (StatErr ENOENT) :: t ++ []), q, why.
           repeat split; try assumption.
           simpl. rewrite app_nil_r. now constructor.
      * exists false, w1, [Ev (sys_stat (pathname path)) (StatErr e)],
          (pathname path), (UnexpectedError e).
        simpl. repeat split; [|apply starts_with_refl|discriminate].
        constructor; [assumption|]. intros ->. discriminate.
Qed.

(** C9, as stated, fails: below a regular file [stat] reports ENOTDIR, and
    the descent stops there, at a non-empty path where no node exists. *)
Lemma CreateFolder_stops_at_unexpected_error :
  ~ (forall (os : OS) (fuel : nat) (w w' : world os) (path : Pathname)
            (r : bool) (t : trace) (q : string) (why : bottom),
       run os fuel (CreateFolder path) w = Some (r, w', t) ->
       descends (pathname path) (stat_calls t) q why ->
       why = NodeExists \/ q = "").
Proof.
  intros H.
  destruct (H posix 0 demo_world demo_world (Pathname_of "/f/a/") false
              [Ev (sys_stat "/f/a/") (StatErr ENOTDIR)] "/f/a/"
              (UnexpectedError ENOTDIR)) as [E|E]; try discriminate.
  - reflexivity.
  - apply descends_error; [reflexivity|discriminate].
Qed.

(** C9 (amended). [CreateFolder] returns on every path, whatever the
    system answers.  The recursive call is made on the path cut after the
    previous separator, a strictly shorter prefix; the descent stops at a
    prefix where [stat] succeeds, at a prefix where [stat] fails with an
    error other than ENOENT, or at a path that fails the separator check,
    which is the path given or the empty string. *)
Theorem CreateFolder_terminates :
  (forall p : string,
     not_a_folder_path p = false ->
     let k := parent_len p (String.length p) in
     parent_folder p = substr0 p k /\
     starts_with (parent_folder p) p = true /\
     String.length (parent_folder p) < String.length p /\
     (k = 0 \/ is_sep_at p (k - 1) = true) /\
     (forall i, k <= i < String.length p - 1 -> is_sep_at p i = false)) /\
  (forall (os : OS) (fuel : nat) (w : world os) (path : Pathname),
     exists r w' t q why,
       run os fuel (CreateFolder path) w = Some (r, w', t) /\
       descends (pathname path) (stat_calls t) q why /\
       starts_with q (pathname path) = true /\
       (why = SeparatorCheck -> q = pathname path \/ q = "")).
Proof.
  split.
  - intros p Hp k. repeat split.
    + apply parent_folder_eq.
    + apply parent_folder_prefix.
    + apply parent_shorter, Hp.
    + apply scan_back_sep.
    + apply scan_back_skips.
  - intros os fuel w path. apply CreateFolder_descends.
Qed.

Lemma CreateFolder_terminates_witness :
  parent_folder "/tmp/x/y/" = "/tmp/x/" /\
  String.length (parent_folder "/tmp/x/y/") < String.length "/tmp/x/y/".
Proof.
  destruct (proj1 CreateFolder_terminates "/tmp/x/y/" eq_refl)
    as (Heq & _ & Hlt & _).
  split; [exact Heq|exact Hlt].
Defined.

(** ** Temporary folders *)

Lemma starts_with_app (pre s x : string) :
  starts_with pre s = true -> starts_with pre (s +:+ x) = true.
Proof.
  revert s. induction pre as [|a pre IH]; intros [|b s]; simpl;
    try reflexivity; try discriminate.
  intros [-> H]%andb_true_iff. simpl. now apply IH.
Qed.

Lemma has_prefix_in_app (prefixes : list string) (s x : string) :
  has_prefix_in prefixes s = true -> has_prefix_in prefixes (s +:+ x) = true.
Proof.
  induction prefixes as [|pre rest IH]; simpl; [discriminate|].
  destruct (starts_with pre s) eqn:E.
  - now rewrite (starts_with_app _ _ x E).
  - intros H. rewrite (IH H). now destruct (starts_with pre (s +:+ x)).
Qed.

Lemma has_prefix_in_terminate_folder (prefixes : list string) (s : string) :
  has_prefix_in prefixes s = true ->
  has_prefix_in prefixes (terminate_folder s) = true.
Proof.
  intros H. unfold terminate_folder.
  destruct (_ && _)%bool; [now apply has_prefix_in_app|assumption].
Qed.

Section Temporary.

Context (cfg : build) (os : OS) (fuel : nat).

(** The root keeps an empty leaf name. *)
Lemma temporary_root_leaf (path root : Pathname) (w w1 : world os) t :
  run os fuel (temporary_root cfg path) w = Some (Some root, w1, t) ->
  basename_ root = "".
Proof.
  unfold temporary_root. destruct (plat cfg); simpl.
  - destruct (answer os osx_temporary_folder w) as [[buffer|] w2];
      simpl; intros [= <- _ _]; reflexivity.
  - intros [= <- _ _]; reflexivity.
  - destruct (answer os (sys_getenv "TMPDIR") w) as [[tmpdir|] w2]; simpl;
      [intros [= <- _ _]; reflexivity|].
    destruct (answer os (sys_getenv "TMP") w2) as [[tmp|] w3]; simpl;
      [intros [= <- _ _]; reflexivity|].
    destruct (P_tmpdir cfg); simpl; intros [= <- _ _]; reflexivity.
Qed.

Lemma GetTemporaryFolder_path (path : Pathname) (create : bool)
    (append : option string) (w w' : world os) ok p t :
  run os fuel (GetTemporaryFolder cfg path create append) w
  = Some ((ok, p), w', t) ->
  match run os fuel (temporary_root cfg path) w with
  | Some (Some root, _, _) =>
      p = match append with
          | Some a => AppendFolder root a
          | None => root
          end
  | Some (None, _, _) => ok = false /\ p = path
  | None => False
  end.
Proof.
  unfold GetTemporaryFolder. rewrite run_bind.
  destruct (run os fuel (temporary_root cfg path) w) as [[[[root|] w1] t1]|];
    simpl; [|intros [= <- <- _ _]; auto|discriminate].
  rewrite run_bind.
  assert (Happ : exists w2 t2,
             run os fuel
               match append with
               | Some a =>
                   let* _ := ASSERT cfg (Ret (negb (string_empty a)))
                               "!append->empty()" in
                   Ret (AppendFolder root a)
               | None => Ret root
               end w1
             = Some (match append with
                     | Some a => AppendFolder root a
                     | None => root
                     end, w2, t2)).
  { destruct append as [a|]; simpl; [|eauto].
    unfold ASSERT. destruct (debug cfg); simpl; [|eauto].
    destruct (negb (string_empty a)); simpl; [eauto|].
    destruct (answer os (assert_failed "!append->empty()") w1) as [[] w2].
    simpl. eauto. }
  destruct Happ as (w2 & t2 & ->). simpl.
  destruct create; simpl.
  - rewrite run_bind.
    destruct (run os fuel (CreateFolder _) w2) as [[[c w3] t3]|]; simpl;
      [|discriminate].
    intros [= _ <- _ _]. reflexivity.
  - intros [= _ <- _ _]. reflexivity.
Qed.

End Temporary.

(** C7, as stated, fails: with [TMPDIR=/home/user/tmp] the folder that
    [GetTemporaryFolder] returns is not a temporary path. *)
Lemma GetTemporaryFolder_outside_known_prefixes :
  ~ (forall (w w' : posix_world) (fuel : nat) (path p : Pathname)
            (create : bool) (append : option string) (t : trace),
       run posix fuel (GetTemporaryFolder release_build path create append) w
       = Some ((true, p), w', t) ->
       IsTemporaryPath release_build p = true).
Proof.
  intros H.
  specialize (H tmpdir_world tmpdir_world 0 empty_Pathname
                (mkPathname "/home/user/tmp/" "") false None
                [Ev (sys_getenv "TMPDIR") (Some "/home/user/tmp")] eq_refl).
  vm_compute in H. discriminate H.
Qed.

(** C7 (amended). When the temp root that [GetTemporaryFolder] selects
    (on POSIX: TMPDIR if set, else TMP if set, else the platform default)
    lies under one of the prefixes [IsTemporaryPath] knows, every path it
    returns is a temporary path; on Android that is always so.
    [/home/user/doc.txt] is not a temporary path on any platform. *)
Theorem IsTemporaryPath_of_GetTemporaryFolder :
  forall (cfg : build),
    (forall (os : OS) (fuel : nat) (w w' w1 : world os) (path p root : Pathname)
            (create : bool) (append : option string) (t t1 : trace),
       run os fuel (GetTemporaryFolder cfg path create append) w
       = Some ((true, p), w', t) ->
       run os fuel (temporary_root cfg path) w = Some (Some root, w1, t1) ->
       IsTemporaryPath cfg root = true ->
       IsTemporaryPath cfg p = true) /\
    (forall (os : OS) (fuel : nat) (w w' : world os) (path p : Pathname)
            (create : bool) (append : option string) (t : trace),
       plat cfg = PLAT_ANDROID ->
       run os fuel (GetTemporaryFolder cfg path create append) w
       = Some ((true, p), w', t) ->
       IsTemporaryPath cfg p = true) /\
    IsTemporaryPath cfg (Pathname_of "/home/user/doc.txt") = false.
Proof.
  intros cfg.
  assert (H1 : forall (os : OS) (fuel : nat) (w w' w1 : world os)
                 (path p root : Pathname) (create : bool)
                 (append : option string) (t t1 : trace),
       run os fuel (GetTemporaryFolder cfg path create append) w
       = Some ((true, p), w', t) ->
       run os fuel (temporary_root cfg path) w = Some (Some root, w1, t1) ->
       IsTemporaryPath cfg root = true ->
       IsTemporaryPath cfg p = true).
  { intros os fuel w w' w1 path p root create append t t1 Hrun Hroot Htemp.
    pose proof (GetTemporaryFolder_path cfg os fuel _ _ _ _ _ _ _ _ Hrun) as Hp.
    rewrite Hroot in Hp. subst p.
    destruct append as [a|]; [|exact Htemp].
    pose proof (temporary_root_leaf cfg os fuel _ _ _ _ _ Hroot) as Hleaf.
    unfold IsTemporaryPath, pathname, AppendFolder in *. simpl.
    rewrite Hleaf in *.
    assert (Hnil : forall s, s +:+ "" = s).
    { induction s as [|c s IH]; [reflexivity|].
      change (String c s +:+ "") with (String c (s +:+ "")). now rewrite IH. }
    rewrite Hnil in *.
    now apply has_prefix_in_terminate_folder, has_prefix_in_app. }
  split; [exact H1|]. split.
  - intros os fuel w w' path p create append t Hplat Hrun.
    apply (H1 os fuel w w' w path p
             (SetPathname2 path GetAndroidTempFolder "") create append t []
             Hrun).
    + unfold temporary_root. now rewrite Hplat.
    + unfold IsTemporaryPath. now rewrite Hplat.
  - unfold IsTemporaryPath. now destruct (plat cfg).
Qed.

Lemma IsTemporaryPath_of_GetTemporaryFolder_witness :
  IsTemporaryPath release_build (mkPathname "/tmp/cache/" "") = true.
Proof.
  apply (proj1 (IsTemporaryPath_of_GetTemporaryFolder release_build)
           posix 0 demo_world demo_world demo_world empty_Pathname
           (mkPathname "/tmp/cache/" "") (mkPathname "/tmp/" "")
           false (Some "cache")
           [Ev (sys_getenv "TMPDIR") None; Ev (sys_getenv "TMP") None]
           [Ev (sys_getenv "TMPDIR") None; Ev (sys_getenv "TMP") None]);
    reflexivity.
Defined.

(** ** The cached application temp folder *)

Lemma pathname_SetPathname (p : Pathname) (s : string) :
  pathname (SetPathname p s) = s.
Proof.
  unfold SetPathname, pathname.
  pose proof (split_folder_app s) as Happ.
  pose proof (split_folder_sep s) as Hsep.
  destruct (split_folder s) as [f b]; simpl in *.
  now rewrite terminate_folder_id.
Qed.

Lemma length_append (a b : string) :
  String.length (a +:+ b) = String.length a + String.length b.
Proof.
  induction a as [|c a IH]; [reflexivity|].
  change (String c a +:+ b) with (String c (a +:+ b)). simpl. now rewrite IH.
Qed.

Lemma length_terminate_folder (s : string) :
  String.length s <= String.length (terminate_folder s).
Proof.
  unfold terminate_folder. destruct (_ && _)%bool; [|lia].
  rewrite length_append. lia.
Qed.

Lemma string_empty_false (s : string) : string_empty s = false <-> s <> "".
Proof.
  unfold string_empty. destruct s; simpl; split; congruence.
Qed.

Section AppTemp.

Context (cfg : build) (os : OS) (fuel : nat).

Lemma run_ASSERT_pure (b : bool) (expr : string) (w : world os) :
  exists wa ta,
    run os fuel (ASSERT cfg (Ret b) expr) w = Some (tt, wa, ta) /\
    forallb is_assert_failed ta = true /\
    (debug cfg = false \/ b = true -> wa = w /\ ta = []).
Proof.
  unfold ASSERT. destruct (debug cfg); simpl.
  - destruct b; simpl.
    + exists w, []. auto.
    + destruct (answer os (assert_failed expr) w) as [[] w1].
      exists w1, [Ev (assert_failed expr) tt].
      split; [reflexivity|]. split; [reflexivity|].
      intros [H|H]; discriminate H.
  - exists w, []. auto.
Qed.

Lemma GetAppTempFolder_from_cache (m : members) (path : Pathname)
    (w : world os) :
  app_temp_path_ m <> "" ->
  exists w' t,
    run os fuel (GetAppTempFolder cfg m path) w
    = Some ((true, SetPathname path (app_temp_path_ m), m), w', t) /\
    forallb is_assert_failed t = true /\
    (debug cfg = false \/ application_name_ m <> "" -> w' = w /\ t = []).
Proof.
  intros Hc. apply string_empty_false in Hc.
  unfold GetAppTempFolder. rewrite run_bind.
  destruct (run_ASSERT_pure (negb (string_empty (application_name_ m)))
              "!application_name_.empty()" w) as (wa & ta & -> & Hta & Hrel).
  simpl. rewrite Hc. simpl. rewrite app_nil_r.
  exists wa, ta. repeat split; try assumption; apply Hrel;
    (destruct H as [H|H]; [now left|right]);
    apply string_empty_false in H; now rewrite H.
Qed.

End AppTemp.

(** C8. With an empty cache, [GetAppTempFolder] asks for the process id
    and the time, has [GetTemporaryFolder] create
    [<application>-<pid>-<time>] under the temp root, and when that
    succeeds returns the path and stores it in [app_temp_path_]; when it
    fails the cache stays empty.  A successful call leaves its path, which
    is not empty, in [app_temp_path_]; every later call, in whatever state
    of the system, returns that same path from the cache, leaves the cache
    as it is, and makes no system call to generate a path again.  In the
    demo world the first call creates and stores
    [/tmp/talk-4711-1288000000/], and the second returns it without a
    call. *)
Theorem GetAppTempFolder_returns_cached_path :
  (forall (cfg : build) (os : OS) (fuel : nat) (w wa w2 w3 : world os)
          (m : members) (path : Pathname) (ta : trace) (pid now : Z),
     app_temp_path_ m = "" ->
     run os fuel
       (ASSERT cfg (Ret (negb (string_empty (application_name_ m))))
          "!application_name_.empty()") w = Some (tt, wa, ta) ->
     answer os sys_getpid wa = (pid, w2) ->
     answer os sys_time w2 = (now, w3) ->
     let folder :=
       application_name_ m +:+ "-" +:+ format_d (to_int pid)
       +:+ "-" +:+ format_d (to_int now) in
     let calls := ta ++ [Ev sys_getpid pid; Ev sys_time now] in
     run os fuel (GetAppTempFolder cfg m path) w =
     match run os fuel (GetTemporaryFolder cfg path true (Some folder)) w3 with
     | Some ((true, p), w4, t4) =>
         Some ((true, p, set_app_temp_path m (pathname p)), w4, calls ++ t4)
     | Some ((false, p), w4, t4) => Some ((false, p, m), w4, calls ++ t4)
     | None => None
     end) /\
  (forall (cfg : build) (os : OS) (fuel : nat) (w w1 : world os)
          (m m1 : members) (path p1 : Pathname) (t1 : trace),
     run os fuel (GetAppTempFolder cfg m path) w = Some ((true, p1, m1), w1, t1) ->
     app_temp_path_ m1 = pathname p1 /\
     app_temp_path_ m1 <> "" /\
     forall (w2 : world os) (path2 : Pathname),
     exists p2 w3 t2,
       run os fuel (GetAppTempFolder cfg m1 path2) w2
       = Some ((true, p2, m1), w3, t2) /\
       pathname p2 = pathname p1 /\
       forallb is_assert_failed t2 = true /\
       (debug cfg = false \/ application_name_ m1 <> "" -> w3 = w2 /\ t2 = [])) /\
  (let generated := "/tmp/talk-4711-1288000000/" in
   let m1 := set_app_temp_path talk_members generated in
   let w1 := set_nodes demo_world
               (<[ ["talk-4711-1288000000"; "tmp"] := Dir ]> (nodes demo_world))
               (free_space demo_world) in
   exists p1 t1,
     run posix 0 (GetAppTempFolder release_build talk_members empty_Pathname)
       demo_world = Some ((true, p1, m1), w1, t1) /\
     pathname p1 = generated /\
     mkdir_calls t1 = [(generated, 493%Z, Done)] /\
     exists p2,
       run posix 0 (GetAppTempFolder release_build m1 empty_Pathname) w1
       = Some ((true, p2, m1), w1, []) /\
       pathname p2 = generated).
Proof.
  split; [|split].
  - intros cfg os fuel w wa w2 w3 m path ta pid now Hcache Hassert Hpid Htime
      folder calls.
    unfold GetAppTempFolder. rewrite run_bind, Hassert. cbn [then_run].
    rewrite Hcache. cbn [string_empty String.length Nat.eqb negb].
    cbn [bind call run]. rewrite Hpid, Htime. rewrite run_bind. fold folder.
    destruct (run os fuel (GetTemporaryFolder cfg path true (Some folder)) w3)
      as [[[[[] p] w4] t4]|]; cbn [then_run negb run]; unfold calls;
      rewrite ?app_nil_r, <- ?app_assoc; reflexivity.
  - intros cfg os fuel w w1 m m1 path p1 t1 Hrun.
    assert (Hcache : app_temp_path_ m1 = pathname p1 /\ app_temp_path_ m1 <> "").
    { revert Hrun. unfold GetAppTempFolder. rewrite run_bind.
      destruct (run_ASSERT_pure cfg os fuel
                  (negb (string_empty (application_name_ m)))
                  "!application_name_.empty()" w) as (wa & ta & -> & _ & _).
      simpl. destruct (string_empty (app_temp_path_ m)) eqn:Hc; simpl.
      - destruct (answer os sys_getpid wa) as [pid w2].
        destruct (answer os sys_time w2) as [now w3].
        rewrite run_bind.
        set (folder := application_name_ m +:+ _).
        destruct (run os fuel (GetTemporaryFolder cfg path true (Some folder)) w3)
          as [[[[ok p] w4] t4]|] eqn:Hget; simpl; [|discriminate].
        destruct ok; simpl; [|discriminate].
        intros [= <- <- _ _]. simpl. split; [reflexivity|].
        pose proof (GetTemporaryFolder_path cfg os fuel _ _ _ _ _ _ _ _ Hget) as Hp.
        destruct (run os fuel (temporary_root cfg path) w3)
          as [[[[root|] w5] t5]|]; [|now destruct Hp|contradiction].
        subst p. unfold pathname, AppendFolder. simpl.
        intros E. apply (f_equal String.length) in E.
        rewrite length_append in E.
        pose proof (length_terminate_folder (folder_ root +:+ folder)) as Hlen.
        clear Hget. subst folder.
        rewrite !length_append in Hlen. simpl in *. lia.
      - intros [= <- <- _ _].
        rewrite pathname_SetPathname. split; [reflexivity|].
        now apply string_empty_false. }
    destruct Hcache as [Heq Hne]. repeat split; try assumption.
    intros w2 path2.
    destruct (GetAppTempFolder_from_cache cfg os fuel m1 path2 w2 Hne)
      as (w3 & t2 & Hrun2 & Ht2 & Hrel).
    exists (SetPathname path2 (app_temp_path_ m1)), w3, t2.
    repeat split; try assumption; try (now apply Hrel).
    now rewrite pathname_SetPathname.
  - do 2 eexists. split; [vm_compute; reflexivity|].
    split; [reflexivity|]. split; [reflexivity|].
    eexists. split; [vm_compute; reflexivity|reflexivity].
Qed.

Lemma GetAppTempFolder_returns_cached_path_witness :
  run posix 0 (GetAppTempFolder release_build talk_members empty_Pathname)
    demo_world
  = Some ((true,
           {| folder_ := "/tmp/talk-4711-1288000000/"; basename_ := "" |},
           set_app_temp_path talk_members "/tmp/talk-4711-1288000000/"),
          set_nodes demo_world
            (<[ ["talk-4711-1288000000"; "tmp"] := Dir ]> (nodes demo_world))
            (free_space demo_world),
          [Ev sys_getpid 4711%Z; Ev sys_time 1288000000%Z;
           Ev (sys_getenv "TMPDIR") None; Ev (sys_getenv "TMP") None;
           Ev (sys_stat "/tmp/talk-4711-1288000000/") (StatErr ENOENT);
           Ev (sys_stat "/tmp/") (StatOk {| st_mode := mode_of Dir |});
           Ev (sys_mkdir "/tmp/talk-4711-1288000000/" 493) Done]) /\
  exists p2 w3 t2,
    run posix 0
      (GetAppTempFolder release_build
         (set_app_temp_path talk_members "/tmp/talk-4711-1288000000/")
         empty_Pathname) full_world
    = Some ((true, p2,
             set_app_temp_path talk_members "/tmp/talk-4711-1288000000/"),
            w3, t2) /\
    pathname p2 = "/tmp/talk-4711-1288000000/".
Proof.
  assert (Hfirst :
            run posix 0 (GetAppTempFolder release_build talk_members empty_Pathname)
              demo_world
            = Some ((true,
                     {| folder_ := "/tmp/talk-4711-1288000000/"; basename_ := "" |},
                     set_app_temp_path talk_members "/tmp/talk-4711-1288000000/"),
                    set_nodes demo_world
                      (<[ ["talk-4711-1288000000"; "tmp"] := Dir ]>
                         (nodes demo_world))
                      (free_space demo_world),
                    [Ev sys_getpid 4711%Z; Ev sys_time 1288000000%Z;
                     Ev (sys_getenv "TMPDIR") None; Ev (sys_getenv "TMP") None;
                     Ev (sys_stat "/tmp/talk-4711-1288000000/") (StatErr ENOENT);
                     Ev (sys_stat "/tmp/") (StatOk {| st_mode := mode_of Dir |});
                     Ev (sys_mkdir "/tmp/talk-4711-1288000000/" 493) Done])).
  { rewrite (proj1 GetAppTempFolder_returns_cached_path release_build posix 0
               demo_world demo_world demo_world demo_world talk_members
               empty_Pathname [] 4711%Z 1288000000%Z
               eq_refl eq_refl eq_refl eq_refl).
    vm_compute. reflexivity. }
  split; [exact Hfirst|].
  destruct (proj1 (proj2 GetAppTempFolder_returns_cached_path) release_build
              posix 0 demo_world _ talk_members _ empty_Pathname _ _ Hfirst)
    as (_ & _ & H).
  destruct (H full_world empty_Pathname) as (p2 & w3 & t2 & Hrun & Hp & _).
  exists p2, w3, t2. split; [exact Hrun|exact Hp].
Defined.

(** ** The model: nodes and streams *)

Lemma node_at_insert_eq (fs : gmap (list string) node) k n :
  k <> [] -> node_at (<[k := n]> fs) k = Some n.
Proof. destruct k; [congruence|]. intros _. simpl. apply lookup_insert_eq. Qed.

Lemma node_at_insert_ne (fs : gmap (list string) node) k k' n :
  k <> k' -> node_at (<[k := n]> fs) k' = node_at fs k'.
Proof. intros H. destruct k'; [reflexivity|]. simpl. now apply lookup_insert_ne. Qed.

Lemma node_at_delete_eq (fs : gmap (list string) node) k :
  k <> [] -> node_at (delete k fs) k = None.
Proof. destruct k; [congruence|]. intros _. simpl. apply lookup_delete_eq. Qed.

Lemma node_at_delete_ne (fs : gmap (list string) node) k k' :
  k <> k' -> node_at (delete k fs) k' = node_at fs k'.
Proof. intros H. destruct k'; [reflexivity|]. simpl. now apply lookup_delete_ne. Qed.

Lemma node_at_file_key (fs : gmap (list string) node) k d :
  node_at fs k = Some (File d) -> k <> [].
Proof. destruct k; [discriminate|discriminate]. Qed.

Lemma CopyFile_eq (old_path new_path : Pathname) :
  CopyFile old_path new_path =
  let* source := OpenFile old_path "rb" in
  match source with
  | None => Ret false
  | Some source =>
      let* dest := OpenFile new_path "wb" in
      match dest with
      | None => let* _ := call (stream_delete source) in Ret false
      | Some dest => While (copy_body source dest) (copy_end source dest)
      end
  end.
Proof. reflexivity. Qed.

Lemma take_drop_nil {A} (l : list A) (p n : nat) :
  length l - p <= 0 -> take n (drop p l) = [].
Proof.
  intros H. rewrite drop_ge by lia. apply take_nil.
Qed.

Lemma copy_body_step (hs hd : handle) (ks kd : list string) (n fuel : nat)
    (w : posix_world) :
  copying hs hd ks kd n w ->
  exists b w' t,
    run posix fuel (copy_body hs hd) w = Some (b, w', t) /\
    (b = true -> exists n', n = S n' /\ copying hs hd ks kd n' w').
Proof.
  intros (Hne & (fs & Hfs & Hks & Hro & Hnode) & Hfd).
  unfold copy_body. simpl. unfold posix_read. rewrite Hfs, Hro, Hks.
  destruct (node_at (nodes w) ks) as [[d|]|] eqn:Hd;
    try (simpl; do 3 eexists; split; [reflexivity|discriminate]).
  destruct Hnode as [Hlen Hkeys].
  destruct (take copy_chunk (drop (of_pos fs) d)) as [|x chunk] eqn:Hchunk.
  { simpl. do 3 eexists. split; [reflexivity|discriminate]. }
  destruct n as [|n'].
  { rewrite take_drop_nil in Hchunk by lia. discriminate. }
  destruct Hkeys as [Hkeys|]; [|discriminate].
  set (w1 := set_streams w _ _).
  assert (Hlen1 : length (x :: chunk) >= 1) by (simpl; lia).
  assert (Hstep : forall w2 : posix_world,
             nodes w2 = nodes w1 \/
             (exists d', nodes w2 = <[kd := File d']> (nodes w1)) ->
             streams w2 = streams w1 \/
             (exists fd, streams w1 !! hd = Some fd /\
                         exists m, streams w2 = <[hd := advance fd m]> (streams w1)) ->
             copying hs hd ks kd n' w2).
  { intros w2 Hn2 Hs2. split; [assumption|]. split.
    - exists (advance fs (length (x :: chunk))).
      assert (Hl : streams w2 !! hs = Some (advance fs (length (x :: chunk)))).
      { destruct Hs2 as [->|(fd & _ & m & ->)].
        - simpl. apply lookup_insert_eq.
        - rewrite lookup_insert_ne by congruence. simpl. apply lookup_insert_eq. }
      repeat split; try assumption.
      assert (Hn : node_at (nodes w2) ks = Some (File d)).
      { destruct Hn2 as [->|(d' & ->)]; simpl; [assumption|].
        now rewrite node_at_insert_ne by congruence. }
      rewrite Hn. simpl in *. split; [lia|now left].
    - intros fd2 Hfd2. destruct Hs2 as [E|(fd & Hfd1 & m & E)]; rewrite E in Hfd2.
      + simpl in Hfd2. rewrite lookup_insert_ne in Hfd2 by assumption. auto.
      + rewrite lookup_insert_eq in Hfd2. injection Hfd2 as <-. simpl.
        simpl in Hfd1. rewrite lookup_insert_ne in Hfd1 by assumption. auto. }
  simpl. unfold posix_write.
  destruct (streams w1 !! hd) as [fd|] eqn:Hfd1.
  2:{ simpl. do 3 eexists. split; [reflexivity|]. intros _. exists n'.
      split; [reflexivity|]. apply Hstep; now left. }
  destruct (negb (of_writable fd)).
  { simpl. do 3 eexists. split; [reflexivity|]. intros _. exists n'.
    split; [reflexivity|]. apply Hstep; now left. }
  destruct (node_at (nodes w1) (of_key fd)) as [[d'|]|] eqn:Hd';
    try (simpl; do 3 eexists; split; [reflexivity|]; intros _; exists n';
         split; [reflexivity|]; apply Hstep; now left).
  destruct (_ && _)%bool.
  { simpl. do 3 eexists. split; [reflexivity|]. intros _. exists n'.
    split; [reflexivity|]. apply Hstep; now left. }
  simpl. do 3 eexists. split; [reflexivity|]. intros _. exists n'.
  split; [reflexivity|].
  assert (Hkd : of_key fd = kd).
  { apply Hfd. subst w1. simpl in Hfd1.
    now rewrite lookup_insert_ne in Hfd1 by assumption. }
  apply Hstep.
  - right. rewrite Hkd. eexists. reflexivity.
  - right. exists fd. split; [reflexivity|]. eexists. reflexivity.
Qed.

Lemma copy_loop_returns (hs hd : handle) (ks kd : list string) (fuel : nat) :
  forall (n m : nat) (w : posix_world),
    copying hs hd ks kd n w -> n < m ->
    exists w' t,
      iterate (run posix fuel (copy_body hs hd))
        (run posix fuel (copy_end hs hd)) m w = Some (true, w', t).
Proof.
  induction n as [|n IH]; intros m w Hinv Hm;
    (destruct m as [|m]; [lia|]); cbn [iterate];
    destruct (copy_body_step hs hd ks kd _ fuel w Hinv)
      as (b & w1 & t1 & -> & Hb);
    (destruct b; [destruct (Hb eq_refl) as (n' & Hn' & Hinv')|]).
  - discriminate.
  - simpl. eauto.
  - injection Hn' as <-.
    destruct (IH m w1 Hinv' ltac:(lia)) as (w' & t & ->). eauto.
  - simpl. eauto.
Qed.

Lemma posix_open_read_inv (w w1 : posix_world) (path : string) (h : handle) :
  posix_open w path "rb" = (Some h, w1) ->
  exists k,
    resolve w path = inr k /\ node_at (nodes w) k <> None /\
    h = next_handle w /\
    w1 = set_streams w
           (<[h := {| of_key := k; of_pos := 0; of_writable := false |}]>
              (streams w)) (S h).
Proof.
  unfold posix_open. destruct (resolve w path) as [e|k]; [discriminate|].
  simpl. destruct (node_at (nodes w) k) as [n|] eqn:Hn; [|discriminate].
  unfold open_stream. intros [= <- <-]. exists k.
  repeat split; congruence.
Qed.

Lemma posix_open_write_inv (w w1 : posix_world) (path : string) (h : handle) :
  posix_open w path "wb" = (Some h, w1) ->
  exists k free,
    resolve w path = inr k /\ k <> [] /\
    (node_at (nodes w) k = None \/ exists d, node_at (nodes w) k = Some (File d)) /\
    free_space w <= free /\
    h = next_handle w /\
    w1 = set_streams (set_nodes w (<[k := File []]> (nodes w)) free)
           (<[h := {| of_key := k; of_pos := 0; of_writable := true |}]>
              (streams w)) (S h).
Proof.
  unfold posix_open. destruct (resolve w path) as [e|k]; [discriminate|].
  simpl. destruct (node_at (nodes w) k) as [[d|]|] eqn:Hn; try discriminate.
  - unfold open_stream. simpl. intros [= <- <-].
    exists k, (free_space w + length d).
    repeat split; eauto using node_at_file_key. lia.
  - destruct (parent_is_dir (nodes w) k) eqn:Hp; [|discriminate].
    unfold open_stream. simpl. intros [= <- <-]. exists k, (free_space w).
    repeat split; eauto. intros ->. discriminate.
Qed.

Lemma iterate_result {W A} (body : W -> option (bool * W * trace))
    (k : W -> option (A * W * trace)) (n : nat) (w w' : W) (a : A) (t : trace) :
  iterate body k n w = Some (a, w', t) ->
  exists w1 t1, k w1 = Some (a, w', t1).
Proof.
  revert w t. induction n as [|n IH]; intros w t; simpl; [discriminate|].
  destruct (body w) as [[[[] w1] t1]|]; [| |discriminate].
  - destruct (iterate body k n w1) as [[[a' w2] t2]|] eqn:E; [|discriminate].
    intros [= <- <- _]. eapply IH. exact E.
  - destruct (k w1) as [[[a' w2] t2]|] eqn:E; [|discriminate].
    intros [= <- <- _]. eauto.
Qed.

Lemma run_CopyFile_open (os : OS) (fuel : nat) (w w1 w2 : world os)
    (old_path new_path : Pathname) (source dest : handle) :
  answer os (stream_open (pathname old_path) "rb") w = (Some source, w1) ->
  answer os (stream_open (pathname new_path) "wb") w1 = (Some dest, w2) ->
  run os fuel (CopyFile old_path new_path) w =
  match iterate (run os fuel (copy_body source dest))
          (run os fuel (copy_end source dest)) fuel w2 with
  | Some (r, w', t) =>
      Some (r, w',
            Ev (stream_open (pathname old_path) "rb") (Some source)
              :: Ev (stream_open (pathname new_path) "wb") (Some dest) :: t)
  | None => None
  end.
Proof.
  intros Hs Hd. rewrite CopyFile_eq. unfold OpenFile.
  rewrite run_bind, (run_call os fuel _ _ _ _ Hs). cbn [then_run].
  rewrite run_bind, (run_call os fuel _ _ _ _ Hd). cbn [then_run].
  cbn [run].
  destruct (iterate _ _ fuel w2) as [[[r w3] t3]|]; reflexivity.
Qed.

(** In the model the loop of [CopyFile] comes to an end: fuel beyond the
    size of the source is enough. *)
Lemma CopyFile_returns (w w1 w2 : posix_world) (old_path new_path : Pathname)
    (source dest : handle) :
  posix_open w (pathname old_path) "rb" = (Some source, w1) ->
  posix_open w1 (pathname new_path) "wb" = (Some dest, w2) ->
  forall fuel,
    length (default [] (content w (pathname old_path))) < fuel ->
    exists w' t,
      run posix fuel (CopyFile old_path new_path) w = Some (true, w', t).
Proof.
  intros Hs Hd fuel Hfuel.
  pose proof (run_CopyFile_open posix fuel w w1 w2 old_path
                new_path source dest Hs Hd) as Hrun.
  apply posix_open_read_inv in Hs as (ks & Hks & Hnode & Hhs & Hw1).
  apply posix_open_write_inv in Hd as (kd & free & Hkd & Hkd0 & Hold & _ & Hhd & Hw2).
  set (n := if bool_decide (ks = kd) then 0
            else match node_at (nodes w) ks with
                 | Some (File d) => length d
                 | _ => 0
                 end).
  assert (Hn : n < fuel).
  { unfold n. destruct (bool_decide (ks = kd)); [lia|].
    unfold content in Hfuel. rewrite Hks in Hfuel.
    destruct (node_at (nodes w) ks) as [[d|]|]; simpl in *; lia. }
  assert (Hinv : copying source dest ks kd n w2).
  { split; [subst; simpl; lia|]. split.
    - eexists. split.
      + subst w2. simpl. rewrite lookup_insert_ne by (subst; simpl; lia).
        subst w1. simpl. apply lookup_insert_eq.
      + repeat split. subst w2 w1. simpl. unfold n.
        destruct (bool_decide_reflect (ks = kd)) as [->|Hne'].
        * rewrite node_at_insert_eq by assumption. simpl. auto.
        * rewrite node_at_insert_ne by congruence.
          destruct (node_at (nodes w) ks) as [[d|]|]; auto.
          split; [lia|now left].
    - intros fd. subst w2. simpl. rewrite lookup_insert_eq.
      now intros [= <-]. }
  destruct (copy_loop_returns source dest ks kd fuel n fuel w2 Hinv Hn)
    as (w' & t & Hloop).
  rewrite Hrun, Hloop. eauto.
Qed.

(** C3. Once both streams are open, [CopyFile] returns true whatever the
    calls to [Write] answer, on every system; in the model it does return,
    with fuel beyond the size of the source; and on a full device the copy
    of a three-byte file returns true and leaves an empty destination. *)
Theorem CopyFile_ignores_write_status :
  (forall (os : OS) (fuel : nat) (w w1 w2 w' : world os)
          (old_path new_path : Pathname) (source dest : handle)
          (r : bool) (t : trace),
     answer os (stream_open (pathname old_path) "rb") w = (Some source, w1) ->
     answer os (stream_open (pathname new_path) "wb") w1 = (Some dest, w2) ->
     run os fuel (CopyFile old_path new_path) w = Some (r, w', t) ->
     r = true) /\
  (forall (w w1 w2 : posix_world) (old_path new_path : Pathname)
          (source dest : handle),
     posix_open w (pathname old_path) "rb" = (Some source, w1) ->
     posix_open w1 (pathname new_path) "wb" = (Some dest, w2) ->
     forall fuel,
       length (default [] (content w (pathname old_path))) < fuel ->
       exists w' t,
         run posix fuel (CopyFile old_path new_path) w = Some (true, w', t)) /\
  (exists w' t,
     run posix 2 (CopyFile (Pathname_of "/tmp/a") (Pathname_of "/tmp/b")) full_world
     = Some (true, w', t) /\
     In (Ev (stream_write 4 ABC) SR_ERROR) t /\
     content full_world "/tmp/a" = Some ABC /\
     content w' "/tmp/b" = Some []).
Proof.
  split; [|split].
  - intros os fuel w w1 w2 w' old_path new_path source dest r t Hs Hd.
    rewrite (run_CopyFile_open os fuel _ _ _ _ _ _ _ Hs Hd).
    destruct (iterate _ _ fuel w2) as [[[r' w3] t3]|] eqn:E; [|discriminate].
    intros [= <- _ _].
    apply iterate_result in E as (w4 & t4 & E).
    unfold copy_end in E. simpl in E.
    destruct (answer os (stream_delete source) w4) as [[] w5].
    destruct (answer os (stream_delete dest) w5) as [[] w6].
    now injection E.
  - intros w w1 w2 old_path new_path source dest Hs Hd fuel Hfuel.
    now apply (CopyFile_returns w w1 w2 old_path new_path source dest Hs Hd).
  - do 2 eexists. split; [vm_compute; reflexivity|].
    split; [simpl; auto|]. split; vm_compute; reflexivity.
Qed.

Lemma CopyFile_ignores_write_status_witness :
  exists w' t,
    run posix 4 (CopyFile (Pathname_of "/tmp/a") (Pathname_of "/tmp/b"))
      full_world = Some (true, w', t).
Proof.
  eapply (proj1 (proj2 CopyFile_ignores_write_status) full_world).
  - vm_compute. reflexivity.
  - vm_compute. reflexivity.
  - vm_compute. lia.
Defined.

(** ** Resolution is stable when only regular files change *)

Lemma walk_same_dirs fs fs' cur comps k :
  same_dirs fs fs' -> walk fs cur comps = inr k -> walk fs' cur comps = inr k.
Proof.
  intros Hsame. revert cur. induction comps as [|c rest IH]; intros cur; simpl;
    [auto|].
  destruct (node_at fs cur) as [[d|]|] eqn:Hcur; try discriminate.
  apply Hsame in Hcur. rewrite Hcur.
  destruct (String.eqb c "" || String.eqb c ".")%bool; [apply IH|].
  destruct (String.eqb c ".."); apply IH.
Qed.

Lemma resolve_same_dirs (w w' : posix_world) (path : string) k :
  cwd w' = cwd w -> same_dirs (nodes w) (nodes w') ->
  resolve w path = inr k -> resolve w' path = inr k.
Proof.
  unfold resolve, start_of. intros -> Hsame.
  destruct (string_empty path); [discriminate|].
  now apply walk_same_dirs.
Qed.

Lemma same_dirs_trans fs1 fs2 fs3 :
  same_dirs fs1 fs2 -> same_dirs fs2 fs3 -> same_dirs fs1 fs3.
Proof. intros H1 H2 k. rewrite (H1 k). apply H2. Qed.

Lemma same_dirs_insert_file fs k d :
  node_at fs k <> Some Dir -> same_dirs fs (<[k := File d]> fs).
Proof.
  intros Hk k'. destruct (decide (k = k')) as [<-|Hne].
  - destruct k as [|c k]; [now contradiction Hk|].
    simpl. rewrite lookup_insert_eq. split; [intros H; now contradiction Hk|discriminate].
  - now rewrite node_at_insert_ne.
Qed.

Lemma same_dirs_delete_file fs k d :
  node_at fs k = Some (File d) -> same_dirs fs (delete k fs).
Proof.
  intros Hk k'. destruct (decide (k = k')) as [<-|Hne].
  - rewrite Hk. pose proof (node_at_file_key _ _ _ Hk).
    rewrite node_at_delete_eq by assumption. split; discriminate.
  - now rewrite node_at_delete_ne.
Qed.






(** ** MoveFile *)

Lemma walk_errors fs cur comps e :
  walk fs cur comps = inl e -> e = ENOENT \/ e = ENOTDIR.
Proof.
  revert cur. induction comps as [|c rest IH]; intros cur; simpl; [discriminate|].
  destruct (node_at fs cur) as [[d|]|]; [intros [= <-]; auto| |intros [= <-]; auto].
  destruct (String.eqb c "" || String.eqb c ".")%bool; [apply IH|].
  destruct (String.eqb c ".."); apply IH.
Qed.

Lemma resolve_errors (w : posix_world) (path : string) e :
  resolve w path = inl e -> e = ENOENT \/ e = ENOTDIR.
Proof.
  unfold resolve. destruct (string_empty path); [intros [= <-]; auto|].
  apply walk_errors.
Qed.

(** The name space after a file has moved from [ko] to [kn]. *)
Lemma moved_state (w w' : posix_world) (old_path new_path : string)
    (ko kn : list string) (c : list Byte.byte) :
  resolve w old_path = inr ko -> resolve w new_path = inr kn -> ko <> kn ->
  (exists d, node_at (nodes w) ko = Some (File d)) ->
  node_at (nodes w) kn <> Some Dir -> kn <> [] ->
  cwd w' = cwd w ->
  nodes w' = <[kn := File c]> (delete ko (nodes w)) ->
  posix_stat w' old_path = StatErr ENOENT /\
  content w' new_path = Some c.
Proof.
  intros Hko Hkn Hne (d & Hd) Hnodir Hkn0 Hcwd Hnodes.
  pose proof (node_at_file_key _ _ _ Hd) as Hko0.
  assert (Hsame : same_dirs (nodes w) (nodes w')).
  { rewrite Hnodes.
    eapply same_dirs_trans; [apply (same_dirs_delete_file _ _ _ Hd)|].
    apply same_dirs_insert_file. now rewrite node_at_delete_ne. }
  pose proof (resolve_same_dirs w w' _ _ Hcwd Hsame Hko) as Hko'.
  pose proof (resolve_same_dirs w w' _ _ Hcwd Hsame Hkn) as Hkn'.
  unfold posix_stat, content. rewrite Hko', Hkn', Hnodes.
  rewrite node_at_insert_ne by congruence.
  rewrite node_at_delete_eq by assumption.
  rewrite node_at_insert_eq by assumption. auto.
Qed.

Lemma run_then_false (os : OS) (fuel : nat) {A} (p : prog A) (w w' : world os) t :
  run os fuel (let* _ := p in Ret false) w <> Some (true, w', t).
Proof.
  rewrite run_bind. destruct (run os fuel p w) as [[[a w1] t1]|]; simpl;
    discriminate.
Qed.

Ltac refuse_false :=
  match goal with
  | |- context [run ?os ?fuel (bind ?p (fun _ => Ret false)) ?w] =>
      let E := fresh "E" in
      destruct (run os fuel (bind p (fun _ => Ret false)) w)
        as [[[[] ?] ?]|] eqn:E;
      [now apply run_then_false in E|discriminate|discriminate]
  end.

Lemma DeleteFile_posix (cfg : build) (fuel : nat) (w w' : posix_world)
    (path : Pathname) (t : trace) :
  run posix fuel (DeleteFile cfg path) w = Some (true, w', t) ->
  exists k d,
    resolve w (pathname path) = inr k /\ node_at (nodes w) k = Some (File d) /\
    cwd w' = cwd w /\ nodes w' = delete k (nodes w).
Proof.
  unfold DeleteFile. rewrite run_bind.
  rewrite (run_IsFile posix fuel path w w (posix_stat w (pathname path)) eq_refl).
  cbn [then_run].
  destruct (negb _); [refuse_false|].
  simpl. unfold posix_unlink.
  destruct (resolve w (pathname path)) as [e|k]; simpl; [discriminate|].
  destruct (node_at (nodes w) k) as [[d|]|] eqn:Hk; simpl; try discriminate.
  intros [= <- _]. exists k, d. auto.
Qed.


Lemma classified_IsAbsent (w : posix_world) (path : string) :
  posix_stat w path = StatErr ENOENT -> classified w IsAbsent path = true.
Proof.
  intros H. unfold classified.
  rewrite (run_IsAbsent posix 0 (Pathname_of path) w w
             (posix_stat w (pathname (Pathname_of path))) eq_refl).
  now rewrite pathname_Pathname_of, H.
Qed.






(** Why the name space must be one without links: [IsFile] follows a
    symbolic link and [rename] moves the link.  Where [/a/l] is a link with
    the text [f] and [/a/f] a regular file, [IsFile] accepts [/a/l],
    [MoveFile] to [/b/l] returns true, and [IsFile] finds no file at
    [/b/l], since the link now points at [/b/f]. *)
Lemma MoveFile_of_a_relative_link :
  run linked 0 (IsFile (Pathname_of "/a/l")) false
  = Some (true, false,
          [Ev (sys_stat "/a/l") (StatOk {| st_mode := Z.lor S_IFREG 420 |})]) /\
  run linked 0
    (let* moved := MoveFile release_build (Pathname_of "/a/l") (Pathname_of "/b/l") in
     let* is_file := IsFile (Pathname_of "/b/l") in
     Ret (moved, is_file)) false
  = Some ((true, false), true,
          [Ev (sys_stat "/a/l") (StatOk {| st_mode := Z.lor S_IFREG 420 |});
           Ev (sys_rename "/a/l" "/b/l") Done;
           Ev (sys_stat "/b/l") (StatErr ENOENT)]).
Proof. split; reflexivity. Qed.

(** ** CopyFile: the content *)

Lemma write_at_end (d chunk : list Byte.byte) :
  write_at d (length d) chunk = d ++ chunk.
Proof.
  unfold write_at. rewrite take_ge by lia. rewrite Nat.sub_diag. simpl.
  rewrite drop_ge by lia. now rewrite app_nil_r.
Qed.


Section CopyLoop.

Context (hs hd : handle) (ks kd : list string) (data : list Byte.byte)
        (fs0 : gmap (list string) node) (fuel : nat).
Hypothesis (Hh : hs <> hd) (Hk : ks <> kd) (Hkd : kd <> []).
Hypothesis (Hsrc : node_at fs0 ks = Some (File data)).



End CopyLoop.


Lemma content_node (w : posix_world) (path : string) k d :
  resolve w path = inr k -> content w path = Some d ->
  node_at (nodes w) k = Some (File d).
Proof.
  unfold content. intros ->.
  destruct (node_at (nodes w) k) as [[d'|]|]; congruence.
Qed.



(** * Further properties *)

(** ** CreateFolder: one level of the recursion *)

Lemma run_CreateFolder (os : OS) (fuel : nat) (path : Pathname) (w : world os) :
  run os fuel (CreateFolder path) w =
  if not_a_folder_path (pathname path) then Some (false, w, [])
  else
    let (r, w1) := answer os (sys_stat (pathname path)) w in
    match r with
    | StatOk st =>
        Some (S_ISDIR (st_mode st), w1, [Ev (sys_stat (pathname path)) r])
    | StatErr e =>
        if errno_eqb e ENOENT then
          match run os fuel (CreateFolder (Pathname_of (parent_folder (pathname path)))) w1 with
          | Some (true, w2, t) =>
              let (res, w3) := answer os (sys_mkdir (pathname path) 493) w2 in
              Some ((0 =? sys_res res)%Z, w3,
                    Ev (sys_stat (pathname path)) r
                       :: t ++ [Ev (sys_mkdir (pathname path) 493) res])
          | Some (false, w2, t) =>
              Some (false, w2, Ev (sys_stat (pathname path)) r :: t)
          | None => None
          end
        else Some (false, w1, [Ev (sys_stat (pathname path)) r])
    end.
Proof.
  rewrite CreateFolder_eq at 1.
  destruct (not_a_folder_path (pathname path)); [reflexivity|].
  cbn [run]. destruct (answer os (sys_stat (pathname path)) w) as [[st|e] w1];
    [reflexivity|].
  destruct (errno_eqb e ENOENT); [|reflexivity]. cbn [negb].
  rewrite run_bind. rewrite parent_folder_eq.
  destruct (run os fuel (CreateFolder _) w1) as [[[[] w2] t]|]; cbn [then_run negb run];
    [|now rewrite app_nil_r|reflexivity].
  rewrite run_bind.
  destruct (answer os (sys_mkdir (pathname path) 493) w2) as [res w3] eqn:Hmk.
  rewrite (run_call os fuel _ _ _ _ Hmk). reflexivity.
Qed.

(** ** CreateFolder: what it leaves behind *)

Lemma walk_keeps_dirs fs fs' cur comps k :
  keeps_dirs fs fs' -> walk fs cur comps = inr k -> walk fs' cur comps = inr k.
Proof.
  intros Hkeep. revert cur. induction comps as [|c rest IH]; intros cur; simpl;
    [auto|].
  destruct (node_at fs cur) as [[d|]|] eqn:Hcur; try discriminate.
  rewrite (Hkeep _ Hcur).
  destruct (String.eqb c "" || String.eqb c ".")%bool; [apply IH|].
  destruct (String.eqb c ".."); apply IH.
Qed.

Lemma drop_trailing_empty_app (comps : list string) :
  exists n, comps = drop_trailing_empty comps ++ replicate n "".
Proof.
  induction comps as [|c rest (n & IH)]; [now exists 0|]. simpl.
  destruct (drop_trailing_empty rest) as [|c' rest'] eqn:E.
  - destruct (String.eqb c "") eqn:Ec.
    + apply String.eqb_eq in Ec. subst c. exists (S n). simpl in *. now f_equal.
    + exists n. simpl in *. now f_equal.
  - exists n. simpl. now f_equal.
Qed.

Lemma walk_empties fs k n :
  node_at fs k = Some Dir -> walk fs k (replicate n "") = inr k.
Proof. intros Hk. induction n as [|n IH]; simpl; [reflexivity|]. now rewrite Hk. Qed.

Lemma posix_mkdir_done (w w' : posix_world) (path : string) :
  posix_mkdir w path = (Done, w') ->
  exists k,
    resolve_dir w path = inr k /\ nodes w !! k = None /\
    w' = set_nodes w (<[k := Dir]> (nodes w)) (free_space w).
Proof.
  unfold posix_mkdir. destruct (resolve_dir w path) as [e|k]; [discriminate|].
  destruct (node_at (nodes w) k) as [n|] eqn:Hk; [discriminate|].
  destruct (parent_is_dir (nodes w) k); [|discriminate].
  intros [= <-]. exists k. repeat split; auto. now destruct k.
Qed.

Lemma posix_mkdir_fail (w w' : posix_world) (path : string) (e : errno) :
  posix_mkdir w path = (Fail e, w') -> w' = w.
Proof.
  unfold posix_mkdir. destruct (resolve_dir w path) as [e'|k]; [congruence|].
  destruct (node_at (nodes w) k) as [n|]; [congruence|].
  destruct (parent_is_dir (nodes w) k); [discriminate|congruence].
Qed.

Lemma node_at_insert_dir fs k : node_at (<[k := Dir]> fs) k = Some Dir.
Proof. destruct k; [reflexivity|]. apply node_at_insert_eq. discriminate. Qed.

Lemma keeps_dirs_insert fs k : keeps_dirs fs (<[k := Dir]> fs).
Proof.
  intros k' Hk'. destruct (decide (k' = k)) as [->|Hne].
  - apply node_at_insert_dir.
  - now rewrite node_at_insert_ne.
Qed.

(** After a successful [mkdir] the path names a directory. *)
Lemma posix_mkdir_stat (w w' : posix_world) (path : string) :
  posix_mkdir w path = (Done, w') ->
  posix_stat w' path = StatOk {| st_mode := mode_of Dir |}.
Proof.
  intros H. apply posix_mkdir_done in H as (k & Hres & Hnone & ->).
  unfold resolve_dir in Hres. unfold posix_stat, resolve.
  change (start_of (set_nodes w _ _) path) with (start_of w path).
  destruct (string_empty path); [discriminate|]. cbn [nodes set_nodes].
  destruct (drop_trailing_empty_app (split_path path)) as (n & Hsplit).
  rewrite Hsplit, walk_app.
  rewrite (walk_keeps_dirs (nodes w) (<[k := Dir]> (nodes w)) _ _ k);
    auto using keeps_dirs_insert.
  rewrite walk_empties by apply node_at_insert_dir.
  now rewrite node_at_insert_dir.
Qed.

Lemma stat_IsFolder (w : posix_world) (path : string) (st : stat_buf) :
  posix_stat w path = StatOk st -> S_ISDIR (st_mode st) = true ->
  classified w IsFolder path = true.
Proof.
  intros Hst Hdir. unfold classified.
  rewrite (run_IsFolder posix 0 _ w w _ eq_refl), pathname_Pathname_of.
  cbn [answer posix posix_answer fst]. now rewrite Hst.
Qed.

(** After a successful [CreateFolder], [stat] finds a directory. *)
Lemma CreateFolder_true_stat (fuel : nat) (w w' : posix_world) (path : Pathname)
    (t : trace) :
  run posix fuel (CreateFolder path) w = Some (true, w', t) ->
  exists st, posix_stat w' (pathname path) = StatOk st /\
             S_ISDIR (st_mode st) = true.
Proof.
  intros Hrun. rewrite run_CreateFolder in Hrun.
  destruct (not_a_folder_path (pathname path)); [discriminate|].
  cbn [answer posix posix_answer] in Hrun.
  destruct (posix_stat w (pathname path)) as [st|e] eqn:Hstat.
  - injection Hrun as Hdir <- _. eauto.
  - destruct (errno_eqb e ENOENT); [|discriminate].
    destruct (run posix fuel _ w) as [[[[] w2] t2]|]; try discriminate.
    destruct (posix_mkdir w2 (pathname path)) as [[|e'] w3] eqn:Hmk;
      [|discriminate].
    injection Hrun as <- _. apply posix_mkdir_stat in Hmk. eauto.
Qed.

(** X1. When [CreateFolder] succeeds, the path names a folder afterwards,
    and a second call succeeds with a single [stat], changing nothing. *)
Theorem CreateFolder_makes_folder :
  forall (fuel : nat) (w w' : posix_world) (path : Pathname) (t : trace),
    run posix fuel (CreateFolder path) w = Some (true, w', t) ->
    classified w' IsFolder (pathname path) = true /\
    exists st,
      run posix fuel (CreateFolder path) w'
      = Some (true, w', [Ev (sys_stat (pathname path)) (StatOk st)]).
Proof.
  intros fuel w w' path t Hrun.
  destruct (CreateFolder_true_stat fuel w w' path t Hrun) as (st & Hst & Hdir).
  split; [eapply stat_IsFolder; eassumption|].
  exists st. rewrite run_CreateFolder.
  destruct (not_a_folder_path (pathname path)) eqn:Hg.
  - rewrite run_CreateFolder, Hg in Hrun. discriminate.
  - cbn [answer posix posix_answer]. now rewrite Hst, Hdir.
Qed.

Lemma CreateFolder_makes_folder_witness :
  exists w' t,
    run posix 0 (CreateFolder (Pathname_of "/tmp/x/y/")) demo_world
    = Some (true, w', t) /\
    classified w' IsFolder "/tmp/x/y/" = true.
Proof.
  assert (H : exists w' t,
             run posix 0 (CreateFolder (Pathname_of "/tmp/x/y/")) demo_world
             = Some (true, w', t)).
  { eexists _, _. vm_compute. reflexivity. }
  destruct H as (w' & t & H). exists w', t. split; [exact H|].
  exact (proj1 (CreateFolder_makes_folder 0 demo_world w' (Pathname_of "/tmp/x/y/") t H)).
Defined.

Lemma adds_directories_refl (w : posix_world) : adds_directories w w.
Proof. repeat split; auto. Qed.

Lemma adds_directories_trans (w1 w2 w3 : posix_world) :
  adds_directories w1 w2 -> adds_directories w2 w3 -> adds_directories w1 w3.
Proof.
  intros (Hc & Hf & Hs & Hk & Ha) (Hc' & Hf' & Hs' & Hk' & Ha').
  repeat split; try congruence; [auto|].
  intros k n Hn. destruct (Ha' k n Hn); auto.
Qed.

Lemma posix_mkdir_adds (w w' : posix_world) (path : string) (r : sysret) :
  posix_mkdir w path = (r, w') -> adds_directories w w'.
Proof.
  destruct r as [|e].
  - intros (k & _ & Hnone & ->)%posix_mkdir_done. repeat split; cbn [nodes set_nodes].
    + intros k' n Hn. rewrite lookup_insert_ne; congruence.
    + intros k' n. destruct (decide (k = k')) as [<-|Hne].
      * rewrite lookup_insert_eq. intros [= <-]. now right.
      * rewrite lookup_insert_ne by assumption. now left.
  - intros ->%posix_mkdir_fail. apply adds_directories_refl.
Qed.

Lemma mkdir_calls_app (t1 t2 : trace) :
  mkdir_calls (t1 ++ t2) = mkdir_calls t1 ++ mkdir_calls t2.
Proof.
  induction t1 as [|[X c r] t1 IH]; simpl; [reflexivity|].
  destruct c; simpl; rewrite IH; reflexivity.
Qed.

(** A folder stays one when directories are added. *)
Lemma adds_directories_IsFolder (w w' : posix_world) (path : string) :
  adds_directories w w' ->
  classified w IsFolder path = true -> classified w' IsFolder path = true.
Proof.
  intros (Hcwd & _ & _ & Hkeep & _). rewrite !classified_IsFolder.
  assert (Hdirs : keeps_dirs (nodes w) (nodes w')).
  { intros [|c k]; [reflexivity|]. apply Hkeep. }
  intros (k & Hres & Hk). exists k. split; [|now apply Hdirs].
  unfold resolve, start_of in *. rewrite Hcwd.
  destruct (string_empty path); [discriminate|].
  now apply (walk_keeps_dirs (nodes w)).
Qed.

Lemma CreateFolder_adds (fuel : nat) :
  forall (path : Pathname) (w w' : posix_world) (r : bool) (t : trace),
    run posix fuel (CreateFolder path) w = Some (r, w', t) ->
    adds_directories w w'.
Proof.
  intros path. remember (String.length (pathname path)) as n eqn:Hn.
  revert path Hn. induction n as [n IH] using lt_wf_ind.
  intros path Hn w w' r t. rewrite run_CreateFolder.
  destruct (not_a_folder_path (pathname path)) eqn:Hg.
  { intros [= _ <- _]. apply adds_directories_refl. }
  cbn [answer posix posix_answer].
  destruct (posix_stat w (pathname path)) as [st|e].
  { intros [= _ <- _]. apply adds_directories_refl. }
  destruct (errno_eqb e ENOENT); [|intros [= _ <- _]; apply adds_directories_refl].
  pose proof (parent_shorter _ Hg) as Hlt. fold (parent_folder (pathname path)) in Hlt.
  destruct (run posix fuel _ w) as [[[r1 w2] t2]|] eqn:Hrun; [|discriminate].
  rewrite <- (pathname_Pathname_of (parent_folder (pathname path))) in Hlt.
  subst n. apply (IH _ Hlt _ eq_refl) in Hrun.
  destruct r1.
  - destruct (posix_mkdir w2 (pathname path)) as [res w3] eqn:Hmk.
    intros [= _ <- _]. apply posix_mkdir_adds in Hmk.
    eapply adds_directories_trans; eassumption.
  - intros [= _ <- _]. assumption.
Qed.

(** X2. Whatever its result, [CreateFolder] only adds directories: every
    node that existed is still there with its content, every new node is a
    directory, and the working directory, the free space and the open
    streams are as before.  When it fails at a [mkdir], the directories
    made for the levels above stay. *)
Theorem CreateFolder_only_adds_directories :
  forall (fuel : nat) (path : Pathname) (w w' : posix_world) (r : bool)
         (t : trace),
    run posix fuel (CreateFolder path) w = Some (r, w', t) ->
    adds_directories w w' /\
    forall p mode, In (p, mode, Done) (mkdir_calls t) ->
                   classified w' IsFolder p = true.
Proof.
  intros fuel path w w' r t Hrun. split; [eapply CreateFolder_adds; eassumption|].
  revert w w' r t Hrun. remember (String.length (pathname path)) as n eqn:Hn.
  revert path Hn. induction n as [n IH] using lt_wf_ind.
  intros path Hn w w' r t. rewrite run_CreateFolder.
  destruct (not_a_folder_path (pathname path)) eqn:Hg.
  { intros [= _ _ <-] p mode []. }
  cbn [answer posix posix_answer].
  destruct (posix_stat w (pathname path)) as [st|e].
  { intros [= _ _ <-] p mode []. }
  destruct (errno_eqb e ENOENT); [|intros [= _ _ <-] p mode []].
  pose proof (parent_shorter _ Hg) as Hlt. fold (parent_folder (pathname path)) in Hlt.
  rewrite <- (pathname_Pathname_of (parent_folder (pathname path))) in Hlt.
  destruct (run posix fuel _ w) as [[[r1 w2] t2]|] eqn:Hrun; [|discriminate].
  subst n. specialize (IH _ Hlt _ eq_refl _ _ _ _ Hrun).
  destruct r1.
  - destruct (posix_mkdir w2 (pathname path)) as [res w3] eqn:Hmk.
    intros [= _ <- <-] p mode. cbn [mkdir_calls]. rewrite mkdir_calls_app.
    cbn [mkdir_calls]. intros [Hin|[[= <- <- ->]|[]]]%in_app_or.
    + eapply adds_directories_IsFolder; [|eapply IH; eassumption].
      eapply posix_mkdir_adds; eassumption.
    + apply posix_mkdir_stat in Hmk. now apply (stat_IsFolder _ _ _ Hmk).
  - intros [= _ <- <-] p mode Hin. eapply IH; eassumption.
Qed.

Lemma CreateFolder_only_adds_directories_witness :
  exists w' t,
    run posix 0 (CreateFolder (Pathname_of "/tmp/x/y/")) demo_world
    = Some (true, w', t) /\
    adds_directories demo_world w'.
Proof.
  assert (H : exists w' t,
             run posix 0 (CreateFolder (Pathname_of "/tmp/x/y/")) demo_world
             = Some (true, w', t)).
  { eexists _, _. vm_compute. reflexivity. }
  destruct H as (w' & t & H). exists w', t. split; [exact H|].
  exact (proj1 (CreateFolder_only_adds_directories 0 (Pathname_of "/tmp/x/y/")
                  demo_world w' true t H)).
Defined.

(** ** CreateFolder: the calls of a successful run *)

Lemma ancestors_snoc (p : string) (n : nat) :
  ancestors p (S n) = ancestors p n ++ [ancestor p n].
Proof.
  revert p. induction n as [|n IH]; intros p; [reflexivity|].
  change (ancestors p (S (S n))) with (p :: ancestors (parent_folder p) (S n)).
  rewrite IH. reflexivity.
Qed.

(** X3. On every system, a successful [CreateFolder] has made exactly these
    calls: [stat] on the path and on each path of the descent, answered
    ENOENT, down to one where [stat] finds a directory; then [mkdir] with
    mode 0755 on the missing paths, from the outermost back to the path
    given, each answered with success. *)
Theorem CreateFolder_creates_parents_first :
  forall (os : OS) (fuel : nat) (path : Pathname) (w w' : world os) (t : trace),
    run os fuel (CreateFolder path) w = Some (true, w', t) ->
    exists (n : nat) (st : stat_buf),
      S_ISDIR (st_mode st) = true /\
      t = map (fun p => Ev (sys_stat p) (StatErr ENOENT))
            (ancestors (pathname path) n)
          ++ Ev (sys_stat (ancestor (pathname path) n)) (StatOk st)
          :: map (fun p => Ev (sys_mkdir p 493) Done)
               (rev (ancestors (pathname path) n)).
Proof.
  intros os fuel path. remember (String.length (pathname path)) as n eqn:Hn.
  revert path Hn. induction n as [n IH] using lt_wf_ind.
  intros path Hn w w' t. rewrite run_CreateFolder.
  destruct (not_a_folder_path (pathname path)) eqn:Hg; [discriminate|].
  destruct (answer os (sys_stat (pathname path)) w) as [[st|e] w1].
  { intros [= Hdir _ <-]. exists 0, st. split; [assumption|reflexivity]. }
  destruct (errno_eqb e ENOENT) eqn:He; [|discriminate].
  apply errno_eqb_eq in He. subst e.
  pose proof (parent_shorter _ Hg) as Hlt. fold (parent_folder (pathname path)) in Hlt.
  destruct (run os fuel _ w1) as [[[[] w2] t2]|] eqn:Hrun; try discriminate.
  rewrite <- (pathname_Pathname_of (parent_folder (pathname path))) in Hlt.
  subst n. apply (IH _ Hlt _ eq_refl) in Hrun
    as (m & st & Hdir & ->).
  rewrite pathname_Pathname_of.
  destruct (answer os (sys_mkdir (pathname path) 493) w2) as [[|e] w3];
    [|discriminate].
  intros [= _ <-]. exists (S m), st. split; [assumption|].
  cbn [ancestors ancestor map rev]. rewrite map_app, <- app_assoc. reflexivity.
Qed.

Lemma CreateFolder_creates_parents_first_witness :
  exists w' t,
    run posix 0 (CreateFolder (Pathname_of "/tmp/x/y/")) demo_world
    = Some (true, w', t) /\
    exists n st,
      S_ISDIR (st_mode st) = true /\
      t = map (fun p => Ev (sys_stat p) (StatErr ENOENT))
            (ancestors "/tmp/x/y/" n)
          ++ Ev (sys_stat (ancestor "/tmp/x/y/" n)) (StatOk st)
          :: map (fun p => Ev (sys_mkdir p 493) Done)
               (rev (ancestors "/tmp/x/y/" n)).
Proof.
  assert (H : exists w' t,
             run posix 0 (CreateFolder (Pathname_of "/tmp/x/y/")) demo_world
             = Some (true, w', t)).
  { eexists _, _. vm_compute. reflexivity. }
  destruct H as (w' & t & H). exists w', t. split; [exact H|].
  exact (CreateFolder_creates_parents_first posix 0 (Pathname_of "/tmp/x/y/")
           demo_world w' t H).
Defined.

(** ** Folder paths made of plain names: strings *)

Lemma append_assoc (a b c : string) : (a +:+ b) +:+ c = a +:+ b +:+ c.
Proof.
  induction a as [|x a IH]; [reflexivity|].
  change (String x a +:+ b) with (String x (a +:+ b)).
  change (String x (a +:+ b) +:+ c) with (String x ((a +:+ b) +:+ c)).
  now rewrite IH.
Qed.

Lemma append_nil_r (a : string) : a +:+ "" = a.
Proof.
  induction a as [|x a IH]; [reflexivity|].
  change (String x a +:+ "") with (String x (a +:+ "")). now rewrite IH.
Qed.

Lemma join_snoc (names : list string) (n : string) :
  join (names ++ [n]) = join names +:+ n +:+ "/".
Proof.
  induction names as [|m names IH]; simpl.
  - now rewrite append_nil_r.
  - rewrite IH. now rewrite !append_assoc.
Qed.

Lemma folder_path_snoc (names : list string) (n : string) :
  folder_path (names ++ [n]) = folder_path names +:+ n +:+ "/".
Proof. unfold folder_path. now rewrite join_snoc, append_assoc. Qed.

Lemma folder_path_ends (names : list string) :
  exists d, folder_path names = d +:+ "/".
Proof.
  destruct names as [|n names _] using rev_ind.
  - now exists "".
  - exists (folder_path names +:+ n). now rewrite folder_path_snoc, append_assoc.
Qed.

Lemma not_a_folder_path_app_sep (d : string) : not_a_folder_path (d +:+ "/") = false.
Proof.
  unfold not_a_folder_path, is_sep_at. rewrite length_app_sep. cbn [Nat.eqb orb].
  replace (S (String.length d) - 1) with (String.length d) by lia.
  now rewrite get_app_sep.
Qed.

Lemma folder_path_terminated (names : list string) :
  not_a_folder_path (folder_path names) = false.
Proof.
  destruct (folder_path_ends names) as (d & ->). apply not_a_folder_path_app_sep.
Qed.

Lemma get_append_right (d x : string) (j : nat) :
  String.get (String.length d + j) (d +:+ x) = String.get j x.
Proof. induction d as [|c d IH]; [reflexivity|exact IH]. Qed.

Lemma get_append_left (n x : string) (j : nat) :
  j < String.length n -> String.get j (n +:+ x) = String.get j n.
Proof.
  revert j. induction n as [|c n IH]; intros j Hj; simpl in Hj; [lia|].
  destruct j as [|j]; [reflexivity|]. apply (IH j). lia.
Qed.

Lemma has_sep_get (n : string) (j : nat) :
  has_sep n = false -> is_sep_at n j = false.
Proof.
  unfold is_sep_at. revert j. induction n as [|c n IH]; intros j; simpl;
    [now destruct j|].
  intros [Hc Hn]%orb_false_iff. destruct j as [|j]; [exact Hc|]. now apply IH.
Qed.

Lemma scan_back_name (d n x : string) (j : nat) :
  has_sep n = false -> j <= String.length n ->
  scan_back (d +:+ n +:+ x) (String.length d + j)
  = scan_back (d +:+ n +:+ x) (String.length d).
Proof.
  intros Hn. induction j as [|j IH]; intros Hj; [now rewrite Nat.add_0_r|].
  rewrite Nat.add_succ_r. cbn [scan_back].
  unfold is_sep_at at 1. rewrite get_append_right, get_append_left by lia.
  fold (is_sep_at n j). rewrite has_sep_get by assumption. apply IH. lia.
Qed.

Lemma substr0_append (d x : string) : substr0 (d +:+ x) (String.length d) = d.
Proof.
  unfold substr0. induction d as [|c d IH]; simpl; [now destruct x|].
  now rewrite IH.
Qed.

(** The parent of [d/n/] is [d/]. *)
Lemma parent_folder_name (d n : string) :
  has_sep n = false ->
  parent_folder ((d +:+ "/") +:+ n +:+ "/") = d +:+ "/".
Proof.
  intros Hn. rewrite parent_folder_eq. unfold parent_len.
  set (p := (d +:+ "/") +:+ n +:+ "/").
  assert (Hlen : String.length p - 1
                 = String.length (d +:+ "/") + String.length n).
  { unfold p. rewrite <- append_assoc, length_app_sep, length_append. lia. }
  rewrite Hlen. unfold p. rewrite scan_back_name by (assumption || lia).
  rewrite length_app_sep. cbn [scan_back]. unfold is_sep_at.
  rewrite append_assoc, <- (Nat.add_0_r (String.length d)), get_append_right.
  cbn. rewrite Nat.add_0_r, <- append_assoc, <- (length_app_sep d).
  apply substr0_append.
Qed.

Lemma plain_inv (n : string) :
  plain n = true ->
  String.eqb n "" = false /\ has_sep n = false /\
  String.eqb n "." = false /\ String.eqb n ".." = false.
Proof.
  unfold plain. intros H. repeat (apply andb_true_iff in H as [H ?]).
  repeat match goal with H : negb _ = true |- _ => apply negb_true_iff in H end.
  repeat split; try assumption. now destruct n.
Qed.

Lemma split_path_name (n x : string) :
  has_sep n = false -> split_path (n +:+ "/" +:+ x) = n :: split_path x.
Proof.
  induction n as [|c n IH]; [reflexivity|]. simpl.
  intros [Hc Hn]%orb_false_iff. rewrite Hc.
  change (split_path (n +:+ String "/" x)) with (split_path (n +:+ "/" +:+ x)).
  now rewrite IH.
Qed.

Lemma split_path_join (names : list string) :
  Forall (fun n => plain n = true) names ->
  split_path (join names) = names ++ [""].
Proof.
  induction 1 as [|n names Hn _ IH]; [reflexivity|]. simpl.
  apply plain_inv in Hn as (_ & Hn & _). now rewrite split_path_name, IH.
Qed.

Lemma split_path_folder_path (names : list string) :
  Forall (fun n => plain n = true) names ->
  split_path (folder_path names) = "" :: names ++ [""].
Proof.
  intros H. unfold folder_path.
  change ("/" +:+ join names) with (String "/" (join names)).
  simpl. now rewrite split_path_join.
Qed.

(** ** Folder paths made of plain names: resolution *)

Lemma walk_plain_step fs cur n rest :
  plain n = true ->
  walk fs cur (n :: rest) =
  match node_at fs cur with
  | Some Dir => walk fs (n :: cur) rest
  | Some (File _) => inl ENOTDIR
  | None => inl ENOENT
  end.
Proof.
  intros (H1 & _ & H2 & H3)%plain_inv. simpl. now rewrite H1, H2, H3.
Qed.

Lemma prefix_snoc_cases {A} (pre l : list A) (x : A) :
  pre `prefix_of` l ++ [x] -> pre = l ++ [x] \/ pre `prefix_of` l.
Proof.
  intros [k Hk]. destruct k as [|y k _] using rev_ind.
  - left. now rewrite app_nil_r in Hk.
  - right. rewrite app_assoc in Hk. apply app_inj_tail in Hk as [-> _].
    now exists k.
Qed.

(** Plain names walked through directories lead where they say. *)
Lemma walk_plain fs done rest :
  Forall (fun n => plain n = true) rest ->
  (forall pre, pre `prefix_of` rest -> pre <> rest ->
               node_at fs (rev (done ++ pre)) = Some Dir) ->
  walk fs (rev done) rest = inr (rev (done ++ rest)).
Proof.
  intros Hplain. revert done.
  induction Hplain as [|n r Hn _ IH]; intros done Hdirs.
  - now rewrite app_nil_r.
  - rewrite walk_plain_step by assumption.
    rewrite <- (app_nil_r done) at 1.
    rewrite (Hdirs [] (prefix_nil _)) by discriminate.
    rewrite <- rev_unit, (IH (done ++ [n])).
    + now rewrite <- app_assoc.
    + intros pre Hpre Hne. rewrite <- app_assoc. apply Hdirs.
      * now apply prefix_cons.
      * simpl. congruence.
Qed.

(** Where no regular file is in the way, the walk fails only for a missing
    directory. *)
Lemma walk_plain_cases fs done rest :
  Forall (fun n => plain n = true) rest ->
  (forall pre d, pre `prefix_of` rest ->
                 node_at fs (rev (done ++ pre)) <> Some (File d)) ->
  walk fs (rev done) rest = inl ENOENT \/
  walk fs (rev done) rest = inr (rev (done ++ rest)).
Proof.
  intros Hplain. revert done.
  induction Hplain as [|n r Hn _ IH]; intros done Hfiles.
  - right. now rewrite app_nil_r.
  - rewrite walk_plain_step by assumption.
    pose proof (Hfiles [] ) as H0. rewrite app_nil_r in H0.
    destruct (node_at fs (rev done)) as [[d|]|] eqn:E.
    + exfalso. apply (H0 d); [apply prefix_nil|reflexivity].
    + rewrite <- rev_unit.
      destruct (IH (done ++ [n])) as [H|H].
      * intros pre d Hpre. rewrite <- app_assoc. apply Hfiles.
        now apply prefix_cons.
      * now left.
      * right. now rewrite H, <- app_assoc.
    + now left.
Qed.

Lemma well_formed_prefix fs names pre x :
  well_formed fs -> node_at fs (rev names) = Some x ->
  pre `prefix_of` names -> pre <> names -> node_at fs (rev pre) = Some Dir.
Proof.
  intros Hwf. revert x. induction names as [|n names IH] using rev_ind;
    intros x Hx Hpre Hne.
  - apply prefix_nil_inv in Hpre. contradiction.
  - rewrite rev_unit in Hx. apply Hwf in Hx. cbn [tail] in Hx.
    apply prefix_snoc_cases in Hpre as [->|Hpre]; [contradiction|].
    destruct (decide (pre = names)) as [->|Hne']; [assumption|].
    now apply (IH Dir).
Qed.

Lemma well_formed_insert_dir fs k :
  well_formed fs -> node_at fs (tail k) = Some Dir ->
  well_formed (<[k := Dir]> fs).
Proof.
  intros Hwf Hk k' n Hn. apply keeps_dirs_insert.
  destruct (decide (k = k')) as [<-|Hne]; [assumption|].
  rewrite lookup_insert_ne in Hn by assumption. now apply (Hwf k' n).
Qed.

Lemma drop_trailing_empty_snoc_empty (l : list string) :
  drop_trailing_empty (l ++ [""]) = drop_trailing_empty l.
Proof. induction l as [|c l IH]; [reflexivity|]. simpl. now rewrite IH. Qed.

Lemma drop_trailing_empty_snoc (l : list string) (x : string) :
  String.eqb x "" = false -> drop_trailing_empty (l ++ [x]) = l ++ [x].
Proof.
  intros Hx. induction l as [|c l IH]; simpl; [now rewrite Hx|].
  rewrite IH. now destruct l.
Qed.

Lemma folder_path_absolute (names : list string) (w : posix_world) :
  string_empty (folder_path names) = false /\
  start_of w (folder_path names) = [].
Proof. split; reflexivity. Qed.

(** [stat] on a folder path none of whose prefixes is a regular file. *)
Lemma stat_folder_path (w : posix_world) (names : list string) :
  Forall (fun n => plain n = true) names ->
  well_formed (nodes w) ->
  (forall pre d, pre `prefix_of` names ->
                 node_at (nodes w) (rev pre) <> Some (File d)) ->
  (posix_stat w (folder_path names) = StatOk {| st_mode := mode_of Dir |} /\
   forall pre, pre `prefix_of` names -> node_at (nodes w) (rev pre) = Some Dir)
  \/
  (posix_stat w (folder_path names) = StatErr ENOENT /\
   node_at (nodes w) (rev names) = None).
Proof.
  intros Hplain Hwf Hfiles. unfold posix_stat, resolve.
  destruct (folder_path_absolute names w) as [-> ->].
  rewrite split_path_folder_path by assumption.
  change (walk (nodes w) [] ("" :: names ++ [""]))
    with (walk (nodes w) (rev []) (names ++ [""])).
  rewrite walk_app.
  destruct (node_at (nodes w) (rev names)) as [[d|]|] eqn:E.
  - exfalso. now apply (Hfiles names d).
  - left. rewrite walk_plain.
    + cbn [app walk]. rewrite E. cbn. rewrite E. split; [reflexivity|].
      intros pre Hpre. destruct (decide (pre = names)) as [->|Hne]; [assumption|].
      eapply well_formed_prefix; eassumption.
    + assumption.
    + intros pre Hpre Hne. eapply well_formed_prefix; eassumption.
  - right. split; [|reflexivity].
    destruct (walk_plain_cases (nodes w) [] names Hplain) as [->| ->];
      [exact Hfiles|reflexivity|].
    cbn [app walk]. now rewrite E.
Qed.

(** [mkdir] on a folder path whose parent is there and which is not. *)
Lemma mkdir_folder_path (w : posix_world) (names : list string) (n : string) :
  Forall (fun n => plain n = true) (names ++ [n]) ->
  (forall pre, pre `prefix_of` names -> node_at (nodes w) (rev pre) = Some Dir) ->
  nodes w !! (n :: rev names) = None ->
  posix_mkdir w (folder_path (names ++ [n]))
  = (Done, set_nodes w (<[n :: rev names := Dir]> (nodes w)) (free_space w)).
Proof.
  intros Hplain Hdirs Hnone. unfold posix_mkdir, resolve_dir.
  destruct (folder_path_absolute (names ++ [n]) w) as [-> ->].
  rewrite split_path_folder_path by assumption.
  assert (Hn : String.eqb n "" = false).
  { apply Forall_app in Hplain as [_ Hn]. inversion Hn as [|? ? Hp _]; subst.
    now apply plain_inv in Hp. }
  rewrite app_comm_cons, drop_trailing_empty_snoc_empty.
  rewrite app_comm_cons, drop_trailing_empty_snoc by assumption.
  change (walk (nodes w) [] (("" :: names) ++ [n]))
    with (walk (nodes w) (rev []) (names ++ [n])).
  rewrite walk_plain; [|assumption|].
  - cbn [app]. rewrite rev_unit. cbn [node_at parent_is_dir]. rewrite Hnone.
    now rewrite (Hdirs names).
  - intros pre Hpre Hne. apply Hdirs.
    apply prefix_snoc_cases in Hpre as [->|Hpre]; [contradiction|assumption].
Qed.

(** [stat] on a folder path all of whose prefixes are directories. *)
Lemma stat_folder_path_dirs (w : posix_world) (names : list string) :
  Forall (fun n => plain n = true) names ->
  (forall pre, pre `prefix_of` names -> node_at (nodes w) (rev pre) = Some Dir) ->
  posix_stat w (folder_path names) = StatOk {| st_mode := mode_of Dir |}.
Proof.
  intros Hplain Hdirs. unfold posix_stat, resolve.
  destruct (folder_path_absolute names w) as [-> ->].
  rewrite split_path_folder_path by assumption.
  change (walk (nodes w) [] ("" :: names ++ [""]))
    with (walk (nodes w) (rev []) (names ++ [""])).
  rewrite walk_app, walk_plain by auto.
  cbn [app walk]. rewrite (Hdirs names) by reflexivity. cbn.
  now rewrite (Hdirs names).
Qed.

Lemma CreateFolder_chain (fuel : nat) :
  forall (names : list string) (w : posix_world),
    Forall (fun n => plain n = true) names ->
    well_formed (nodes w) ->
    (forall pre d, pre `prefix_of` names ->
                   node_at (nodes w) (rev pre) <> Some (File d)) ->
    exists w' t,
      run posix fuel (CreateFolder (Pathname_of (folder_path names))) w
      = Some (true, w', t) /\
      (forall pre, pre `prefix_of` names ->
                   node_at (nodes w') (rev pre) = Some Dir) /\
      (forall k, ~ rev k `prefix_of` names -> nodes w' !! k = nodes w !! k) /\
      well_formed (nodes w').
Proof.
  intros names. induction names as [|n names IH] using rev_ind;
    intros w Hplain Hwf Hfiles; rewrite run_CreateFolder, pathname_Pathname_of,
      folder_path_terminated; cbn [answer posix posix_answer].
  - exists w. eexists. split; [reflexivity|]. repeat split; auto.
    intros pre ->%prefix_nil_inv. reflexivity.
  - destruct (stat_folder_path w (names ++ [n]) Hplain Hwf Hfiles)
      as [[-> Hdirs]|[-> Hnone]].
    + exists w. eexists. split; [reflexivity|]. repeat split; auto.
    + cbn [errno_eqb].
      destruct (folder_path_ends names) as (d & Hd).
      assert (Hparent : parent_folder (folder_path (names ++ [n]))
                        = folder_path names).
      { rewrite folder_path_snoc, Hd. apply parent_folder_name.
        apply Forall_app in Hplain as [_ Hn]. inversion Hn as [|? ? Hp _]; subst.
        now apply plain_inv in Hp. }
      rewrite Hparent.
      destruct (IH w) as (w2 & t2 & -> & Hdirs & Hsame & Hwf2).
      { now apply Forall_app in Hplain as [Hp _]. }
      { assumption. }
      { intros pre d' Hpre. apply Hfiles. now apply prefix_app_r. }
      assert (Hkey : ~ rev (n :: rev names) `prefix_of` names).
      { cbn [rev]. rewrite rev_involutive. intros H%prefix_length.
        rewrite length_app in H. simpl in H. lia. }
      rewrite rev_unit in Hnone. cbn [node_at] in Hnone.
      rewrite mkdir_folder_path; [|assumption|assumption|now rewrite Hsame].
      eexists _, _. split; [reflexivity|]. cbn [nodes set_nodes].
      repeat split.
      * intros pre [->|Hpre]%prefix_snoc_cases.
        -- rewrite rev_unit. apply node_at_insert_dir.
        -- now apply keeps_dirs_insert, Hdirs.
      * intros k Hk. rewrite lookup_insert_ne.
        -- apply Hsame. intros H. apply Hk. now apply prefix_app_r.
        -- intros <-. apply Hk. cbn [rev]. now rewrite rev_involutive.
      * apply well_formed_insert_dir; [assumption|]. cbn [tail].
        now apply Hdirs.
Qed.

(** X4. [CreateFolder] creates the whole chain.  In a name space where every
    node has a directory as its parent, for an absolute folder path of
    plain names none of whose prefixes is a regular file, [CreateFolder]
    succeeds; afterwards the path and every prefix of it is a folder, and
    no other name has changed. *)
Theorem CreateFolder_creates_the_chain :
  forall (fuel : nat) (names : list string) (w : posix_world),
    Forall (fun n => plain n = true) names ->
    well_formed (nodes w) ->
    (forall pre d, pre `prefix_of` names ->
                   node_at (nodes w) (rev pre) <> Some (File d)) ->
    exists w' t,
      run posix fuel (CreateFolder (Pathname_of (folder_path names))) w
      = Some (true, w', t) /\
      (forall pre, pre `prefix_of` names ->
                   classified w' IsFolder (folder_path pre) = true) /\
      (forall k, ~ rev k `prefix_of` names -> nodes w' !! k = nodes w !! k) /\
      well_formed (nodes w').
Proof.
  intros fuel names w Hplain Hwf Hfiles.
  destruct (CreateFolder_chain fuel names w Hplain Hwf Hfiles)
    as (w' & t & Hrun & Hdirs & Hsame & Hwf').
  exists w', t. repeat split; try assumption.
  intros pre Hpre.
  apply (stat_IsFolder _ _ {| st_mode := mode_of Dir |}); [|reflexivity].
  apply stat_folder_path_dirs.
  - destruct Hpre as [k ->]. now apply Forall_app in Hplain as [Hp _].
  - intros pre' Hpre'. apply Hdirs. now transitivity pre.
Qed.

Lemma CreateFolder_creates_the_chain_witness :
  exists w' t,
    run posix 0 (CreateFolder (Pathname_of "/tmp/x/y/")) demo_world
    = Some (true, w', t) /\
    classified w' IsFolder "/tmp/x/y/" = true /\
    nodes w' !! ["a"; "tmp"] = Some (File ABC).
Proof.
  destruct (CreateFolder_creates_the_chain 0 ["tmp"; "x"; "y"] demo_world)
    as (w' & t & Hrun & Hdirs & Hsame & _).
  - repeat constructor.
  - apply map_Forall_to_list. vm_compute. repeat constructor.
  - intros pre d [k Hk].
    destruct pre as [|a [|b [|c [|e pre]]]]; simpl in Hk; try discriminate;
      injection Hk as <-; subst; vm_compute; discriminate.
  - exists w', t. split; [exact Hrun|]. split.
    + apply (Hdirs ["tmp"; "x"; "y"]). reflexivity.
    + rewrite Hsame; [reflexivity|].
      intros [k Hk]. discriminate.
Defined.

(** ** CopyFile: its calls on every system *)

Section CopyCalls.

Context (os : OS) (fuel : nat).

Lemma run_copy_body (source dest : handle) (w : world os) :
  run os fuel (copy_body source dest) w =
  let (r, w1) := answer os (stream_read source copy_chunk) w in
  match fst r with
  | SR_SUCCESS =>
      let (res, w2) := answer os (stream_write dest (snd r)) w1 in
      Some (true, w2, [Ev (stream_read source copy_chunk) (SR_SUCCESS, snd r);
                       Ev (stream_write dest (snd r)) res])
  | _ => Some (false, w1, [Ev (stream_read source copy_chunk) r])
  end.
Proof.
  unfold copy_body. cbn [bind call run].
  destruct (answer os (stream_read source copy_chunk) w) as [[[] buf] w1];
    cbn [fst snd bind call run]; try reflexivity.
  now destruct (answer os (stream_write dest buf) w1) as [res w2].
Qed.

Lemma run_copy_end (source dest : handle) (w : world os) :
  run os fuel (copy_end source dest) w =
  Some (true, snd (answer os (stream_delete dest)
                     (snd (answer os (stream_delete source) w))),
        [Ev (stream_delete source) tt; Ev (stream_delete dest) tt]).
Proof.
  unfold copy_end. cbn [bind call run].
  destruct (answer os (stream_delete source) w) as [[] w1]. cbn [snd].
  now destruct (answer os (stream_delete dest) w1) as [[] w2].
Qed.

Lemma copy_loop_calls (source dest : handle) :
  forall (n : nat) (w w' : world os) (r : bool) (t : trace),
    iterate (run os fuel (copy_body source dest))
      (run os fuel (copy_end source dest)) n w = Some (r, w', t) ->
    r = true /\
    exists chunks last,
      fst last <> SR_SUCCESS /\
      t = copy_calls source dest chunks last
          ++ [Ev (stream_delete source) tt; Ev (stream_delete dest) tt].
Proof.
  induction n as [|n IH]; intros w w' r t; cbn [iterate]; [discriminate|].
  rewrite run_copy_body.
  destruct (answer os (stream_read source copy_chunk) w) as [[st buf] w1].
  destruct st; cbn [fst snd].
  2:{ destruct (answer os (stream_write dest buf) w1) as [res w2].
    destruct (iterate _ _ n w2) as [[[r' w3] t3]|] eqn:Hloop; [|discriminate].
    intros [= <- _ <-]. apply IH in Hloop as (-> & chunks & last & Hlast & ->).
    split; [reflexivity|]. exists ((buf, res) :: chunks), last.
    split; [assumption|reflexivity]. }
  all: rewrite run_copy_end; intros [= <- _ <-]; split; [reflexivity|];
    eexists [], (_, buf); (split; [|reflexivity]); discriminate.
Qed.

End CopyCalls.

(** X5. The calls of [CopyFile], on every system.  It returns false only
    when a stream could not be opened, and has then closed the source if
    that was open.  Otherwise it returns true after reading the source in
    chunks of 256 bytes and handing each chunk as read to one [Write] on the
    destination, until a [Read] answers something other than success; it
    then closes both streams, and makes no other call. *)
Theorem CopyFile_calls :
  forall (os : OS) (fuel : nat) (old_path new_path : Pathname)
         (w w' : world os) (r : bool) (t : trace),
    run os fuel (CopyFile old_path new_path) w = Some (r, w', t) ->
    let open_source := Ev (stream_open (pathname old_path) "rb") in
    let open_dest := Ev (stream_open (pathname new_path) "wb") in
    (r = false /\ t = [open_source None]) \/
    (r = false /\
     exists source,
       t = [open_source (Some source); open_dest None;
            Ev (stream_delete source) tt]) \/
    (r = true /\
     exists source dest chunks last,
       fst last <> SR_SUCCESS /\
       t = open_source (Some source) :: open_dest (Some dest)
           :: copy_calls source dest chunks last
           ++ [Ev (stream_delete source) tt; Ev (stream_delete dest) tt]).
Proof.
  intros os fuel old_path new_path w w' r t Hrun open_source open_dest.
  destruct (answer os (stream_open (pathname old_path) "rb") w)
    as [[source|] w1] eqn:Hs.
  2:{ left. rewrite CopyFile_eq in Hrun. unfold OpenFile in Hrun.
      rewrite run_bind, (run_call os fuel _ _ _ _ Hs) in Hrun.
      cbn in Hrun. injection Hrun as <- _ <-. auto. }
  right.
  destruct (answer os (stream_open (pathname new_path) "wb") w1)
    as [[dest|] w2] eqn:Hd.
  - right. rewrite (run_CopyFile_open os fuel w w1 w2 _ _ _ _ Hs Hd) in Hrun.
    destruct (iterate _ _ fuel w2) as [[[r' w3] t3]|] eqn:Hloop; [|discriminate].
    injection Hrun as <- _ <-.
    apply copy_loop_calls in Hloop as (-> & chunks & last & Hlast & ->).
    split; [reflexivity|]. now exists source, dest, chunks, last.
  - left. rewrite CopyFile_eq in Hrun. unfold OpenFile in Hrun.
    rewrite run_bind, (run_call os fuel _ _ _ _ Hs) in Hrun. cbn [then_run] in Hrun.
    rewrite run_bind, (run_call os fuel _ _ _ _ Hd) in Hrun. cbn [then_run] in Hrun.
    cbn [bind call run] in Hrun.
    destruct (answer os (stream_delete source) w2) as [[] w3].
    injection Hrun as <- _ <-. split; [reflexivity|]. now exists source.
Qed.

Lemma CopyFile_calls_witness :
  exists w' t,
    run posix 2 (CopyFile (Pathname_of "/tmp/a") (Pathname_of "/tmp/b")) demo_world
    = Some (true, w', t) /\
    exists source dest chunks last,
      fst last <> SR_SUCCESS /\
      t = Ev (stream_open "/tmp/a" "rb") (Some source)
          :: Ev (stream_open "/tmp/b" "wb") (Some dest)
          :: copy_calls source dest chunks last
          ++ [Ev (stream_delete source) tt; Ev (stream_delete dest) tt].
Proof.
  assert (H : exists w' t,
             run posix 2 (CopyFile (Pathname_of "/tmp/a") (Pathname_of "/tmp/b"))
               demo_world = Some (true, w', t)).
  { eexists _, _. vm_compute. reflexivity. }
  destruct H as (w' & t & H). exists w', t. split; [exact H|].
  destruct (CopyFile_calls posix 2 (Pathname_of "/tmp/a") (Pathname_of "/tmp/b")
              demo_world w' true t H) as [[E _]|[[E _]|[_ Hcalls]]];
    [discriminate E|discriminate E|exact Hcalls].
Defined.

(** ** DeleteFile and DeleteEmptyFolder in the model *)

Section Refusals.

Context (cfg : build) (fuel : nat).

(** A refusal leaves the model as it was, in both builds. *)
Lemma posix_refusal (q : Pathname -> prog bool) (path : Pathname)
    (expr : string) (w : posix_world) (b : bool) (t0 : trace) :
  run posix fuel (q path) w = Some (b, w, t0) ->
  exists t,
    run posix fuel (let* _ := ASSERT cfg (q path) expr in Ret false) w
    = Some (false, w, t).
Proof.
  intros Hq. rewrite run_bind. destruct (debug cfg) eqn:Hdebug.
  - rewrite (run_ASSERT_debug cfg posix fuel _ _ w w b t0 Hdebug Hq).
    cbn [then_run run]. destruct b; eauto.
  - rewrite (run_ASSERT_release cfg posix fuel _ _ w Hdebug).
    cbn [then_run run]. eauto.
Qed.

End Refusals.

Lemma posix_unlink_inv (w w' : posix_world) (path : string) (r : sysret) :
  posix_unlink w path = (r, w') ->
  match r with
  | Done => exists k d,
      resolve w path = inr k /\ node_at (nodes w) k = Some (File d) /\
      w' = set_nodes w (delete k (nodes w)) (free_space w + length d)
  | Fail _ => w' = w
  end.
Proof.
  unfold posix_unlink. destruct (resolve w path) as [e|k]; [now intros [= <- <-]|].
  destruct (node_at (nodes w) k) as [[d|]|] eqn:Hk; intros [= <- <-]; eauto.
Qed.

Lemma posix_rmdir_inv (w w' : posix_world) (path : string) (r : sysret) :
  posix_rmdir w path = (r, w') ->
  match r with
  | Done => exists k,
      resolve w path = inr k /\ k <> [] /\ node_at (nodes w) k = Some Dir /\
      has_children (nodes w) k = false /\
      w' = set_nodes w (delete k (nodes w)) (free_space w)
  | Fail _ => w' = w
  end.
Proof.
  unfold posix_rmdir. destruct (resolve w path) as [e|k] eqn:Hres;
    [now intros [= <- <-]|].
  destruct (node_at (nodes w) k) as [[d|]|] eqn:Hk; try (now intros [= <- <-]).
  destruct k as [|c k]; [now intros [= <- <-]|].
  destruct (has_children (nodes w) (c :: k)) eqn:Hc; intros [= <- <-]; [reflexivity|].
  exists (c :: k). repeat split; auto.
Qed.

(** A path that led to a node leads nowhere once the node is removed, if
    anything is asked of the node. *)
Lemma walk_deleted fs cur comps k :
  walk fs cur comps = inr k -> k <> [] ->
  walk (delete k fs) cur (comps ++ [""]) = inl ENOENT.
Proof.
  intros Hwalk Hk. revert cur Hwalk.
  induction comps as [|c rest IH]; intros cur; simpl.
  - intros [= ->]. now rewrite node_at_delete_eq.
  - destruct (node_at fs cur) as [[d|]|] eqn:Hcur; try discriminate.
    destruct (decide (cur = k)) as [->|Hne].
    + now rewrite node_at_delete_eq.
    + rewrite node_at_delete_ne, Hcur by congruence.
      destruct (String.eqb c "" || String.eqb c ".")%bool; [apply IH|].
      destruct (String.eqb c ".."); apply IH.
Qed.

Lemma ends_with_sep_split (p : string) :
  ends_with_sep p = true ->
  p = substr0 p (String.length p - 1) +:+ "/".
Proof.
  unfold ends_with_sep, substr0. destruct p as [|c p]; [discriminate|].
  cbn [String.length]. rewrite Nat.sub_1_r. cbn [Nat.pred].
  revert c. induction p as [|c' p IH]; intros c; unfold is_sep_at.
  - simpl. destruct (Ascii.eqb_spec c sep) as [->|]; [reflexivity|discriminate].
  - intros H. cbn [String.length String.substring].
    change (String c ?s +:+ "/") with (String c (s +:+ "/")).
    f_equal. apply IH. exact H.
Qed.

Lemma classified_IsFile_stat (w : posix_world) (path : string) :
  classified w IsFile path =
  match posix_stat w path with
  | StatOk st => negb (S_ISDIR (st_mode st))
  | StatErr _ => false
  end.
Proof.
  unfold classified.
  rewrite (run_IsFile posix 0 (Pathname_of path) w w
             (posix_stat w (pathname (Pathname_of path))) eq_refl).
  now rewrite pathname_Pathname_of.
Qed.

Lemma classified_IsFolder_stat (w : posix_world) (path : string) :
  classified w IsFolder path =
  match posix_stat w path with
  | StatOk st => S_ISDIR (st_mode st)
  | StatErr _ => false
  end.
Proof.
  unfold classified.
  rewrite (run_IsFolder posix 0 (Pathname_of path) w w
             (posix_stat w (pathname (Pathname_of path))) eq_refl).
  now rewrite pathname_Pathname_of.
Qed.

Lemma stat_file (w : posix_world) (path : string) :
  match posix_stat w path with
  | StatOk st => negb (S_ISDIR (st_mode st))
  | StatErr _ => false
  end = true ->
  exists k d, resolve w path = inr k /\ node_at (nodes w) k = Some (File d).
Proof.
  unfold posix_stat. destruct (resolve w path) as [e|k]; [discriminate|].
  destruct (node_at (nodes w) k) as [[d|]|] eqn:Hk; intros H;
    try discriminate H; try (vm_compute in H; discriminate H); eauto.
Qed.

Lemma stat_folder (w : posix_world) (path : string) :
  match posix_stat w path with
  | StatOk st => S_ISDIR (st_mode st)
  | StatErr _ => false
  end = true ->
  exists k, resolve w path = inr k /\ node_at (nodes w) k = Some Dir.
Proof.
  unfold posix_stat. destruct (resolve w path) as [e|k]; [discriminate|].
  destruct (node_at (nodes w) k) as [[d|]|] eqn:Hk; intros H;
    try discriminate H; try (vm_compute in H; discriminate H); eauto.
Qed.

(** X6. [DeleteFile] is all or nothing.  In the model it returns what
    [IsFile] says of the path beforehand; when it returns true the file the
    path names is gone, its bytes are free again, nothing else has changed
    and the path is absent; when it returns false nothing has changed. *)
Theorem DeleteFile_all_or_nothing :
  forall (cfg : build) (fuel : nat) (path : Pathname) (w w' : posix_world)
         (r : bool) (t : trace),
    run posix fuel (DeleteFile cfg path) w = Some (r, w', t) ->
    r = classified w IsFile (pathname path) /\
    if r then
      (exists k d,
         resolve w (pathname path) = inr k /\
         node_at (nodes w) k = Some (File d) /\
         w' = set_nodes w (delete k (nodes w)) (free_space w + length d)) /\
      classified w' IsAbsent (pathname path) = true
    else w' = w.
Proof.
  intros cfg fuel path w w' r t. rewrite classified_IsFile_stat.
  unfold DeleteFile. rewrite run_bind.
  pose proof (run_IsFile posix fuel path w w (posix_stat w (pathname path)) eq_refl)
    as Hfile. cbn [answer posix posix_answer] in Hfile. rewrite Hfile.
  cbn [then_run].
  destruct (match posix_stat w (pathname path) with
            | StatOk st => negb (S_ISDIR (st_mode st))
            | StatErr _ => false
            end) eqn:Hb; cbn [negb].
  - apply stat_file in Hb as (k & d & Hres & Hk).
    rewrite run_bind.
    rewrite (run_call posix fuel (sys_unlink (pathname path)) w Done
               (set_nodes w (delete k (nodes w)) (free_space w + length d))).
    2:{ cbn. unfold posix_unlink. now rewrite Hres, Hk. }
    cbn. intros [= <- <- _]. split; [reflexivity|]. split; [eauto|].
    apply classified_IsAbsent. unfold posix_stat.
    rewrite (resolve_same_dirs w
               (set_nodes w (delete k (nodes w)) (free_space w + length d))
               (pathname path) k eq_refl
               (same_dirs_delete_file _ _ _ Hk) Hres).
    cbn [nodes set_nodes]. rewrite node_at_delete_eq; [reflexivity|].
    now apply node_at_file_key in Hk.
  - destruct (posix_refusal cfg fuel IsFile path "IsFile(filename)" w _ _ Hfile)
      as (t' & Ht'). rewrite Ht'. intros [= <- <- _]. auto.
Qed.

Lemma DeleteFile_all_or_nothing_witness :
  exists w' t,
    run posix 0 (DeleteFile release_build (Pathname_of "/tmp/a")) demo_world
    = Some (true, w', t) /\
    classified w' IsAbsent "/tmp/a" = true.
Proof.
  assert (H : exists w' t,
             run posix 0 (DeleteFile release_build (Pathname_of "/tmp/a"))
               demo_world = Some (true, w', t)).
  { eexists _, _. vm_compute. reflexivity. }
  destruct H as (w' & t & H). exists w', t. split; [exact H|].
  exact (proj2 (proj2 (DeleteFile_all_or_nothing release_build 0
                         (Pathname_of "/tmp/a") demo_world w' true t H))).
Defined.

Lemma resolve_deleted (w : posix_world) (d : string) (k : list string)
    (free : nat) :
  resolve w d = inr k -> k <> [] ->
  resolve (set_nodes w (delete k (nodes w)) free) (d +:+ "/") = inl ENOENT.
Proof.
  unfold resolve, start_of. destruct d as [|c d]; [discriminate|].
  change (String c d +:+ "/") with (String c (d +:+ "/")).
  change (string_empty (String c d)) with false.
  change (string_empty (String c (d +:+ "/"))) with false.
  change (is_absolute (String c (d +:+ "/"))) with (is_absolute (String c d)).
  cbv iota.
  change (String c (d +:+ "/")) with (String c d +:+ "/").
  rewrite split_path_app_sep. cbn [nodes cwd set_nodes].
  apply walk_deleted.
Qed.

(** X7. [DeleteEmptyFolder] is all or nothing.  When it returns true, the
    path named a folder and the empty directory named by the path without
    its last character is gone, nothing else having changed; for a path
    that ends in a separator that directory is the folder the path names,
    and the path is absent afterwards.  When it returns false nothing has
    changed. *)
Theorem DeleteEmptyFolder_all_or_nothing :
  forall (cfg : build) (fuel : nat) (folder : Pathname) (w w' : posix_world)
         (r : bool) (t : trace),
    run posix fuel (DeleteEmptyFolder cfg folder) w = Some (r, w', t) ->
    let no_slash :=
      substr0 (pathname folder) (String.length (pathname folder) - 1) in
    if r then
      classified w IsFolder (pathname folder) = true /\
      exists k,
        resolve w no_slash = inr k /\ k <> [] /\
        node_at (nodes w) k = Some Dir /\ has_children (nodes w) k = false /\
        w' = set_nodes w (delete k (nodes w)) (free_space w) /\
        (ends_with_sep (pathname folder) = true ->
         resolve w (pathname folder) = inr k /\
         classified w' IsAbsent (pathname folder) = true)
    else w' = w.
Proof.
  intros cfg fuel folder w w' r t Hrun no_slash. revert Hrun.
  rewrite classified_IsFolder_stat.
  unfold DeleteEmptyFolder. rewrite run_bind.
  pose proof (run_IsFolder posix fuel folder w w
                (posix_stat w (pathname folder)) eq_refl) as Hfolder.
  cbn [answer posix posix_answer] in Hfolder. rewrite Hfolder.
  cbn [then_run].
  destruct (match posix_stat w (pathname folder) with
            | StatOk st => S_ISDIR (st_mode st)
            | StatErr _ => false
            end) eqn:Hb; cbn [negb].
  - fold no_slash. rewrite run_bind.
    destruct (posix_rmdir w no_slash) as [res w2] eqn:Hrm.
    rewrite (run_call posix fuel (sys_rmdir no_slash) w res w2 Hrm).
    apply posix_rmdir_inv in Hrm. destruct res as [|e].
    + destruct Hrm as (k & Hres & Hk0 & Hk & Hempty & ->).
      cbn. intros [= <- <- _]. split; [reflexivity|]. exists k.
      do 5 (split; [assumption || reflexivity|]).
      intros Hsep. split.
      * rewrite (ends_with_sep_split _ Hsep). fold no_slash.
        now apply resolve_dir_sep.
      * apply classified_IsAbsent. unfold posix_stat.
        rewrite (ends_with_sep_split _ Hsep). fold no_slash.
        now rewrite (resolve_deleted w no_slash k _ Hres Hk0).
    + subst w2. cbn. intros [= <- <- _]. reflexivity.
  - destruct (posix_refusal cfg fuel IsFolder folder "IsFolder(folder)" w _ _ Hfolder)
      as (t' & Ht'). rewrite Ht'. intros [= <- <- _]. auto.
Qed.

Lemma DeleteEmptyFolder_all_or_nothing_witness :
  exists w' t,
    run posix 0 (DeleteEmptyFolder release_build (Pathname_of "/home/user/"))
      demo_world = Some (true, w', t) /\
    classified w' IsAbsent "/home/user/" = true.
Proof.
  assert (H : exists w' t,
             run posix 0
               (DeleteEmptyFolder release_build (Pathname_of "/home/user/"))
               demo_world = Some (true, w', t)).
  { eexists _, _. vm_compute. reflexivity. }
  destruct H as (w' & t & H). exists w', t. split; [exact H|].
  destruct (DeleteEmptyFolder_all_or_nothing release_build 0
              (Pathname_of "/home/user/") demo_world w' true t H)
    as (_ & k & _ & _ & _ & _ & _ & Hsep).
  exact (proj2 (Hsep eq_refl)).
Defined.

(** ** More fuel changes nothing *)

Lemma iterate_mono {W A} (body body' : W -> option (bool * W * trace))
    (k k' : W -> option (A * W * trace)) :
  (forall w y, body w = Some y -> body' w = Some y) ->
  (forall w y, k w = Some y -> k' w = Some y) ->
  forall (n m : nat) (w : W) (x : A * W * trace),
    n <= m -> iterate body k n w = Some x -> iterate body' k' m w = Some x.
Proof.
  intros Hbody Hk. induction n as [|n IH]; intros m w x Hle; [discriminate|].
  destruct m as [|m]; [lia|]. cbn [iterate].
  destruct (body w) as [[[b w1] t1]|] eqn:Hb; [|discriminate].
  rewrite (Hbody _ _ Hb). destruct b.
  - destruct (iterate body k n w1) as [[[a w2] t2]|] eqn:Hloop; [|discriminate].
    now rewrite (IH m w1 _ ltac:(lia) Hloop).
  - destruct (k w1) as [[[a w2] t2]|] eqn:Hk1; [|discriminate].
    now rewrite (Hk _ _ Hk1).
Qed.

(** A run that returns with some fuel returns the same with more. *)
Lemma run_fuel_mono (os : OS) {A} (p : prog A) :
  forall (n m : nat) (w : world os) (x : A * world os * trace),
    n <= m -> run os n p w = Some x -> run os m p w = Some x.
Proof.
  induction p as [A a|A X c k IH|A body IHbody k IHk]; intros n m w x Hle;
    cbn [run].
  - auto.
  - destruct (answer os c w) as [r w1].
    destruct (run os n (k r) w1) as [[[a w2] t]|] eqn:Hk; [|discriminate].
    now rewrite (IH r n m w1 _ Hle Hk).
  - apply iterate_mono; eauto.
Qed.

(** ** CopyFile: when the room runs out *)

Section CopyFits.

Context (hs hd : handle) (ks kd : list string) (data : list Byte.byte)
        (fs0 : gmap (list string) node) (room fuel : nat).
Hypothesis (Hh : hs <> hd) (Hk : ks <> kd) (Hkd : kd <> []).
Hypothesis (Hsrc : node_at fs0 ks = Some (File data)).

Lemma copy_body_fits (p : nat) (w : posix_world) :
  copied_what_fits hs hd ks kd data fs0 room p w ->
  exists b w' t,
    run posix fuel (copy_body hs hd) w = Some (b, w', t) /\
    cwd w' = cwd w /\
    if b
    then exists p', p < p' /\ copied_what_fits hs hd ks kd data fs0 room p' w'
    else p = length data /\ w' = w.
Proof.
  intros (Hs & Hd & Hn & Hfree & Hp).
  unfold copy_body. simpl. unfold posix_read. rewrite Hs. simpl.
  assert (Hnk : node_at (nodes w) ks = Some (File data)).
  { rewrite Hn. now rewrite node_at_insert_ne by congruence. }
  rewrite Hnk.
  destruct (take copy_chunk (drop p data)) as [|x chunk] eqn:Hchunk.
  { simpl. do 3 eexists. split; [reflexivity|]. split; [reflexivity|].
    split; [|reflexivity].
    assert (H0 : length (take copy_chunk (drop p data)) = 0)
      by (now rewrite Hchunk).
    rewrite length_take, length_drop in H0. unfold copy_chunk in H0. lia. }
  assert (Hpos : 1 <= length (x :: chunk)) by (simpl; lia).
  change (S (length chunk)) with (length (x :: chunk)).
  remember (x :: chunk) as c eqn:Hc. clear Hc x chunk.
  assert (Hlen : length c <= length data - p).
  { rewrite <- Hchunk, length_take, length_drop. apply Nat.le_min_r. }
  simpl run. unfold posix_write. cbn [streams set_streams].
  rewrite lookup_insert_ne by assumption. rewrite Hd.
  cbn [of_writable negb of_key of_pos nodes set_streams free_space].
  assert (Hnd : node_at (nodes w) kd = Some (File (take (min p room) data))).
  { rewrite Hn. now apply node_at_insert_eq. }
  rewrite Hnd. rewrite length_take_le by lia.
  rewrite Nat.sub_diag. cbn [Nat.add]. rewrite Hfree.
  destruct (le_lt_dec room p) as [Hfull|Hroom].
  - (* no room is left: the write fails, the source moves on *)
    rewrite (Nat.min_r p room) in * by assumption.
    rewrite Nat.sub_diag, Nat.min_0_r.
    replace (length c =? 0)%nat with false
      by (symmetry; apply Nat.eqb_neq; lia).
    cbn [Nat.eqb andb negb].
    do 3 eexists. split; [reflexivity|]. split; [reflexivity|].
    exists (p + length c). split; [lia|].
    rewrite <- (Nat.min_r (p + length c) room) in Hd, Hn, Hfree by lia.
    split; [|split; [|split; [|split]]]; cbn [streams nodes free_space set_streams].
    + now rewrite lookup_insert_eq.
    + now rewrite lookup_insert_ne by assumption.
    + exact Hn.
    + rewrite Hfree. rewrite Nat.min_r by lia. lia.
    + lia.
  - (* there is room: the write takes what fits *)
    rewrite (Nat.min_l p room) in * by lia.
    set (n := min (length c) (room - p)).
    assert (Hn0 : 1 <= n) by (unfold n; lia).
    replace (n =? 0)%nat with false by (symmetry; apply Nat.eqb_neq; lia).
    cbn [andb].
    assert (Hwritten : write_at (take p data) p (take n c) = take (p + n) data).
    { pose proof (write_at_end (take p data) (take n c)) as Hw.
      rewrite length_take_le in Hw by assumption. rewrite Hw.
      rewrite <- take_take_drop. f_equal.
      rewrite <- Hchunk, take_take. f_equal. unfold n, copy_chunk in *.
      assert (length c <= 256).
      { rewrite <- Hchunk, length_take. lia. }
      lia. }
    rewrite Hwritten.
    assert (Hmin : min (p + length c) room = p + n) by (unfold n; lia).
    do 3 eexists. split; [reflexivity|]. split; [reflexivity|].
    exists (p + length c). split; [lia|]. unfold copied_what_fits. rewrite Hmin.
    split; [|split; [|split; [|split]]]; cbn [streams nodes free_space set_streams set_nodes].
    + rewrite lookup_insert_ne by congruence. now rewrite lookup_insert_eq.
    + now rewrite lookup_insert_eq.
    + rewrite Hn. now rewrite insert_insert_eq.
    + rewrite !length_take_le by (unfold n; lia). lia.
    + lia.
Qed.

Lemma copy_loop_fits :
  forall (r p m : nat) (w : posix_world),
    length data - p <= r -> r < m ->
    copied_what_fits hs hd ks kd data fs0 room p w ->
    exists w' t,
      iterate (run posix fuel (copy_body hs hd))
        (run posix fuel (copy_end hs hd)) m w = Some (true, w', t) /\
      cwd w' = cwd w /\ nodes w' = <[kd := File (take room data)]> fs0 /\
      free_space w' = room - length (take room data).
Proof.
  assert (Hend : forall w : posix_world,
             copied_what_fits hs hd ks kd data fs0 room (length data) w ->
             exists w' t,
               run posix fuel (copy_end hs hd) w = Some (true, w', t) /\
               cwd w' = cwd w /\
               nodes w' = <[kd := File (take room data)]> fs0 /\
               free_space w' = room - length (take room data)).
  { intros w (_ & _ & Hn & Hfree & _).
    do 2 eexists. split; [reflexivity|]. cbn.
    rewrite Hn, Hfree, length_take.
    destruct (le_lt_dec room (length data)) as [Hle|Hlt].
    - rewrite (Nat.min_r (length data) room) by assumption.
      repeat split; auto. lia.
    - rewrite (Nat.min_l (length data) room) by lia.
      rewrite (take_ge data room), (take_ge data (length data)) by lia.
      repeat split; auto. lia. }
  induction r as [|r IH]; intros p m w Hr Hm Hinv;
    (destruct m as [|m]; [lia|]); cbn [iterate];
    destruct (copy_body_fits p w Hinv) as (b & w1 & t1 & -> & Hcwd & Hb);
    destruct b.
  - destruct Hb as (p' & Hp' & (_ & _ & _ & _ & Hle)). lia.
  - destruct Hb as [-> ->].
    destruct (Hend w Hinv) as (w' & t & -> & H). eauto.
  - destruct Hb as (p' & Hp' & Hinv').
    destruct (IH p' m w1 ltac:(lia) ltac:(lia) Hinv')
      as (w' & t & -> & Hcwd' & Hnodes' & Hfree').
    do 2 eexists. split; [reflexivity|]. repeat split; congruence.
  - destruct Hb as [-> ->].
    destruct (Hend w Hinv) as (w' & t & -> & H). eauto.
Qed.

End CopyFits.

Lemma posix_open_write_room (w w1 : posix_world) (path : string) (h : handle) :
  posix_open w path "wb" = (Some h, w1) ->
  exists k,
    resolve w path = inr k /\ k <> [] /\ node_at (nodes w) k <> Some Dir /\
    h = next_handle w /\
    w1 = set_streams
           (set_nodes w (<[k := File []]> (nodes w))
              (free_space w + length (default [] (content w path))))
           (<[h := {| of_key := k; of_pos := 0; of_writable := true |}]>
              (streams w)) (S h).
Proof.
  unfold posix_open, content. destruct (resolve w path) as [e|k]; [discriminate|].
  simpl. destruct (node_at (nodes w) k) as [[d|]|] eqn:Hn; try discriminate.
  - unfold open_stream. simpl. intros [= <- <-]. exists k.
    repeat split; eauto using node_at_file_key. congruence.
  - destruct (parent_is_dir (nodes w) k) eqn:Hp; [|discriminate].
    unfold open_stream. simpl. intros [= <- <-]. exists k.
    rewrite Nat.add_0_r. repeat split; eauto; [|congruence].
    intros ->. discriminate.
Qed.

(** What [CopyFile] leaves between two different files: the bytes of the
    source that fit into the room there is. *)
Lemma CopyFile_fits (w w1 w2 : posix_world) (old_path new_path : Pathname)
    (source dest : handle) (data : list Byte.byte) (fuel : nat) :
  posix_open w (pathname old_path) "rb" = (Some source, w1) ->
  posix_open w1 (pathname new_path) "wb" = (Some dest, w2) ->
  content w (pathname old_path) = Some data ->
  resolve w (pathname old_path) <> resolve w (pathname new_path) ->
  length data < fuel ->
  let room :=
    free_space w + length (default [] (content w (pathname new_path))) in
  exists w' t kd,
    run posix fuel (CopyFile old_path new_path) w = Some (true, w', t) /\
    resolve w (pathname new_path) = inr kd /\ kd <> [] /\
    node_at (nodes w) kd <> Some Dir /\
    cwd w' = cwd w /\
    nodes w' = <[kd := File (take room data)]> (nodes w) /\
    free_space w' = room - length (take room data).
Proof.
  intros Hs Hd Hdata Hne Hfuel room.
  pose proof (run_CopyFile_open posix fuel w w1 w2 old_path
                new_path source dest Hs Hd) as Hopen.
  apply posix_open_read_inv in Hs as (ks & Hks & Hnode & Hhs & Hw1).
  apply posix_open_write_room in Hd as (kd & Hkd & Hkd0 & Hnodir & Hhd & Hw2).
  assert (Hkd' : resolve w (pathname new_path) = inr kd) by (now subst w1).
  assert (Hroom : free_space w1 + length (default [] (content w1 (pathname new_path)))
                  = room) by (now subst w1).
  rewrite Hroom in Hw2.
  pose proof (content_node w _ ks data Hks Hdata) as Hsrc.
  assert (Hneq : ks <> kd) by congruence.
  assert (Hinv : copied_what_fits source dest ks kd data (nodes w) room 0 w2).
  { subst w2 w1. repeat split; simpl.
    - rewrite lookup_insert_ne by (subst; simpl; lia). subst source.
      apply lookup_insert_eq.
    - subst dest. simpl. apply lookup_insert_eq.
    - lia.
    - lia. }
  destruct (copy_loop_fits source dest ks kd data (nodes w) room fuel
              ltac:(subst; simpl; lia) Hneq Hkd0 Hsrc
              (length data) 0 fuel w2 ltac:(lia) Hfuel Hinv)
    as (w' & t & Hloop & Hcwd & Hnodes & Hfree).
  rewrite Hopen, Hloop. exists w'. eexists. exists kd.
  split; [reflexivity|]. repeat split; try assumption.
  - now subst w1.
  - rewrite Hcwd. now subst w2 w1.
Qed.

(** X8. [CopyFile] copies what fits.  Between two different files, with
    both streams open, it returns true and leaves in the destination the
    first bytes of the source, as many as the room freed by truncating the
    destination and the free space allow; the source keeps its content. *)
Theorem CopyFile_copies_what_fits :
  forall (w w1 w2 : posix_world) (old_path new_path : Pathname)
         (source dest : handle) (data : list Byte.byte) (fuel : nat),
    posix_open w (pathname old_path) "rb" = (Some source, w1) ->
    posix_open w1 (pathname new_path) "wb" = (Some dest, w2) ->
    content w (pathname old_path) = Some data ->
    resolve w (pathname old_path) <> resolve w (pathname new_path) ->
    length data < fuel ->
    let room :=
      free_space w + length (default [] (content w (pathname new_path))) in
    exists w' t,
      run posix fuel (CopyFile old_path new_path) w = Some (true, w', t) /\
      content w' (pathname new_path) = Some (take room data) /\
      content w' (pathname old_path) = Some data /\
      free_space w' = room - length (take room data).
Proof.
  intros w w1 w2 old_path new_path source dest data fuel Hs Hd Hdata Hne Hfuel room.
  destruct (CopyFile_fits w w1 w2 old_path new_path source dest data fuel
              Hs Hd Hdata Hne Hfuel)
    as (w' & t & kd & Hrun & Hkd & Hkd0 & Hnodir & Hcwd & Hnodes & Hfree).
  exists w', t. split; [assumption|]. fold room in Hnodes, Hfree.
  assert (Hsame : same_dirs (nodes w) (nodes w')).
  { rewrite Hnodes. now apply same_dirs_insert_file. }
  split; [|split; [|assumption]]; unfold content.
  - rewrite (resolve_same_dirs w w' _ _ Hcwd Hsame Hkd), Hnodes.
    now rewrite node_at_insert_eq.
  - unfold content in Hdata.
    destruct (resolve w (pathname old_path)) as [e|ks] eqn:Hks; [discriminate|].
    rewrite (resolve_same_dirs w w' _ _ Hcwd Hsame Hks), Hnodes.
    rewrite node_at_insert_ne by congruence. assumption.
Qed.

Lemma CopyFile_copies_what_fits_witness :
  exists w' t,
    run posix 4 (CopyFile (Pathname_of "/tmp/a") (Pathname_of "/tmp/b")) tight_world
    = Some (true, w', t) /\
    content w' "/tmp/b" = Some [Byte.x41; Byte.x42] /\
    content w' "/tmp/a" = Some ABC.
Proof.
  destruct (CopyFile_copies_what_fits tight_world
              (snd (posix_open tight_world "/tmp/a" "rb"))
              (snd (posix_open (snd (posix_open tight_world "/tmp/a" "rb"))
                      "/tmp/b" "wb"))
              (Pathname_of "/tmp/a") (Pathname_of "/tmp/b") 3 4 ABC 4)
    as (w' & t & Hrun & Hnew & Hold & _).
  - vm_compute. reflexivity.
  - vm_compute. reflexivity.
  - vm_compute. reflexivity.
  - vm_compute. discriminate.
  - vm_compute. lia.
  - exists w', t. split; [exact Hrun|]. split; [exact Hnew|exact Hold].
Defined.

(** ** CopyFile: a file onto itself, and a copy that fails *)

(** X9. [CopyFile] from a file onto the same file empties it: opening the
    destination truncates the file before the first [Read], which then
    finds the end of the file; the result is true. *)
Theorem CopyFile_onto_itself_truncates :
  forall (w : posix_world) (old_path new_path : Pathname) (k : list string)
         (data : list Byte.byte) (fuel : nat),
    resolve w (pathname old_path) = inr k ->
    resolve w (pathname new_path) = inr k ->
    node_at (nodes w) k = Some (File data) ->
    0 < fuel ->
    exists w' t,
      run posix fuel (CopyFile old_path new_path) w = Some (true, w', t) /\
      content w' (pathname old_path) = Some [] /\
      content w' (pathname new_path) = Some [] /\
      free_space w' = free_space w + length data.
Proof.
  intros w old_path new_path k data fuel Hold Hnew Hk Hfuel.
  pose proof (node_at_file_key _ _ _ Hk) as Hk0.
  set (hs := next_handle w).
  set (w1 := snd (open_stream w k 0 false)).
  set (w2 := snd (open_stream
                    (set_nodes w1 (<[k := File []]> (nodes w1))
                       (free_space w1 + length data)) k 0 true)).
  assert (Hs : posix_open w (pathname old_path) "rb" = (Some hs, w1)).
  { unfold posix_open. rewrite Hold. simpl. now rewrite Hk. }
  assert (Hd : posix_open w1 (pathname new_path) "wb" = (Some (S hs), w2)).
  { unfold posix_open.
    change (resolve w1 (pathname new_path)) with (resolve w (pathname new_path)).
    rewrite Hnew. simpl. now rewrite Hk. }
  rewrite (run_CopyFile_open posix fuel w w1 w2 old_path new_path hs (S hs) Hs Hd).
  destruct fuel as [|fuel]; [lia|]. cbn [iterate].
  rewrite run_copy_body. cbn [answer posix posix_answer].
  assert (Hread : posix_read w2 hs copy_chunk = (SR_EOS, [], w2)).
  { unfold posix_read, w2, w1. cbn [streams set_streams open_stream snd nodes set_nodes next_handle].
    rewrite lookup_insert_ne by (unfold hs; lia). rewrite lookup_insert_eq.
    cbn [of_writable of_key of_pos]. now rewrite node_at_insert_eq. }
  rewrite Hread. cbn [fst]. rewrite run_copy_end.
  do 2 eexists. split; [reflexivity|].
  assert (Hcontent : forall (w' : posix_world) (p : string),
             cwd w' = cwd w -> nodes w' = <[k := File []]> (nodes w) ->
             resolve w p = inr k -> content w' p = Some []).
  { intros w' p Hc Hn Hp. unfold content.
    rewrite (resolve_same_dirs w w' p k Hc); [| |assumption].
    - now rewrite Hn, node_at_insert_eq.
    - rewrite Hn. apply same_dirs_insert_file. congruence. }
  repeat split; try (apply Hcontent; [reflexivity|reflexivity|assumption]).
Qed.

Lemma CopyFile_onto_itself_truncates_witness :
  exists w' t,
    run posix 1 (CopyFile (Pathname_of "/tmp/a") (Pathname_of "/tmp/./a")) demo_world
    = Some (true, w', t) /\
    content w' "/tmp/a" = Some [].
Proof.
  destruct (CopyFile_onto_itself_truncates demo_world (Pathname_of "/tmp/a")
              (Pathname_of "/tmp/./a") ["a"; "tmp"] ABC 1)
    as (w' & t & Hrun & Hold & _).
  - reflexivity.
  - reflexivity.
  - reflexivity.
  - lia.
  - exists w', t. split; [exact Hrun|exact Hold].
Defined.

(** A copy that fails has changed no name, no content and no room. *)
Lemma CopyFile_false_posix (fuel : nat) (w w' : posix_world)
    (old_path new_path : Pathname) (t : trace) :
  run posix fuel (CopyFile old_path new_path) w = Some (false, w', t) ->
  nodes w' = nodes w /\ cwd w' = cwd w /\ free_space w' = free_space w.
Proof.
  destruct (answer posix (stream_open (pathname old_path) "rb") w)
    as [[source|] w1] eqn:Hs.
  2:{ rewrite CopyFile_eq. unfold OpenFile.
      rewrite run_bind, (run_call posix fuel _ _ _ _ Hs). cbn.
      intros [= <-]. cbn in Hs. unfold posix_open in Hs.
      destruct (resolve w (pathname old_path)); [now injection Hs as <-|].
      cbn in Hs. destruct (node_at (nodes w) l); [discriminate|].
      now injection Hs as <-. }
  pose proof Hs as Hs'.
  apply posix_open_read_inv in Hs' as (ks & _ & _ & _ & Hw1).
  destruct (answer posix (stream_open (pathname new_path) "wb") w1)
    as [[dest|] w2] eqn:Hd.
  - rewrite (run_CopyFile_open posix fuel w w1 w2 _ _ _ _ Hs Hd).
    destruct (iterate _ _ fuel w2) as [[[r w3] t3]|] eqn:Hloop; [|discriminate].
    intros [= -> _ _]. now apply copy_loop_calls in Hloop as [[=] _].
  - rewrite CopyFile_eq. unfold OpenFile.
    rewrite run_bind, (run_call posix fuel _ _ _ _ Hs). cbn [then_run].
    rewrite run_bind, (run_call posix fuel _ _ _ _ Hd). cbn.
    intros [= <-]. cbn.
    assert (w2 = w1) as ->.
    { cbn in Hd. unfold posix_open in Hd.
      destruct (resolve w1 (pathname new_path)); [now injection Hd as <-|].
      cbn in Hd. destruct (node_at (nodes w1) l) as [[d|]|]; try discriminate.
      - now injection Hd as <-.
      - destruct (parent_is_dir (nodes w1) l); [discriminate|].
        now injection Hd as <-. }
    now subst w1.
Qed.

(** ** MoveFile: what becomes of the content *)

Lemma DeleteFile_false_posix (cfg : build) (fuel : nat) (w w' : posix_world)
    (path : Pathname) (t : trace) :
  run posix fuel (DeleteFile cfg path) w = Some (false, w', t) -> w' = w.
Proof.
  unfold DeleteFile. rewrite run_bind.
  pose proof (run_IsFile posix fuel path w w (posix_stat w (pathname path)) eq_refl)
    as Hfile. cbn [answer posix posix_answer] in Hfile. rewrite Hfile.
  cbn [then_run].
  destruct (match posix_stat w (pathname path) with
            | StatOk st => negb (S_ISDIR (st_mode st))
            | StatErr _ => false
            end) eqn:Hb; cbn [negb].
  - rewrite run_bind.
    destruct (posix_unlink w (pathname path)) as [res w2] eqn:Hu.
    rewrite (run_call posix fuel (sys_unlink (pathname path)) w res w2 Hu).
    apply posix_unlink_inv in Hu. destruct res; cbn; [discriminate|].
    now intros [= <-].
  - destruct (posix_refusal cfg fuel IsFile path "IsFile(filename)" w _ _ Hfile)
      as (t' & Ht'). rewrite Ht'. now intros [= <-].
Qed.

Lemma content_same_nodes (w w' : posix_world) (path : string) :
  nodes w' = nodes w -> cwd w' = cwd w -> content w' path = content w path.
Proof.
  intros Hn Hc. unfold content, resolve, start_of. now rewrite Hn, Hc.
Qed.

Lemma content_inv (w : posix_world) (path : string) (data : list Byte.byte) :
  content w path = Some data ->
  exists k, resolve w path = inr k /\ node_at (nodes w) k = Some (File data).
Proof.
  unfold content. destruct (resolve w path) as [e|k]; [discriminate|].
  destruct (node_at (nodes w) k) as [[d|]|] eqn:Hk; try discriminate.
  intros [= ->]. eauto.
Qed.

(** The content of a file that a change elsewhere leaves alone. *)
Lemma content_insert_other (w w' : posix_world) (path : string)
    (k kd : list string) (data c : list Byte.byte) :
  resolve w path = inr k -> node_at (nodes w) k = Some (File data) ->
  k <> kd -> node_at (nodes w) kd <> Some Dir ->
  cwd w' = cwd w -> nodes w' = <[kd := File c]> (nodes w) ->
  content w' path = Some data.
Proof.
  intros Hres Hk Hne Hnodir Hcwd Hnodes. unfold content.
  rewrite (resolve_same_dirs w w' path k Hcwd); [| |assumption].
  - now rewrite Hnodes, node_at_insert_ne, Hk by congruence.
  - rewrite Hnodes. now apply same_dirs_insert_file.
Qed.

(** A successful copy between two different files, whatever the fuel it
    returned with. *)
Lemma CopyFile_true_posix (fuel : nat) (w w' : posix_world)
    (old_path new_path : Pathname) (t : trace) (data : list Byte.byte) :
  run posix fuel (CopyFile old_path new_path) w = Some (true, w', t) ->
  content w (pathname old_path) = Some data ->
  resolve w (pathname old_path) <> resolve w (pathname new_path) ->
  let room :=
    free_space w + length (default [] (content w (pathname new_path))) in
  exists kd,
    resolve w (pathname new_path) = inr kd /\ kd <> [] /\
    node_at (nodes w) kd <> Some Dir /\
    cwd w' = cwd w /\
    nodes w' = <[kd := File (take room data)]> (nodes w) /\
    free_space w' = room - length (take room data).
Proof.
  intros Hrun Hdata Hne room.
  destruct (posix_open w (pathname old_path) "rb") as [[source|] w1] eqn:Hs.
  2:{ rewrite CopyFile_eq in Hrun. unfold OpenFile in Hrun.
      rewrite run_bind, (run_call posix fuel (stream_open _ _) w None w1 Hs) in Hrun.
      discriminate Hrun. }
  destruct (posix_open w1 (pathname new_path) "wb") as [[dest|] w2] eqn:Hd.
  2:{ rewrite CopyFile_eq in Hrun. unfold OpenFile in Hrun.
      rewrite run_bind, (run_call posix fuel (stream_open _ _) w _ w1 Hs) in Hrun.
      cbn [then_run] in Hrun.
      rewrite run_bind, (run_call posix fuel (stream_open _ _) w1 None w2 Hd) in Hrun.
      discriminate Hrun. }
  destruct (CopyFile_fits w w1 w2 old_path new_path source dest data
              (fuel + S (length data)) Hs Hd Hdata Hne ltac:(lia))
    as (w3 & t3 & kd & Hrun3 & Hfacts).
  apply (run_fuel_mono posix _ fuel (fuel + S (length data))) in Hrun; [|lia].
  rewrite Hrun in Hrun3. injection Hrun3 as <- _. now exists kd.
Qed.

(** X10. [MoveFile] and the content of the file, between two paths that do
    not name the same directory entry.  When it returns false the old path
    still holds the content.  When it returns true the old path is absent
    and the new path holds the content, or, when the move went across
    devices through [CopyFile] and the room was short, the first bytes of
    it that fitted: the rest is lost. *)
Theorem MoveFile_keeps_or_loses_content :
  forall (cfg : build) (fuel : nat) (w w' : posix_world)
         (old_path new_path : Pathname) (data : list Byte.byte)
         (r : bool) (t : trace),
    run posix fuel (MoveFile cfg old_path new_path) w = Some (r, w', t) ->
    content w (pathname old_path) = Some data ->
    resolve w (pathname old_path) <> resolve w (pathname new_path) ->
    let room :=
      free_space w + length (default [] (content w (pathname new_path))) in
    if r then
      classified w' IsAbsent (pathname old_path) = true /\
      (content w' (pathname new_path) = Some data \/
       room < length data /\
       content w' (pathname new_path) = Some (take room data))
    else content w' (pathname old_path) = Some data.
Proof.
  intros cfg fuel w w' old_path new_path data r t Hrun Hdata Hne room.
  revert Hrun.
  destruct (content_inv _ _ _ Hdata) as (ko & Hko & Hd).
  unfold MoveFile. rewrite run_bind.
  rewrite (run_IsFile posix fuel old_path w w
             (posix_stat w (pathname old_path)) eq_refl).
  cbn [then_run]. unfold posix_stat at 1. rewrite Hko, Hd.
  change (negb (negb (S_ISDIR (st_mode {| st_mode := mode_of (File data) |}))))
    with false.
  cbv iota. rewrite run_bind.
  rewrite (run_call posix fuel
             (sys_rename (pathname old_path) (pathname new_path)) w
             (fst (posix_rename w (pathname old_path) (pathname new_path)))
             (snd (posix_rename w (pathname old_path) (pathname new_path)))).
  2:{ simpl. now destruct (posix_rename _ _ _). }
  cbn [then_run].
  unfold posix_rename. rewrite Hko, Hd.
  destruct (resolve w (pathname new_path)) as [e|kn] eqn:Hkn.
  { cbn [fst snd]. destruct (resolve_errors _ _ _ Hkn) as [-> | ->];
      simpl; intros [= <- <- _]; assumption. }
  destruct (bool_decide_reflect (ko = kn)) as [->|Hkk]; [congruence|].
  assert (Hmoved : forall (w4 : posix_world) (c : list Byte.byte),
             node_at (nodes w) kn <> Some Dir -> kn <> [] ->
             cwd w4 = cwd w ->
             nodes w4 = <[kn := File c]> (delete ko (nodes w)) ->
             classified w4 IsAbsent (pathname old_path) = true /\
             content w4 (pathname new_path) = Some c).
  { intros w4 c Hnodir Hkn0 Hcwd Hnodes.
    destruct (moved_state w w4 (pathname old_path) (pathname new_path) ko kn c)
      as [Hold Hnew]; eauto.
    split; [now apply classified_IsAbsent|assumption]. }
  destruct (negb (device w ko =? device w kn)%nat) eqn:Hdev.
  - (* another device: copy, then delete *)
    cbn [fst snd]. cbn [errno_eqb negb]. cbv iota. rewrite run_bind.
    destruct (run posix fuel (CopyFile old_path new_path) w)
      as [[[[] w3] t3]|] eqn:Hcopy; cbn [then_run negb]; [| |discriminate].
    + apply (CopyFile_true_posix _ _ _ _ _ _ data) in Hcopy
        as (kd & Hkd & Hkd0 & Hnodir & Hcwd3 & Hnodes3 & _);
        [|assumption|congruence].
      assert (kd = kn) by congruence. subst kd. fold room in Hnodes3.
      pose proof (content_insert_other w w3 _ ko kn data _ Hko Hd Hkk Hnodir
                    Hcwd3 Hnodes3) as Hdata3.
      rewrite run_bind.
      destruct (run posix fuel (DeleteFile cfg old_path) w3)
        as [[[[] w4] t4]|] eqn:Hdel; cbn [then_run negb]; [| |discriminate].
      * simpl. intros [= <- <- _].
        apply DeleteFile_posix in Hdel as (k & d' & Hk & Hd' & Hcwd4 & Hnodes4).
        assert (Hsame3 : same_dirs (nodes w) (nodes w3)).
        { rewrite Hnodes3. now apply same_dirs_insert_file. }
        pose proof (resolve_same_dirs w w3 _ _ Hcwd3 Hsame3 Hko) as Hko3.
        assert (k = ko) by congruence. subst k.
        destruct (Hmoved w4 (take room data)) as [Hold Hnew];
          [assumption|assumption|congruence| |].
        { rewrite Hnodes4, Hnodes3. now apply delete_insert_ne. }
        split; [assumption|].
        destruct (le_lt_dec (length data) room) as [Hle|Hlt].
        -- left. now rewrite take_ge in Hnew by assumption.
        -- right. auto.
      * simpl. intros [= <- <- _].
        apply DeleteFile_false_posix in Hdel. now subst w4.
    + simpl. intros [= <- <- _].
      apply CopyFile_false_posix in Hcopy as (Hn & Hc & _).
      now rewrite (content_same_nodes w w3).
  - (* the same device *)
    destruct (node_at (nodes w) kn) as [[d'|]|] eqn:Hn.
    + cbn [fst snd]. simpl. intros [= <- <- _].
      destruct (Hmoved (set_nodes w (<[kn:=File data]> (delete ko (nodes w)))
                          (free_space w + length d')) data) as [Hold Hnew];
        try reflexivity; [congruence|now apply node_at_file_key in Hn|].
      auto.
    + cbn [fst snd]. simpl. intros [= <- <- _]. assumption.
    + destruct (parent_is_dir (nodes w) kn) eqn:Hpar;
        cbn [fst snd]; simpl; intros [= <- <- _]; [|assumption].
      destruct (Hmoved (set_nodes w (<[kn:=File data]> (delete ko (nodes w)))
                          (free_space w)) data) as [Hold Hnew];
        try reflexivity; [congruence|intros ->; discriminate|].
      auto.
Qed.

Lemma MoveFile_keeps_or_loses_content_witness :
  exists w' t,
    run posix 4
      (MoveFile release_build (Pathname_of "/tmp/a") (Pathname_of "/mnt/a"))
      tight_world = Some (true, w', t) /\
    classified w' IsAbsent "/tmp/a" = true /\
    (content w' "/mnt/a" = Some ABC \/
     2 < 3 /\ content w' "/mnt/a" = Some [Byte.x41; Byte.x42]).
Proof.
  assert (H : exists w' t,
             run posix 4
               (MoveFile release_build (Pathname_of "/tmp/a") (Pathname_of "/mnt/a"))
               tight_world = Some (true, w', t)).
  { eexists _, _. vm_compute. reflexivity. }
  destruct H as (w' & t & H). exists w', t. split; [exact H|].
  refine (MoveFile_keeps_or_loses_content release_build 4 tight_world w'
            (Pathname_of "/tmp/a") (Pathname_of "/mnt/a") ABC true t H _ _).
  - reflexivity.
  - vm_compute. discriminate.
Defined.

(** ** The temporary folders in the model *)

Section TemporaryPosix.

Context (cfg : build) (fuel : nat).

Lemma posix_ASSERT_pure (b : bool) (expr : string) (w : posix_world) :
  exists ta, run posix fuel (ASSERT cfg (Ret b) expr) w = Some (tt, w, ta).
Proof.
  unfold ASSERT. destruct (debug cfg); [|cbn; eauto].
  destruct b; cbn; eauto.
Qed.

(** Finding the root changes nothing. *)
Lemma temporary_root_posix (path : Pathname) (w w1 : posix_world) r t :
  run posix fuel (temporary_root cfg path) w = Some (r, w1, t) -> w1 = w.
Proof.
  unfold temporary_root. destruct (plat cfg); cbn.
  - destruct (osx_temp w); cbn; now intros [= _ <- _].
  - now intros [= _ <- _].
  - destruct (environ w !! "TMPDIR"); cbn; [now intros [= _ <- _]|].
    destruct (environ w !! "TMP"); cbn; [now intros [= _ <- _]|].
    destruct (P_tmpdir cfg); cbn; now intros [= _ <- _].
Qed.

Lemma GetTemporaryFolder_posix (path : Pathname) (create : bool)
    (append : option string) (w w' : posix_world) ok p t :
  run posix fuel (GetTemporaryFolder cfg path create append) w
  = Some ((ok, p), w', t) ->
  adds_directories w w' /\
  (create = false -> w' = w) /\
  (create = true -> ok = true -> classified w' IsFolder (pathname p) = true).
Proof.
  unfold GetTemporaryFolder. rewrite run_bind.
  destruct (run posix fuel (temporary_root cfg path) w)
    as [[[[root|] w1] t1]|] eqn:Hroot; cbn [then_run]; [| |discriminate].
  2:{ apply temporary_root_posix in Hroot. subst w1. cbn.
      intros [= <- <- <- _]. repeat split; auto using adds_directories_refl.
      discriminate. }
  apply temporary_root_posix in Hroot. subst w1. rewrite run_bind.
  assert (Happ : exists t2,
             run posix fuel
               match append with
               | Some a =>
                   let* _ := ASSERT cfg (Ret (negb (string_empty a)))
                               "!append->empty()" in
                   Ret (AppendFolder root a)
               | None => Ret root
               end w
             = Some (match append with
                     | Some a => AppendFolder root a
                     | None => root
                     end, w, t2)).
  { destruct append as [a|]; [|cbn; eauto]. rewrite run_bind.
    destruct (posix_ASSERT_pure (negb (string_empty a)) "!append->empty()" w)
      as (ta & ->). cbn. eauto. }
  destruct Happ as (t2 & ->). cbn [then_run].
  destruct create; cbn [negb].
  - rewrite run_bind.
    destruct (run posix fuel (CreateFolder _) w) as [[[c w3] t3]|] eqn:Hc;
      cbn; [|discriminate].
    intros [= <- <- <- _]. split; [eapply CreateFolder_adds; eassumption|].
    split; [discriminate|]. intros _ ->.
    destruct (CreateFolder_true_stat _ _ _ _ _ Hc) as (st & Hst & Hdir).
    eapply stat_IsFolder; eassumption.
  - cbn. intros [= <- <- <- _]. repeat split; auto using adds_directories_refl.
    discriminate.
Qed.

End TemporaryPosix.

(** X11. The first [GetAppTempFolder], with nothing in the cache yet.  The
    path it produces is the temp root extended by
    [<application>-<pid>-<time>]; when it returns true that path names a
    folder and is now in the cache; when it returns false the cache is
    still empty.  Either way it has at most added directories. *)
Theorem GetAppTempFolder_makes_its_folder :
  forall (cfg : build) (fuel : nat) (w w' : posix_world) (m m' : members)
         (path p : Pathname) (ok : bool) (t : trace),
    app_temp_path_ m = "" ->
    run posix fuel (GetAppTempFolder cfg m path) w = Some ((ok, p, m'), w', t) ->
    adds_directories w w' /\
    match run posix fuel (temporary_root cfg path) w with
    | Some (Some root, _, _) =>
        p = AppendFolder root
              (application_name_ m +:+ "-" +:+ format_d (to_int (process_id w))
               +:+ "-" +:+ format_d (to_int (clock w)))
    | _ => ok = false
    end /\
    if ok then
      classified w' IsFolder (pathname p) = true /\
      m' = set_app_temp_path m (pathname p)
    else m' = m.
Proof.
  intros cfg fuel w w' m m' path p ok t Hcache.
  unfold GetAppTempFolder. rewrite run_bind.
  destruct (posix_ASSERT_pure cfg fuel
              (negb (string_empty (application_name_ m)))
              "!application_name_.empty()" w) as (ta & ->).
  cbn [then_run]. rewrite Hcache. cbn [string_empty String.length Nat.eqb negb].
  cbn [bind call run answer posix posix_answer].
  rewrite run_bind.
  set (folder := application_name_ m +:+ _).
  destruct (run posix fuel (GetTemporaryFolder cfg path true (Some folder)) w)
    as [[[[ok1 p1] w4] t4]|] eqn:Hget; cbn [then_run]; [|discriminate].
  pose proof (GetTemporaryFolder_path cfg posix fuel _ _ _ _ _ _ _ _ Hget) as Hp.
  apply GetTemporaryFolder_posix in Hget as (Hadds & _ & Hfolder).
  destruct ok1; cbn; intros [= <- <- <- <- _].
  - split; [assumption|]. split; [|auto].
    destruct (run posix fuel (temporary_root cfg path) w)
      as [[[[root|] w5] t5]|]; [assumption|now destruct Hp|contradiction].
  - split; [assumption|]. split; [|reflexivity].
    destruct (run posix fuel (temporary_root cfg path) w)
      as [[[[root|] w5] t5]|]; auto.
Qed.

Lemma GetAppTempFolder_makes_its_folder_witness :
  exists w' m' p t,
    run posix 0 (GetAppTempFolder release_build talk_members empty_Pathname)
      demo_world = Some ((true, p, m'), w', t) /\
    classified w' IsFolder (pathname p) = true /\
    m' = set_app_temp_path talk_members (pathname p).
Proof.
  assert (H : exists w' m' p t,
             run posix 0 (GetAppTempFolder release_build talk_members empty_Pathname)
               demo_world = Some ((true, p, m'), w', t)).
  { eexists _, _, _, _. vm_compute. reflexivity. }
  destruct H as (w' & m' & p & t & H). exists w', m', p, t. split; [exact H|].
  exact (proj2 (proj2 (GetAppTempFolder_makes_its_folder release_build 0
                         demo_world w' talk_members m' empty_Pathname p true t
                         eq_refl H))).
Defined.

(** ** IsTemporaryPath reads the text of the path *)

(** X12. [IsTemporaryPath] compares the beginning of the text and nothing
    else.  A temporary path stays one whatever is appended to it; where
    [/tmp] is a directory, [/tmp/../s] is a temporary path and names the
    node that [/s] names, for every [s]; and on Android every path whose
    text begins with [/sdcard] is one, whatever follows. *)
Theorem IsTemporaryPath_is_lexical :
  forall (cfg : build),
    (forall (p : Pathname) (suffix : string),
       IsTemporaryPath cfg p = true ->
       IsTemporaryPath cfg (Pathname_of (pathname p +:+ suffix)) = true) /\
    (forall (w : posix_world) (s : string),
       plat cfg <> PLAT_ANDROID ->
       node_at (nodes w) ["tmp"] = Some Dir ->
       IsTemporaryPath cfg (Pathname_of ("/tmp/../" +:+ s)) = true /\
       resolve w ("/tmp/../" +:+ s) = resolve w ("/" +:+ s)) /\
    (forall (s : string),
       plat cfg = PLAT_ANDROID ->
       IsTemporaryPath cfg (Pathname_of ("/sdcard" +:+ s)) = true).
Proof.
  intros cfg. unfold IsTemporaryPath. split; [|split].
  - intros p suffix H. rewrite pathname_Pathname_of.
    now apply has_prefix_in_app.
  - intros w s Hplat Htmp. split.
    + rewrite pathname_Pathname_of.
      change ("/tmp/../" +:+ s) with ("/tmp/" +:+ "../" +:+ s).
      apply has_prefix_in_app.
      destruct (plat cfg); [reflexivity|contradiction|reflexivity].
    + unfold resolve, start_of.
      change (string_empty ("/tmp/../" +:+ s)) with false.
      change (string_empty ("/" +:+ s)) with false.
      change (is_absolute ("/tmp/../" +:+ s)) with true.
      change (is_absolute ("/" +:+ s)) with true. cbv iota.
      change (split_path ("/tmp/../" +:+ s))
        with ("" :: split_path ("tmp" +:+ "/" +:+ ".." +:+ "/" +:+ s)).
      change (split_path ("/" +:+ s)) with ("" :: split_path s).
      rewrite !split_path_name by reflexivity.
      cbn [walk node_at String.eqb Ascii.eqb Bool.eqb orb tail] in Htmp |- *.
      now rewrite Htmp.
  - intros s ->. rewrite pathname_Pathname_of.
    change ("/sdcard" +:+ s) with (GetAndroidTempFolder +:+ s).
    apply has_prefix_in_app. reflexivity.
Qed.

Lemma IsTemporaryPath_is_lexical_witness :
  IsTemporaryPath release_build (Pathname_of "/tmp/../home/user") = true /\
  resolve demo_world "/tmp/../home/user" = resolve demo_world "/home/user".
Proof.
  exact (proj1 (proj2 (IsTemporaryPath_is_lexical release_build))
           demo_world "home/user" ltac:(discriminate) eq_refl).
Defined.

(** ** GetAppDataFolder *)

Lemma CreateFolder_pathname (p q : Pathname) :
  pathname p = pathname q -> CreateFolder p = CreateFolder q.
Proof. intros H. rewrite (CreateFolder_eq p), (CreateFolder_eq q), H. reflexivity. Qed.

Lemma ends_with_sep_app_sep (d : string) : ends_with_sep (d +:+ "/") = true.
Proof.
  unfold ends_with_sep, is_sep_at. rewrite length_app_sep.
  now rewrite get_app_sep.
Qed.

Lemma ends_with_sep_plain (f x : string) :
  plain x = true -> ends_with_sep (f +:+ x) = false.
Proof.
  intros (Hne & Hsep & _)%plain_inv. unfold ends_with_sep.
  rewrite length_append. destruct x as [|c x]; [discriminate|].
  cbn [String.length]. rewrite Nat.add_succ_r.
  unfold is_sep_at. rewrite get_append_right.
  fold (is_sep_at (String c x) (String.length x)). now apply has_sep_get.
Qed.

(** Appending a plain name to a folder path. *)
Lemma AppendFolder_plain (p : Pathname) (names : list string) (x : string) :
  folder_ p = folder_path names -> basename_ p = "" -> plain x = true ->
  folder_ (AppendFolder p x) = folder_path (names ++ [x]) /\
  basename_ (AppendFolder p x) = "".
Proof.
  intros Hf Hb Hx. unfold AppendFolder. cbn [folder_ basename_].
  split; [|assumption]. unfold terminate_folder.
  rewrite ends_with_sep_plain by assumption.
  rewrite length_append.
  destruct (folder_path_ends names) as (d & Hd).
  rewrite Hf, Hd, length_app_sep. cbn [Nat.add Nat.eqb negb andb].
  rewrite <- Hd, folder_path_snoc. now rewrite append_assoc.
Qed.

Section AppDataPosix.

Context (cfg : build) (pw_dir application_support : option string) (fuel : nat).

Lemma app_data_root_posix (path : Pathname) (per_user : bool) (w : posix_world) :
  exists t,
    run posix fuel (app_data_root cfg pw_dir application_support path per_user) w
    = Some (option_map (fun base => SetPathname2 path base "")
              (app_data_base cfg pw_dir application_support w per_user), w, t).
Proof.
  unfold app_data_root, app_data_base. destruct (plat cfg).
  - destruct per_user; [|cbn; eauto].
    destruct application_support; cbn; eauto.
  - cbn. eauto.
  - destruct per_user; [|cbn; eauto].
    cbn. destruct (environ w !! "DOTDIR"); cbn; [eauto|].
    destruct (environ w !! "HOME"); cbn; [eauto|].
    destruct pw_dir; cbn; eauto.
Qed.

End AppDataPosix.

(** X13. [GetAppDataFolder].  The folder is
    [<base>/<prefix><organization>/<application>/]: on Linux the base is
    [/var/cache/], or per user DOTDIR, else HOME, else the home of the
    password entry, with the prefix [.]; on Android it is [/sdcard]; on OSX
    the Application Support folder of the user.  When the base, closed by
    a separator, is an absolute folder path of plain names, the two names
    are plain and no regular file is in the way, the call returns true with
    that path, which is a folder afterwards; nothing off that path has
    changed.  Without a base it returns false, leaving the path and the
    system as they were. *)
Theorem GetAppDataFolder_creates_the_folder :
  forall (cfg : build) (pw_dir application_support : option string)
         (fuel : nat) (w : posix_world) (m : members) (path : Pathname)
         (per_user : bool),
    let org := app_data_prefix cfg per_user +:+ organization_name_ m in
    let base := app_data_base cfg pw_dir application_support w per_user in
    let get := GetAppDataFolder cfg pw_dir application_support m path per_user in
    (forall (dir : string) (above : list string),
       base = Some dir ->
       terminate_folder dir = folder_path above ->
       let names := above ++ [org; application_name_ m] in
       Forall (fun n => plain n = true) names ->
       well_formed (nodes w) ->
       (forall pre d, pre `prefix_of` names ->
                      node_at (nodes w) (rev pre) <> Some (File d)) ->
       exists w' t p,
         run posix fuel get w = Some ((true, p), w', t) /\
         pathname p = folder_path names /\
         classified w' IsFolder (pathname p) = true /\
         (forall k, ~ rev k `prefix_of` names -> nodes w' !! k = nodes w !! k)) /\
    (base = None ->
     exists t, run posix fuel get w = Some ((false, path), w, t)).
Proof.
  intros cfg pw_dir application_support fuel w m path per_user org base get.
  destruct (posix_ASSERT_pure cfg fuel
              (negb (string_empty (organization_name_ m)))
              "!organization_name_.empty()" w) as (t1 & H1).
  destruct (posix_ASSERT_pure cfg fuel
              (negb (string_empty (application_name_ m)))
              "!application_name_.empty()" w) as (t2 & H2).
  destruct (app_data_root_posix cfg pw_dir application_support fuel path
              per_user w) as (t3 & H3).
  fold base in H3. unfold get, GetAppDataFolder.
  rewrite run_bind, H1. cbn [then_run]. rewrite run_bind, H2. cbn [then_run].
  rewrite run_bind, H3. cbn [then_run]. fold org.
  split.
  - intros dir above Hbase Hdir Hplain Hwf Hfiles.
    set (names := above ++ [org; application_name_ m]) in *.
    rewrite Hbase. cbn [option_map].
    set (p := AppendFolder (AppendFolder _ org) (application_name_ m)).
    assert (Hp : pathname p = folder_path names).
    { apply Forall_app in Hplain as [_ Hplain].
      inversion Hplain as [|? ? Horg Hplain']; subst.
      inversion Hplain' as [|? ? Happ _]; subst.
      destruct (AppendFolder_plain (SetPathname2 path dir "") above org
                  Hdir eq_refl Horg) as [Hf1 Hb1].
      destruct (AppendFolder_plain _ (above ++ [org]) (application_name_ m)
                  Hf1 Hb1 Happ) as [Hf2 Hb2].
      unfold pathname. fold p in Hf2, Hb2. rewrite Hf2, Hb2, append_nil_r.
      unfold names. now rewrite <- app_assoc. }
    rewrite run_bind.
    rewrite (CreateFolder_pathname p (Pathname_of (folder_path names)))
      by (now rewrite pathname_Pathname_of).
    destruct (CreateFolder_chain fuel names w Hplain Hwf Hfiles)
      as (w' & t & Hrun & Hdirs & Hsame & _).
    rewrite Hrun. cbn. do 3 eexists. split; [reflexivity|].
    split; [assumption|]. split; [|assumption]. rewrite Hp.
    apply (stat_IsFolder _ _ {| st_mode := mode_of Dir |}); [|reflexivity].
    now apply stat_folder_path_dirs.
  - intros Hbase. rewrite Hbase. cbn. eauto.
Qed.

Lemma GetAppDataFolder_creates_the_folder_witness :
  exists w' t p,
    run posix 0
      (GetAppDataFolder release_build None None talk_members empty_Pathname true)
      home_world = Some ((true, p), w', t) /\
    pathname p = "/home/user/.google/talk/" /\
    classified w' IsFolder (pathname p) = true.
Proof.
  destruct (proj1 (GetAppDataFolder_creates_the_folder release_build None None 0
                     home_world talk_members empty_Pathname true)
              "/home/user" ["home"; "user"])
    as (w' & t & p & Hrun & Hp & Hfolder & _).
  - reflexivity.
  - reflexivity.
  - repeat constructor.
  - apply map_Forall_to_list. vm_compute. repeat constructor.
  - intros pre d [k Hk].
    destruct pre as [|a [|b [|c [|e [|f pre]]]]]; simpl in Hk; try discriminate;
      injection Hk as <-; subst; vm_compute; discriminate.
  - exists w', t, p. split; [exact Hrun|]. split; [exact Hp|exact Hfolder].
Defined.

(** ** GetAppPathname *)

Lemma c_string_terminated (buffer : list Byte.byte) (n : nat) :
  n < length buffer ->
  c_string (<[n := Byte.x00]> buffer) = c_string (take n buffer ++ [Byte.x00]).
Proof.
  revert n. induction buffer as [|b rest IH]; intros n Hn; simpl in Hn; [lia|].
  destruct n as [|n]; [reflexivity|]. cbn [take app c_string].
  change (<[S n := Byte.x00]> (b :: rest)) with (b :: <[n := Byte.x00]> rest).
  cbn [c_string]. destruct (Byte.eqb b Byte.x00); [reflexivity|].
  f_equal. apply IH. lia.
Qed.

(** X14. [GetAppPathname] does not notice that [readlink] failed.  The
    value [readlink] returns is kept in a [size_t], so the test [len <= 0]
    holds for 0 only: the result is false exactly when the link is empty;
    for a link of [n] bytes the path is set to those bytes, as far as
    the first NUL; and for the -1 of a failure the terminating NUL is
    stored at index [2^bits - 1], outside of the buffer. *)
Theorem GetAppPathname_misses_failure :
  forall (size_bits : Z) (path : Pathname) (returned : Z)
         (buffer : list Byte.byte),
    (9 <= size_bits)%Z ->
    length buffer = NAME_MAX + 1 ->
    (-1 <= returned <= Z.of_nat NAME_MAX)%Z ->
    match GetAppPathname size_bits path returned buffer with
    | Returns false p => returned = 0%Z /\ p = path
    | Returns true p =>
        (0 < returned)%Z /\
        pathname p = c_string (take (Z.to_nat returned) buffer ++ [Byte.x00])
    | StoresOutside index =>
        returned = (-1)%Z /\ index = (2 ^ size_bits - 1)%Z /\
        (Z.of_nat (length buffer) <= index)%Z
    end.
Proof.
  intros size_bits path returned buffer Hbits Hlen Hret.
  unfold GetAppPathname, to_size_t. rewrite Hlen. unfold NAME_MAX in *.
  assert (Hpow : (2 ^ 9 <= 2 ^ size_bits)%Z)
    by (apply Z.pow_le_mono_r; lia).
  change (2 ^ 9)%Z with 512%Z in Hpow.
  destruct (Z.eq_dec returned (-1)%Z) as [->|Hne].
  - replace (-1 mod 2 ^ size_bits)%Z with (2 ^ size_bits - 1)%Z.
    2:{ apply Z.mod_unique with (q := (-1)%Z); lia. }
    destruct (Z.leb_spec (2 ^ size_bits - 1) 0); [lia|].
    destruct (Z.ltb_spec (2 ^ size_bits - 1) (Z.of_nat (255 + 1))); lia.
  - rewrite Z.mod_small by lia.
    destruct (Z.leb_spec returned 0); [split; [lia|reflexivity]|].
    destruct (Z.ltb_spec returned (Z.of_nat (255 + 1))); [|lia].
    split; [assumption|]. rewrite pathname_SetPathname.
    apply c_string_terminated. lia.
Qed.

Lemma GetAppPathname_misses_failure_witness :
  GetAppPathname 64 empty_Pathname (-1) (replicate 256 Byte.x00)
  = StoresOutside (2 ^ 64 - 1).
Proof.
  pose proof (GetAppPathname_misses_failure 64 empty_Pathname (-1)
                (replicate 256 Byte.x00) ltac:(lia) eq_refl ltac:(cbn; lia))
    as H.
  destruct (GetAppPathname 64 empty_Pathname (-1) (replicate 256 Byte.x00))
    as [[] p|index].
  - destruct H as [H _]. discriminate H.
  - destruct H as [H _]. lia.
  - destruct H as (_ & -> & _). reflexivity.
Defined.

(** ** CreateFolder and DeleteEmptyFolder: there and back *)

Lemma parent_folder_snoc (names : list string) (n : string) :
  plain n = true ->
  parent_folder (folder_path (names ++ [n])) = folder_path names.
Proof.
  intros (_ & Hn & _)%plain_inv.
  destruct (folder_path_ends names) as (d & Hd).
  rewrite folder_path_snoc, Hd. now apply parent_folder_name.
Qed.

Lemma substr0_app_sep (x : string) :
  substr0 (x +:+ "/") (String.length (x +:+ "/") - 1) = x.
Proof.
  rewrite length_app_sep. replace (S (String.length x) - 1) with (String.length x) by lia.
  apply substr0_append.
Qed.

(** The folder path without its last separator. *)
Lemma folder_path_no_slash (names : list string) (n : string) :
  Forall (fun n => plain n = true) (names ++ [n]) ->
  let p := folder_path (names ++ [n]) in
  let no_slash := substr0 p (String.length p - 1) in
  string_empty no_slash = false /\ is_absolute no_slash = true /\
  split_path no_slash = "" :: names ++ [n].
Proof.
  intros Hplain p no_slash.
  assert (Hp : p = ("/" +:+ join names +:+ n) +:+ "/").
  { unfold p, folder_path. now rewrite join_snoc, !append_assoc. }
  assert (Hno : no_slash = "/" +:+ join names +:+ n).
  { unfold no_slash. rewrite Hp. apply substr0_app_sep. }
  rewrite Hno. split; [reflexivity|]. split; [reflexivity|].
  pose proof (split_path_folder_path _ Hplain) as Hsplit. fold p in Hsplit.
  rewrite Hp, split_path_app_sep in Hsplit.
  rewrite (app_comm_cons _ _ "") in Hsplit.
  now apply app_inj_tail in Hsplit as [-> _].
Qed.

Lemma has_children_fresh (fs : gmap (list string) node) (k : list string) :
  well_formed fs -> k <> [] -> fs !! k = None ->
  has_children (<[k := Dir]> fs) k = false.
Proof.
  intros Hwf Hk0 Hk. apply not_true_is_false. unfold has_children.
  intros ([k' v] & Hin & Hdec)%existsb_exists.
  apply list_elem_of_In, elem_of_map_to_list in Hin.
  apply bool_decide_eq_true in Hdec. cbn [fst] in Hdec.
  destruct (decide (k = k')) as [<-|Hne].
  - destruct k as [|c k]; [congruence|]. cbn [tail] in Hdec.
    apply (f_equal length) in Hdec. simpl in Hdec. lia.
  - rewrite lookup_insert_ne in Hin by assumption.
    apply Hwf in Hin. rewrite Hdec in Hin.
    destruct k; [congruence|]. cbn [node_at] in Hin. congruence.
Qed.

Lemma set_nodes_back (w : posix_world) (k : list string) :
  nodes w !! k = None ->
  set_nodes (set_nodes w (<[k := Dir]> (nodes w)) (free_space w))
    (delete k (<[k := Dir]> (nodes w))) (free_space w) = w.
Proof.
  intros Hk. destruct w. unfold set_nodes. cbn in *.
  now rewrite delete_insert_id.
Qed.

(** X15. [DeleteEmptyFolder] undoes [CreateFolder].  For an absolute
    folder path of plain names whose parent folder exists and which does
    not exist itself, [CreateFolder] followed by [DeleteEmptyFolder] on
    the same path succeeds twice and leaves the system exactly as it was. *)
Theorem CreateFolder_then_DeleteEmptyFolder :
  forall (cfg : build) (fuel : nat) (w : posix_world) (names : list string)
         (n : string),
    Forall (fun n => plain n = true) (names ++ [n]) ->
    well_formed (nodes w) ->
    (forall pre, pre `prefix_of` names ->
                 node_at (nodes w) (rev pre) = Some Dir) ->
    nodes w !! (n :: rev names) = None ->
    let folder := Pathname_of (folder_path (names ++ [n])) in
    exists t,
      run posix fuel
        (let* created := CreateFolder folder in
         let* deleted := DeleteEmptyFolder cfg folder in
         Ret (created, deleted)) w
      = Some ((true, true), w, t).
Proof.
  intros cfg fuel w names n Hplain Hwf Hdirs Hnone folder.
  pose proof Hplain as Hplain'.
  apply Forall_app in Hplain' as [Hnames Hn]. inversion Hn as [|? ? Hpn _]; subst.
  set (K := n :: rev names) in *.
  assert (HK : node_at (nodes w) K = None) by exact Hnone.
  set (w1 := set_nodes w (<[K := Dir]> (nodes w)) (free_space w)).
  (* CreateFolder *)
  assert (Hcreate : exists t1, run posix fuel (CreateFolder folder) w
                               = Some (true, w1, t1)).
  { unfold folder. rewrite run_CreateFolder, pathname_Pathname_of,
      folder_path_terminated. cbn [answer posix posix_answer].
    destruct (stat_folder_path w (names ++ [n]) Hplain Hwf) as [[_ Habs]|[-> _]].
    { intros pre d [->|Hpre]%prefix_snoc_cases.
      - rewrite rev_unit. fold K. congruence.
      - rewrite (Hdirs pre Hpre). discriminate. }
    { specialize (Habs (names ++ [n]) ltac:(reflexivity)).
      rewrite rev_unit in Habs. fold K in Habs. congruence. }
    cbn [errno_eqb]. rewrite parent_folder_snoc by assumption.
    rewrite run_CreateFolder, pathname_Pathname_of, folder_path_terminated.
    cbn [answer posix posix_answer].
    rewrite (stat_folder_path_dirs w names Hnames Hdirs).
    change (S_ISDIR (st_mode {| st_mode := mode_of Dir |})) with true.
    rewrite (mkdir_folder_path w names n Hplain Hdirs Hnone).
    cbn. eauto. }
  destruct Hcreate as (t1 & Hcreate).
  (* DeleteEmptyFolder *)
  assert (Hdirs1 : forall pre, pre `prefix_of` names ++ [n] ->
                               node_at (nodes w1) (rev pre) = Some Dir).
  { intros pre [->|Hpre]%prefix_snoc_cases; cbn [nodes w1 set_nodes].
    - rewrite rev_unit. apply node_at_insert_dir.
    - now apply keeps_dirs_insert, Hdirs. }
  assert (Hdelete : exists t2, run posix fuel (DeleteEmptyFolder cfg folder) w1
                               = Some (true, w, t2)).
  { unfold DeleteEmptyFolder. rewrite run_bind.
    rewrite (run_IsFolder posix fuel folder w1 w1
               (posix_stat w1 (pathname folder)) eq_refl).
    unfold folder at 1. rewrite pathname_Pathname_of.
    rewrite (stat_folder_path_dirs w1 _ Hplain Hdirs1).
    cbn [then_run]. cbv beta iota.
    change (negb (S_ISDIR (st_mode {| st_mode := mode_of Dir |}))) with false.
    cbv iota. unfold folder. rewrite pathname_Pathname_of.
    destruct (folder_path_no_slash names n Hplain) as (Hne & Habs & Hsplit).
    set (no_slash := substr0 _ _) in *.
    assert (Hrm : posix_rmdir w1 no_slash = (Done, w)).
    { unfold posix_rmdir, resolve, start_of. rewrite Hne, Habs, Hsplit.
      change (walk (nodes w1) [] ("" :: names ++ [n]))
        with (walk (nodes w1) (rev []) (names ++ [n])).
      rewrite walk_plain; [|assumption|].
      2:{ intros pre Hpre _. now apply Hdirs1. }
      cbn [app]. rewrite rev_unit. fold K.
      assert (HK1 : node_at (nodes w1) K = Some Dir) by apply node_at_insert_dir.
      rewrite HK1. unfold K at 1. cbn [nodes w1 set_nodes free_space].
      rewrite has_children_fresh by (assumption || discriminate).
      f_equal. now apply set_nodes_back. }
    rewrite run_bind, (run_call posix fuel (sys_rmdir no_slash) w1 Done w Hrm).
    cbn. eauto. }
  destruct Hdelete as (t2 & Hdelete).
  rewrite run_bind, Hcreate. cbn [then_run].
  rewrite run_bind, Hdelete. cbn. eauto.
Qed.

Lemma CreateFolder_then_DeleteEmptyFolder_witness :
  exists t,
    run posix 0
      (let* created := CreateFolder (Pathname_of "/tmp/x/") in
       let* deleted := DeleteEmptyFolder release_build (Pathname_of "/tmp/x/") in
       Ret (created, deleted)) demo_world
    = Some ((true, true), demo_world, t).
Proof.
  apply (CreateFolder_then_DeleteEmptyFolder release_build 0 demo_world ["tmp"] "x").
  - repeat constructor.
  - apply map_Forall_to_list. vm_compute. repeat constructor.
  - intros pre [k Hk].
    destruct pre as [|a [|b pre]]; [reflexivity| |discriminate Hk].
    injection Hk as <- _. reflexivity.
  - reflexivity.
Defined.

(** ** MoveFolder: renaming a tree *)

Lemma map_fmap {A B} (f : A -> B) (l : list A) : map f l = f <$> l.
Proof. induction l as [|x l IH]; [reflexivity|]. cbn. now rewrite IH. Qed.

Lemma rebase_under (ko kn x : list string) :
  rebase ko kn (x ++ ko) = x ++ kn.
Proof.
  unfold rebase. rewrite bool_decide_eq_true_2 by (now exists x).
  rewrite length_app, Nat.add_sub. now rewrite take_app_length.
Qed.

Lemma rebase_off (ko kn k : list string) :
  ~ ko `suffix_of` k -> rebase ko kn k = k.
Proof. intros H. unfold rebase. now rewrite bool_decide_eq_false_2. Qed.

(** In a well-formed name space nothing lies below a name that is not
    there. *)
Lemma well_formed_absent fs (k x : list string) :
  well_formed fs -> node_at fs k = None -> fs !! (x ++ k) = None.
Proof.
  intros Hwf Hk. induction x as [|c x IH].
  - destruct k; [discriminate|exact Hk].
  - destruct (fs !! ((c :: x) ++ k)) as [n|] eqn:E; [|reflexivity].
    apply Hwf in E. cbn [app tail] in E.
    destruct (x ++ k) eqn:Hxk; [|cbn [node_at] in E; congruence].
    apply app_eq_nil in Hxk as [_ ->]. discriminate.
Qed.

Section MoveTree.

Context (fs : gmap (list string) node) (ko kn : list string).
Hypothesis (Hwf : well_formed fs).
Hypothesis (Hko : node_at fs ko = Some Dir) (Hko0 : ko <> []).
Hypothesis (Hkn : node_at fs kn = None).
Hypothesis (Hinto : ~ ko `suffix_of` kn).

Lemma nothing_under_new (x : list string) : fs !! (x ++ kn) = None.
Proof. now apply well_formed_absent. Qed.

Lemma new_not_above_old : ~ kn `suffix_of` ko.
Proof.
  intros [x ->]. destruct (x ++ kn) eqn:E; [congruence|].
  cbn [node_at] in Hko. rewrite <- E, nothing_under_new in Hko. discriminate.
Qed.

Lemma rebase_injective (k1 k2 : list string) :
  is_Some (fs !! k1) -> is_Some (fs !! k2) ->
  rebase ko kn k1 = rebase ko kn k2 -> k1 = k2.
Proof.
  intros [n1 H1] [n2 H2].
  destruct (decide (ko `suffix_of` k1)) as [[x1 ->]|Hoff1];
    destruct (decide (ko `suffix_of` k2)) as [[x2 ->]|Hoff2].
  - rewrite !rebase_under. now intros ->%app_inv_tail.
  - rewrite rebase_under, (rebase_off _ _ _ Hoff2).
    intros <-. now rewrite nothing_under_new in H2.
  - rewrite rebase_under, (rebase_off _ _ _ Hoff1).
    intros ->. now rewrite nothing_under_new in H1.
  - now rewrite (rebase_off _ _ _ Hoff1), (rebase_off _ _ _ Hoff2).
Qed.

Lemma lookup_move_tree (k' : list string) (v : node) :
  move_tree ko kn fs !! k' = Some v <->
  exists k, fs !! k = Some v /\ rebase ko kn k = k'.
Proof.
  unfold move_tree. rewrite map_fmap.
  rewrite <- elem_of_list_to_map.
  - rewrite list_elem_of_fmap. split.
    + intros ([k n] & [= -> ->] & Hin%elem_of_map_to_list). eauto.
    + intros (k & Hk & <-). exists (k, v). split; [reflexivity|].
      now apply elem_of_map_to_list.
  - rewrite <- list_fmap_compose.
    apply (NoDup_fmap_2_strong _ (map_to_list fs)); [|apply NoDup_map_to_list].
    intros [k1 n1] [k2 n2] H1%elem_of_map_to_list H2%elem_of_map_to_list Heq.
    cbn in Heq. apply rebase_injective in Heq; [|eauto..]. subst k2.
    f_equal. congruence.
Qed.

(** What was below the old name is below the new name. *)
Lemma move_tree_moved (x : list string) :
  move_tree ko kn fs !! (x ++ kn) = fs !! (x ++ ko).
Proof.
  destruct (fs !! (x ++ ko)) as [v|] eqn:E.
  - apply lookup_move_tree. exists (x ++ ko). split; [assumption|].
    apply rebase_under.
  - destruct (move_tree ko kn fs !! (x ++ kn)) as [v|] eqn:E'; [|reflexivity].
    apply lookup_move_tree in E' as (k & Hk & Hre).
    destruct (decide (ko `suffix_of` k)) as [[y ->]|Hoff].
    + rewrite rebase_under in Hre. apply app_inv_tail in Hre. congruence.
    + rewrite rebase_off in Hre by assumption. subst k.
      now rewrite nothing_under_new in Hk.
Qed.

(** Nothing is left below the old name. *)
Lemma move_tree_gone (x : list string) :
  move_tree ko kn fs !! (x ++ ko) = None.
Proof.
  destruct (move_tree ko kn fs !! (x ++ ko)) as [v|] eqn:E; [|reflexivity].
  apply lookup_move_tree in E as (k & Hk & Hre).
  destruct (decide (ko `suffix_of` k)) as [[y ->]|Hoff].
  - rewrite rebase_under in Hre.
    destruct (suffix_weak_total ko kn (x ++ ko)) as [H|H].
    + now exists x.
    + exists y. now rewrite Hre.
    + contradiction.
    + now apply new_not_above_old in H.
  - rewrite rebase_off in Hre by assumption. subst k.
    exfalso. apply Hoff. now exists x.
Qed.

(** Every other name is as it was. *)
Lemma move_tree_other (k : list string) :
  ~ ko `suffix_of` k -> ~ kn `suffix_of` k ->
  move_tree ko kn fs !! k = fs !! k.
Proof.
  intros Hoff Hoff'. destruct (fs !! k) as [v|] eqn:E.
  - apply lookup_move_tree. exists k. split; [assumption|].
    now apply rebase_off.
  - destruct (move_tree ko kn fs !! k) as [v|] eqn:E'; [|reflexivity].
    apply lookup_move_tree in E' as (k0 & Hk & Hre).
    destruct (decide (ko `suffix_of` k0)) as [[y ->]|Hoff0].
    + rewrite rebase_under in Hre. subst k. exfalso. apply Hoff'. now exists y.
    + rewrite rebase_off in Hre by assumption. congruence.
Qed.

End MoveTree.

Lemma suffix_rev (l1 l2 : list string) :
  rev l1 `suffix_of` rev l2 <-> l1 `prefix_of` l2.
Proof.
  split.
  - intros [k Hk]. exists (rev k).
    rewrite <- (rev_involutive l2), Hk, rev_app_distr. now rewrite rev_involutive.
  - intros [k ->]. exists (rev k). apply rev_app_distr.
Qed.

(** Where a folder path leads, all of whose prefixes are directories. *)
Lemma resolve_folder_path (w : posix_world) (names : list string) :
  Forall (fun n => plain n = true) names ->
  (forall pre, pre `prefix_of` names -> node_at (nodes w) (rev pre) = Some Dir) ->
  resolve w (folder_path names) = inr (rev names).
Proof.
  intros Hplain Hdirs. unfold resolve.
  destruct (folder_path_absolute names w) as [-> ->].
  rewrite split_path_folder_path by assumption.
  change (walk (nodes w) [] ("" :: names ++ [""]))
    with (walk (nodes w) (rev []) (names ++ [""])).
  rewrite walk_app, walk_plain by auto.
  cbn [app walk]. now rewrite (Hdirs names).
Qed.

Lemma resolve_dir_folder_path (w : posix_world) (names : list string) (n : string) :
  Forall (fun n => plain n = true) (names ++ [n]) ->
  (forall pre, pre `prefix_of` names -> node_at (nodes w) (rev pre) = Some Dir) ->
  resolve_dir w (folder_path (names ++ [n])) = inr (n :: rev names).
Proof.
  intros Hplain Hdirs. unfold resolve_dir.
  destruct (folder_path_absolute (names ++ [n]) w) as [-> ->].
  rewrite split_path_folder_path by assumption.
  assert (Hn : String.eqb n "" = false).
  { apply Forall_app in Hplain as [_ Hn]. inversion Hn as [|? ? Hp _]; subst.
    now apply plain_inv in Hp. }
  rewrite app_comm_cons, drop_trailing_empty_snoc_empty.
  rewrite app_comm_cons, drop_trailing_empty_snoc by assumption.
  change (walk (nodes w) [] (("" :: names) ++ [n]))
    with (walk (nodes w) (rev []) (names ++ [n])).
  rewrite walk_plain; [|assumption|].
  - cbn [app]. now rewrite rev_unit.
  - intros pre Hpre Hne. apply Hdirs.
    apply prefix_snoc_cases in Hpre as [->|Hpre]; [contradiction|assumption].
Qed.

(** [stat] on a folder path whose parent is there and which is not. *)
Lemma stat_folder_path_absent (w : posix_world) (names : list string) (n : string) :
  Forall (fun n => plain n = true) (names ++ [n]) ->
  (forall pre, pre `prefix_of` names -> node_at (nodes w) (rev pre) = Some Dir) ->
  nodes w !! (n :: rev names) = None ->
  posix_stat w (folder_path (names ++ [n])) = StatErr ENOENT.
Proof.
  intros Hplain Hdirs Hnone. unfold posix_stat, resolve.
  destruct (folder_path_absolute (names ++ [n]) w) as [-> ->].
  rewrite split_path_folder_path by assumption.
  change (walk (nodes w) [] ("" :: (names ++ [n]) ++ [""]))
    with (walk (nodes w) (rev []) ((names ++ [n]) ++ [""])).
  rewrite walk_app, walk_plain; [|assumption|].
  - cbn [app walk]. rewrite rev_unit. cbn [node_at]. now rewrite Hnone.
  - intros pre Hpre Hne. apply Hdirs.
    apply prefix_snoc_cases in Hpre as [->|Hpre]; [contradiction|assumption].
Qed.

Lemma node_at_lookup (fs : gmap (list string) node) (k : list string) :
  k <> [] -> node_at fs k = fs !! k.
Proof. now destruct k. Qed.

(** X16. [MoveFolder].  On every system, when [rename] succeeds or fails
    with an error other than EXDEV, [MoveFolder] returns at once, with true
    or false: neither [CopyFolder] nor [DeleteFolderAndContents] is run,
    whatever they are.  In the model, for absolute folder paths of plain
    names on one device, an existing folder [old] and a new path that does
    not exist, whose parent does and which is not inside [old],
    [MoveFolder] succeeds by the one [rename]; afterwards the old path is
    absent, the new path is a folder, everything that was below the old
    name is below the new one, and every other name is as it was. *)
Theorem MoveFolder_renames_the_tree :
  forall (cfg : build) (CopyFolder : Pathname -> Pathname -> prog bool)
         (DeleteFolderAndContents : Pathname -> prog bool),
    (forall (os : OS) (fuel : nat) (w w1 w2 : world os)
            (old_path new_path : Pathname) (t1 : trace) (res : sysret),
       run os fuel (IsFolder old_path) w = Some (true, w1, t1) ->
       answer os (sys_rename (pathname old_path) (pathname new_path)) w1
       = (res, w2) ->
       res <> Fail EXDEV ->
       run os fuel
         (MoveFolder cfg CopyFolder DeleteFolderAndContents old_path new_path) w
       = Some (match res with Done => true | Fail _ => false end, w2,
               t1 ++ [Ev (sys_rename (pathname old_path) (pathname new_path)) res])) /\
    (forall (fuel : nat) (w : posix_world) (olds news : list string)
            (o n : string),
       let old := olds ++ [o] in
       let new := news ++ [n] in
       Forall (fun n => plain n = true) old ->
       Forall (fun n => plain n = true) new ->
       well_formed (nodes w) ->
       (forall pre, pre `prefix_of` old -> node_at (nodes w) (rev pre) = Some Dir) ->
       (forall pre, pre `prefix_of` news -> node_at (nodes w) (rev pre) = Some Dir) ->
       nodes w !! rev new = None ->
       device w (rev old) = device w (rev new) ->
       ~ old `prefix_of` news ->
       exists w' t,
         run posix fuel
           (MoveFolder cfg CopyFolder DeleteFolderAndContents
              (Pathname_of (folder_path old)) (Pathname_of (folder_path new))) w
         = Some (true, w', t) /\
         length t = 2 /\
         classified w' IsAbsent (folder_path old) = true /\
         classified w' IsFolder (folder_path new) = true /\
         (forall x, nodes w' !! (x ++ rev new) = nodes w !! (x ++ rev old)) /\
         (forall k, ~ rev old `suffix_of` k -> ~ rev new `suffix_of` k ->
                    nodes w' !! k = nodes w !! k)).
Proof.
  intros cfg CopyFolder DeleteFolderAndContents. split.
  - intros os fuel w w1 w2 old_path new_path t1 res Hfolder Hrename Hres.
    unfold MoveFolder. rewrite run_bind, Hfolder. cbn [then_run negb].
    rewrite run_bind, (run_call os fuel _ _ _ _ Hrename). cbn [then_run].
    destruct res as [|e]; [reflexivity|].
    destruct (errno_eqb e EXDEV) eqn:He; [|reflexivity].
    apply errno_eqb_eq in He. congruence.
  - intros fuel w olds news o n old new Hpold Hpnew Hwf Hold Hnews Hnone Hdev Hinto.
    assert (Hrold : rev old = o :: rev olds) by apply rev_unit.
    assert (Hrnew : rev new = n :: rev news) by apply rev_unit.
    assert (Hko : node_at (nodes w) (rev old) = Some Dir) by now apply Hold.
    assert (Hko0 : rev old <> []) by (rewrite Hrold; discriminate).
    assert (Hkn : node_at (nodes w) (rev new) = None).
    { rewrite Hrnew in *. exact Hnone. }
    assert (Hne : old <> new).
    { intros E. rewrite E in Hko. congruence. }
    assert (Hnotin : ~ rev old `suffix_of` rev new).
    { intros [->|H]%suffix_rev%prefix_snoc_cases; contradiction. }
    set (w' := set_nodes w (move_tree (rev old) (rev new) (nodes w)) (free_space w)).
    assert (Hrename : posix_rename w (folder_path old) (folder_path new) = (Done, w')).
    { unfold posix_rename.
      rewrite (resolve_folder_path w old Hpold Hold), Hko.
      unfold new at 1. rewrite (resolve_dir_folder_path w news n Hpnew Hnews).
      rewrite <- Hrnew.
      rewrite bool_decide_eq_false_2
        by (intros E; apply Hne; rewrite <- (rev_involutive old), E;
            apply rev_involutive).
      rewrite Hdev, Nat.eqb_refl. cbn [negb].
      rewrite bool_decide_eq_false_2 by assumption.
      assert (Hpar : parent_is_dir (nodes w) (rev new) = true).
      { rewrite Hrnew. cbn [parent_is_dir]. now rewrite (Hnews news). }
      now rewrite Hkn, Hpar. }
    assert (Hother : forall pre,
               ~ old `prefix_of` pre -> ~ new `prefix_of` pre ->
               node_at (nodes w') (rev pre) = node_at (nodes w) (rev pre)).
    { intros pre H1 H2.
      destruct (decide (rev pre = [])) as [->|Hne0]; [reflexivity|].
      rewrite !node_at_lookup by assumption. cbn [nodes w' set_nodes].
      apply (move_tree_other (nodes w) _ _ Hwf Hkn); now rewrite suffix_rev. }
    assert (Hlonger : forall pre l (x : string),
               pre `prefix_of` l -> ~ (l ++ [x]) `prefix_of` pre).
    { intros pre l x Hpre H%prefix_length. apply prefix_length in Hpre.
      rewrite length_app in H. simpl in H. lia. }
    exists w'. eexists. split; [|split; [|split; [|split; [|split]]]].
    + unfold MoveFolder. rewrite run_bind.
      rewrite (run_IsFolder posix fuel _ w w _ eq_refl), pathname_Pathname_of.
      cbn [answer posix posix_answer fst].
      rewrite (stat_folder_path_dirs w old Hpold Hold).
      cbn [then_run]. cbv beta iota.
      change (negb (S_ISDIR (st_mode {| st_mode := mode_of Dir |}))) with false.
      cbv iota. rewrite !pathname_Pathname_of, run_bind.
      rewrite (run_call posix fuel (sys_rename _ _) w Done w' Hrename).
      reflexivity.
    + reflexivity.
    + apply classified_IsAbsent. unfold old.
      apply stat_folder_path_absent; [assumption| |].
      * intros pre Hpre. rewrite Hother.
        -- apply Hold. now apply prefix_app_r.
        -- now apply Hlonger.
        -- intros H.
           assert (Hb : new `prefix_of` old).
           { etransitivity; [exact H|]. now apply prefix_app_r. }
           rewrite (Hold new Hb) in Hkn. discriminate.
      * rewrite <- Hrold.
        apply (move_tree_gone (nodes w) _ _ Hwf Hko Hko0 Hkn Hnotin []).
    + apply (stat_IsFolder _ _ {| st_mode := mode_of Dir |}); [|reflexivity].
      apply stat_folder_path_dirs; [assumption|].
      intros pre [->|Hpre]%prefix_snoc_cases.
      * fold new. rewrite node_at_lookup by (rewrite Hrnew; discriminate).
        cbn [nodes w' set_nodes].
        rewrite (move_tree_moved (nodes w) _ _ Hwf Hkn []).
        cbn [app]. now rewrite <- node_at_lookup.
      * rewrite Hother.
        -- now apply Hnews.
        -- intros H. apply Hinto. now transitivity pre.
        -- now apply Hlonger.
    + intros x. apply (move_tree_moved (nodes w) _ _ Hwf Hkn).
    + intros k. apply (move_tree_other (nodes w) _ _ Hwf Hkn).
Qed.

Lemma MoveFolder_renames_the_tree_witness :
  exists w' t,
    run posix 0
      (MoveFolder release_build (fun _ _ => Ret false) (fun _ => Ret false)
         (Pathname_of "/home/user/src/") (Pathname_of "/tmp/src/")) tree_world
    = Some (true, w', t) /\
    classified w' IsAbsent "/home/user/src/" = true /\
    nodes w' !! ["main.c"; "src"; "tmp"] = Some (File ABC).
Proof.
  destruct (proj2 (MoveFolder_renames_the_tree release_build
                     (fun _ _ => Ret false) (fun _ => Ret false))
              0 tree_world ["home"; "user"] ["tmp"] "src" "src")
    as (w' & t & Hrun & _ & Hold & _ & Hmoved & _).
  - repeat constructor.
  - repeat constructor.
  - apply map_Forall_to_list. vm_compute. repeat constructor.
  - intros pre [k Hk].
    destruct pre as [|a [|b [|c [|e pre]]]];
      [reflexivity| | | |discriminate Hk].
    + injection Hk as <- _. reflexivity.
    + injection Hk as <- <- _. reflexivity.
    + injection Hk as <- <- <- _. reflexivity.
  - intros pre [k Hk].
    destruct pre as [|a [|b pre]]; [reflexivity| |discriminate Hk].
    injection Hk as <- _. reflexivity.
  - reflexivity.
  - reflexivity.
  - intros [k Hk]. discriminate Hk.
  - exists w', t. split; [exact Hrun|]. split; [exact Hold|].
    exact (Hmoved ["main.c"]).
Defined.

(** ** CreateFolder: a regular file in the way *)

(** X17. [CreateFolder] gives up at once when a regular file is in the
    way.  In a name space where every node has a directory as its parent,
    for an absolute folder path of plain names one of whose prefixes, or
    the path itself, is a regular file, [stat] answers ENOTDIR and
    [CreateFolder] returns false after that one call, changing nothing. *)
Theorem CreateFolder_stops_at_a_file :
  forall (fuel : nat) (w : posix_world) (names pre : list string)
         (d : list Byte.byte),
    Forall (fun n => plain n = true) names ->
    well_formed (nodes w) ->
    pre `prefix_of` names ->
    node_at (nodes w) (rev pre) = Some (File d) ->
    run posix fuel (CreateFolder (Pathname_of (folder_path names))) w
    = Some (false, w, [Ev (sys_stat (folder_path names)) (StatErr ENOTDIR)]).
Proof.
  intros fuel w names pre d Hplain Hwf [k ->] Hfile.
  assert (Hstat : posix_stat w (folder_path (pre ++ k)) = StatErr ENOTDIR).
  { unfold posix_stat, resolve.
    destruct (folder_path_absolute (pre ++ k) w) as [-> ->].
    rewrite split_path_folder_path by assumption.
    change (walk (nodes w) [] ("" :: (pre ++ k) ++ [""]))
      with (walk (nodes w) (rev []) ((pre ++ k) ++ [""])).
    rewrite <- app_assoc, walk_app, walk_plain.
    - cbn [app]. destruct (k ++ [""]) as [|c rest] eqn:Hk.
      + now apply app_eq_nil in Hk as [_ [=]].
      + cbn [walk]. now rewrite Hfile.
    - now apply Forall_app in Hplain as [Hp _].
    - intros pre' Hpre' Hne. cbn [app].
      eapply well_formed_prefix; eassumption. }
  rewrite run_CreateFolder, pathname_Pathname_of, folder_path_terminated.
  cbn [answer posix posix_answer]. now rewrite Hstat.
Qed.

Lemma CreateFolder_stops_at_a_file_witness :
  run posix 0 (CreateFolder (Pathname_of "/tmp/a/b/")) demo_world
  = Some (false, demo_world, [Ev (sys_stat "/tmp/a/b/") (StatErr ENOTDIR)]).
Proof.
  apply (CreateFolder_stops_at_a_file 0 demo_world ["tmp"; "a"; "b"]
           ["tmp"; "a"] ABC).
  - repeat constructor.
  - apply map_Forall_to_list. vm_compute. repeat constructor.
  - now exists ["b"].
  - reflexivity.
Defined.
